(** * llm0-gateway-starter: a shallow embedding of the dispatch core

    The development follows the Go sources: the exact-match cache
    ([internal/gateway/cache/cache.go]), the provider manager with its
    failover loop ([internal/gateway/providers/manager.go]), the Anthropic
    request translation, the Redis client with its rate limiter
    ([internal/shared/redis]), the rate-limit middleware and the chat
    handler.  Go strings are byte strings and are modelled by [string];
    Go [int]/[int64] values are modelled by [Z] with the 64-bit wrap-around
    written out where the source computes with them; [float64] is modelled
    by the executable IEEE-754 specification [spec_float] of the Standard
    Library (binary64: precision 53, maximal exponent 1024). *)

From Stdlib Require Import ZArith NArith PArith List Bool Ascii String Lia.
From Stdlib Require Import SpecFloat.
From stdpp Require Import base option list strings gmap.

Local Open Scope string_scope.
Local Open Scope Z_scope.

(** ** Strings: the pieces of Go's [strings] and [fmt] the sources use *)

Module GoStrings.

(** [strings.HasPrefix(s, prefix)]. *)
Fixpoint HasPrefix (s prefix : string) {struct prefix} : bool :=
  match prefix, s with
  | EmptyString, _ => true
  | String c p', String d s' => if Ascii.eqb c d then HasPrefix s' p' else false
  | String _ _, EmptyString => false
  end.

(** [strings.Contains(s, substr)]: some suffix of [s] starts with [substr]. *)
Fixpoint Contains (s substr : string) : bool :=
  HasPrefix s substr ||
  match s with
  | EmptyString => false
  | String _ s' => Contains s' substr
  end.

Definition digit_char (d : Z) : ascii :=
  ascii_of_N (Z.to_N (if d <? 10 then 48 + d else 87 + d)).

(** Digits of a non-negative number in the given base, most significant
    first; [fuel] bounds the number of digits. *)
Fixpoint digits_fuel (fuel : nat) (base n : Z) (acc : string) : string :=
  match fuel with
  | O => acc
  | S fuel' =>
      let acc' := String (digit_char (n mod base)) acc in
      if n / base =? 0 then acc' else digits_fuel fuel' base (n / base) acc'
  end.

Definition digits (base n : Z) : string :=
  digits_fuel (S (Z.to_nat (Z.log2 n))) base n EmptyString.

(** [fmt.Sprintf("%d", n)] for a Go integer. *)
Definition fmt_d (n : Z) : string :=
  if n <? 0 then String "-" (digits 10 (- n)) else digits 10 n.

(** Lower-case hexadecimal, as [strconv.FormatUint(u, 16)]. *)
Definition fmt_x (n : Z) : string := digits 16 n.

Definition bytes_of (s : string) : list Z :=
  List.map (fun c => Z.of_N (N_of_ascii c)) (list_ascii_of_string s).

(** [strconv.Quote] on text whose bytes above 0x7e belong to printable
    runes: the text in double quotes, a quote or backslash escaped with a
    backslash, the control characters by their names or as [\x] and two
    hexadecimal digits. *)
Definition hex2 (n : Z) : string :=
  String (digit_char (n / 16)) (String (digit_char (n mod 16)) EmptyString).

Definition quote_char (c : ascii) : string :=
  let n := Z.of_N (N_of_ascii c) in
  if (n =? 34) || (n =? 92) then String (ascii_of_N 92) (String c EmptyString)
  else if n =? 7 then String (ascii_of_N 92) "a"
  else if n =? 8 then String (ascii_of_N 92) "b"
  else if n =? 12 then String (ascii_of_N 92) "f"
  else if n =? 10 then String (ascii_of_N 92) "n"
  else if n =? 13 then String (ascii_of_N 92) "r"
  else if n =? 9 then String (ascii_of_N 92) "t"
  else if n =? 11 then String (ascii_of_N 92) "v"
  else if (n <? 32) || (n =? 127) then String (ascii_of_N 92) (String "x" (hex2 n))
  else String c EmptyString.

Fixpoint quote_body (s : string) : string :=
  match s with
  | EmptyString => EmptyString
  | String c s' => quote_char c +:+ quote_body s'
  end.

Definition Quote (s : string) : string :=
  String (ascii_of_N 34) (quote_body s +:+ String (ascii_of_N 34) EmptyString).

End GoStrings.

(** ** SHA-256 ([crypto/sha256], FIPS 180-4) over 32-bit words in [Z] *)

Module SHA256.

Definition w32 (x : Z) : Z := Z.land x 4294967295.
Definition add32 (x y : Z) : Z := w32 (x + y).
Definition not32 (x : Z) : Z := Z.lxor x 4294967295.
Definition rotr (n x : Z) : Z :=
  Z.lor (Z.shiftr x n) (w32 (Z.shiftl x (32 - n))).

Definition Ch (x y z : Z) := Z.lxor (Z.land x y) (Z.land (not32 x) z).
Definition Maj (x y z : Z) :=
  Z.lxor (Z.lxor (Z.land x y) (Z.land x z)) (Z.land y z).
Definition bsig0 x := Z.lxor (Z.lxor (rotr 2 x) (rotr 13 x)) (rotr 22 x).
Definition bsig1 x := Z.lxor (Z.lxor (rotr 6 x) (rotr 11 x)) (rotr 25 x).
Definition ssig0 x := Z.lxor (Z.lxor (rotr 7 x) (rotr 18 x)) (Z.shiftr x 3).
Definition ssig1 x := Z.lxor (Z.lxor (rotr 17 x) (rotr 19 x)) (Z.shiftr x 10).

(** The first sixty-four primes. *)
Definition is_prime (n : Z) : bool :=
  forallb (fun d => negb (n mod Z.of_nat d =? 0)) (seq 2 (Z.to_nat n - 2)).

Definition primes : list Z :=
  Eval vm_compute in
    List.filter is_prime (List.map Z.of_nat (seq 2 310)).

(** Integer cube root by bisection on the bits [k - 1], ..., [0]. *)
Fixpoint cbrt_bits (k : nat) (n acc : Z) : Z :=
  match k with
  | O => acc
  | S k' =>
      let c := acc + 2 ^ Z.of_nat k' in
      cbrt_bits k' n (if c * c * c <=? n then c else acc)
  end.

(** The round constants: the first thirty-two bits of the fractional parts
    of the cube roots of the primes. *)
Definition K : list Z :=
  Eval vm_compute in
    List.map (fun p => w32 (cbrt_bits 36 (p * 2 ^ 96) 0)) primes.

(** The eight working variables / chaining value. *)
Record state := St { sa : Z; sb : Z; sc : Z; sd : Z;
                     se : Z; sf : Z; sg : Z; sh : Z }.

(** The initial hash value: the first thirty-two bits of the fractional
    parts of the square roots of the first eight primes. *)
Definition frac_sqrt (p : Z) : Z := w32 (Z.sqrt (p * 2 ^ 64)).

Definition init : state :=
  Eval vm_compute in
    St (frac_sqrt 2) (frac_sqrt 3) (frac_sqrt 5) (frac_sqrt 7)
       (frac_sqrt 11) (frac_sqrt 13) (frac_sqrt 17) (frac_sqrt 19).

(** Message padding: a 1 bit, zeros, and the bit length on 64 bits. *)
Definition be_bytes (n : nat) (x : Z) : list Z :=
  List.map (fun i => Z.land (Z.shiftr x (8 * Z.of_nat i)) 255) (rev (seq 0 n)).

Definition pad (msg : list Z) : list Z :=
  let len := Z.of_nat (length msg) in
  let zeros := Z.to_nat ((55 - len) mod 64) in
  msg ++ 128 :: repeat 0 zeros ++ be_bytes 8 (8 * len).

Fixpoint be_word (bs : list Z) (acc : Z) : Z :=
  match bs with
  | [] => acc
  | b :: bs' => be_word bs' (Z.lor (Z.shiftl acc 8) b)
  end.

(** Cut a byte list into words of four bytes, big endian. *)
Fixpoint words (fuel : nat) (bs : list Z) : list Z :=
  match fuel, bs with
  | S fuel', _ :: _ => be_word (firstn 4 bs) 0 :: words fuel' (skipn 4 bs)
  | _, _ => []
  end.

(** Message schedule: sixteen words extended to sixty-four. *)
Fixpoint schedule (n : nat) (w : list Z) : list Z :=
  match n with
  | O => w
  | S n' =>
      let i := length w in
      let g k := nth (i - k) w 0 in
      schedule n' (w ++ [add32 (add32 (ssig1 (g 2%nat)) (g 7%nat))
                               (add32 (ssig0 (g 15%nat)) (g 16%nat))])
  end.

Definition round (s : state) (kw : Z * Z) : state :=
  let t1 := add32 (add32 (add32 (sh s) (bsig1 (se s)))
                         (add32 (Ch (se s) (sf s) (sg s)) (fst kw))) (snd kw) in
  let t2 := add32 (bsig0 (sa s)) (Maj (sa s) (sb s) (sc s)) in
  St (add32 t1 t2) (sa s) (sb s) (sc s) (add32 (sd s) t1) (se s) (sf s) (sg s).

Definition compress (h : state) (block : list Z) : state :=
  let w := schedule 48 block in
  let s := fold_left round (combine K w) h in
  St (add32 (sa h) (sa s)) (add32 (sb h) (sb s)) (add32 (sc h) (sc s))
     (add32 (sd h) (sd s)) (add32 (se h) (se s)) (add32 (sf h) (sf s))
     (add32 (sg h) (sg s)) (add32 (sh h) (sh s)).

Fixpoint blocks (fuel : nat) (ws : list Z) (h : state) : state :=
  match fuel, ws with
  | S fuel', _ :: _ => blocks fuel' (skipn 16 ws) (compress h (firstn 16 ws))
  | _, _ => h
  end.

Definition Sum256 (msg : list Z) : state :=
  let p := pad msg in
  let ws := words (length p) p in
  blocks (length ws) ws init.

(** [hex.EncodeToString(hash[:])]: eight lower-case digits per word. *)
Definition nibble (x : Z) (i : Z) : ascii :=
  GoStrings.digit_char (Z.land (Z.shiftr x (4 * i)) 15).

Definition hex_word (x : Z) (rest : string) : string :=
  String (nibble x 7) (String (nibble x 6) (String (nibble x 5)
  (String (nibble x 4) (String (nibble x 3) (String (nibble x 2)
  (String (nibble x 1) (String (nibble x 0) rest))))))).

Definition hex_digest (s : state) : string :=
  hex_word (sa s) (hex_word (sb s) (hex_word (sc s) (hex_word (sd s)
  (hex_word (se s) (hex_word (sf s) (hex_word (sg s) (hex_word (sh s) ""))))))).

Definition hex_of_string (s : string) : string :=
  hex_digest (Sum256 (GoStrings.bytes_of s)).

End SHA256.

(** ** Shared data model ([internal/shared/models], [providers.ChatRequest]) *)

Definition error := string.

(** Go's [int] on a 64-bit platform: results of arithmetic wrap around. *)
Definition wrap64 (z : Z) : Z := (z + 2 ^ 63) mod 2 ^ 64 - 2 ^ 63.

(** A non-nil Go pointer [*T]: the address of the cell and the value stored
    in it.  The optional request fields are written once by the JSON decoder
    and never updated, so the pointee travels with the pointer; [None] is the
    nil pointer.  Addresses are non-zero. *)
Record ref (A : Type) := Ref { ref_addr : positive; ref_val : A }.
Arguments Ref {A} _ _.
Arguments ref_addr {A} _.
Arguments ref_val {A} _.

Definition deref {A} (p : option (ref A)) : option A := ref_val <$> p.

Module models.

Record APIKey := {
  ID : string;
  RateLimitPerMinute : Z;
  CacheEnabled : bool;
  CacheTTLSeconds : Z;
}.

Record ModelPricing := {
  InputPer1kTokens : spec_float;
  OutputPer1kTokens : spec_float;
}.

Record GatewayLog := {
  APIKeyID : string;
  Method : string;
  Endpoint : string;
  Model : string;
  Provider : string;
  CostUSD : spec_float;
  LatencyMs : Z;
  PromptTokens : Z;
  CompletionTokens : Z;
  TotalTokens : Z;
  CacheHit : bool;
  FailoverUsed : bool;
  StatusCode : Z;
  ErrorMessage : option string;
}.

End models.

(** The library types of [go-openai] the gateway passes around.  A message
    is modelled by the two fields of the unified request, role and content. *)
Module openai.

Record ChatCompletionMessage := { Role : string; Content : string }.

Record Usage := {
  PromptTokens : Z;
  CompletionTokens : Z;
  TotalTokens : Z;
}.

Record ChatCompletionChoice := {
  Index : Z;
  Message : ChatCompletionMessage;
  FinishReason : string;
}.

(** One streamed chunk: the delta of its only choice, and the usage that
    terminal chunks may carry ([Usage *Usage]). *)
Record ChatCompletionStreamResponse := {
  DeltaRole : string;
  DeltaContent : string;
  StreamUsage : option Usage;
}.

End openai.

(** ** binary64 arithmetic of the cost computation *)

Module F64.
Definition prec : Z := 53.
Definition emax : Z := 1024.
Definition zero : spec_float := S754_zero false.
Definition mul := SFmul prec emax.
Definition add := SFadd prec emax.
Definition div := SFdiv prec emax.
(** [float64(n)] for a Go [int]. *)
Definition of_int (n : Z) : spec_float :=
  match n with
  | Z0 => zero
  | Zpos p => binary_normalize prec emax (Zpos p) 0 false
  | Zneg p => binary_normalize prec emax (Zpos p) 0 true
  end.
(** Go's [==] on floats. *)
Definition eqb (x y : spec_float) : bool :=
  match SFcompare x y with Some Eq => true | _ => false end.
Definition is_finite (x : spec_float) : bool :=
  match x with S754_zero _ | S754_finite _ _ _ => true | _ => false end.
Definition thousand : spec_float := of_int 1000.
End F64.

(** ** The shared store ([internal/shared/redis] over go-redis)

    The Redis server is an external collaborator; the model below is the
    documented behaviour of the four commands the gateway issues.  Every
    command is atomic on its key.  A stored value is either an integer (what
    [SET key 1] and [INCR] leave behind) or a string that does not parse as
    an integer (the cached JSON documents).  Keys expire lazily: an entry
    whose deadline has passed is treated as absent. *)

Module redis.

Inductive RVal := RInt (n : Z) | RStr (s : string).

Record entry := Entry { val : RVal; expire_at : option Z }.

Inductive Cmd :=
| GET (key : string)
| SET (key : string) (v : RVal) (ttl : Z)
| INCR (key : string)
| EXPIRE (key : string) (ttl : Z).

Inductive Reply :=
| RNil                      (* redis.Nil *)
| RBulk (v : RVal)
| RInteger (n : Z)
| ROk
| RErr (e : error).

(** The server: its data, its clock in nanoseconds, the commands it has
    received (oldest first is the last element), and for each coming
    command whether the connection fails ([true]) before the command is
    executed. *)
Record Server := {
  data : gmap string entry;
  clock : Z;
  faults : list bool;
  received : list Cmd;
}.

(** [time.Minute]; durations and the server clock are in nanoseconds. *)
Definition minute : Z := 60000000000.
Definition max_int64 : Z := 2 ^ 63 - 1.

Definition live (now : Z) (e : entry) : bool :=
  match expire_at e with
  | Some t => now <? t
  | None => true
  end.

Definition lookup (s : Server) (key : string) : option entry :=
  match data s !! key with
  | Some e => if live (clock s) e then Some e else None
  | None => None
  end.

Definition deadline (now ttl : Z) : option Z :=
  if 0 <? ttl then Some (now + ttl) else None.

(** The effect of one command on the data, given that the connection
    works. *)
Definition exec (c : Cmd) (s : Server) : Reply * gmap string entry :=
  match c with
  | GET key =>
      match lookup s key with
      | Some e => (RBulk (val e), data s)
      | None => (RNil, data s)
      end
  | SET key v ttl =>
      (ROk, <[key := Entry v (deadline (clock s) ttl)]> (data s))
  | INCR key =>
      match lookup s key with
      | None => (RInteger 1, <[key := Entry (RInt 1) None]> (data s))
      | Some (Entry (RInt n) d) =>
          if n <? max_int64
          then (RInteger (n + 1), <[key := Entry (RInt (n + 1)) d]> (data s))
          else (RErr "ERR increment or decrement would overflow", data s)
      | Some (Entry (RStr _) _) =>
          (RErr "ERR value is not an integer or out of range", data s)
      end
  | EXPIRE key ttl =>
      match lookup s key with
      | Some e => (RInteger 1, <[key := Entry (val e) (Some (clock s + ttl))]> (data s))
      | None => (RInteger 0, data s)
      end
  end.

Definition step (c : Cmd) (s : Server) : Reply * Server :=
  match faults s with
  | true :: fs =>
      (RErr "dial tcp: connection refused",
       {| data := data s; clock := clock s; faults := fs;
          received := c :: received s |})
  | _ =>
      let '(r, d) := exec c s in
      (r, {| data := d; clock := clock s; faults := tail (faults s);
             received := c :: received s |})
  end.

(** Time passing on the server between two commands. *)
Definition elapse (dt : Z) (s : Server) : Server :=
  {| data := data s; clock := clock s + dt; faults := faults s;
     received := received s |}.

(** A client method is a program that issues commands one at a time and
    continues with each reply. *)
Inductive Prog (A : Type) : Type :=
| Ret (a : A)
| Do (c : Cmd) (k : Reply -> Prog A).
Arguments Ret {A} _.
Arguments Do {A} _ _.

Fixpoint bind {A B} (p : Prog A) (f : A -> Prog B) : Prog B :=
  match p with
  | Ret a => f a
  | Do c k => Do c (fun r => bind (k r) f)
  end.

(** Running a method to completion with nobody else talking to the
    server. *)
Fixpoint run {A} (p : Prog A) (s : Server) : A * Server :=
  match p with
  | Ret a => (a, s)
  | Do c k => let '(r, s') := step c s in run (k r) s'
  end.

(** [Client.Get]: [redis.Nil] becomes the error "key not found". *)
Definition Get (key : string) : Prog (string * option error) :=
  Do (GET key) (fun r =>
    match r with
    | RBulk (RStr v) => Ret (v, None)
    | RBulk (RInt n) => Ret (GoStrings.fmt_d n, None)
    | RNil => Ret ("", Some "key not found")
    | RErr e => Ret ("", Some e)
    | _ => Ret ("", Some "redis: unexpected reply")
    end).

(** [Client.Set]. *)
Definition Set_ (key : string) (value : string) (ttl : Z) : Prog (option error) :=
  Do (SET key (RStr value) ttl) (fun r =>
    match r with
    | RErr e => Ret (Some e)
    | _ => Ret None
    end).

(** [CheckRateLimit]: the result is [(exceeded, remaining, err)]. *)
Definition CheckRateLimit (apiKeyID : string) (limit : Z)
  : Prog (bool * Z * option error) :=
  let key := "ratelimit:" +:+ apiKeyID in
  (* Get current count *)
  Do (GET key) (fun r =>
    match r with
    | RNil =>
        (* First request in this window - set count to 1 *)
        Do (SET key (RInt 1) minute) (fun r' =>
          match r' with
          | RErr e => Ret (false, 0, Some e)
          | _ => Ret (false, wrap64 (limit - 1), None)
          end)
    | RErr e => Ret (false, 0, Some e)
    | RBulk (RStr s) =>
        Ret (false, 0, Some ("strconv.Atoi: parsing " +:+ GoStrings.Quote s
                             +:+ ": invalid syntax"))
    | RBulk (RInt count) =>
        (* Check if limit exceeded *)
        if limit <=? count then Ret (true, 0, None)
        else
          (* Increment counter *)
          Do (INCR key) (fun r' =>
            match r' with
            | RInteger newCount =>
                let finish :=
                  let remaining := wrap64 (limit - newCount) in
                  Ret (false, if remaining <? 0 then 0 else remaining, None) in
                (* Set expiry if this is the first request *)
                if newCount =? 1 then Do (EXPIRE key minute) (fun _ => finish)
                else finish
            | RErr e => Ret (false, 0, Some e)
            | _ => Ret (false, 0, Some "redis: unexpected reply")
            end)
    | _ => Ret (false, 0, Some "redis: unexpected reply")
    end).

(** Two clients whose commands reach the server interleaved: the schedule
    names, command by command, which of the two goes next ([true] for the
    first).  A client that has finished ignores its turns; when the
    schedule is used up the first client runs to completion, then the
    second. *)
Fixpoint interleave {A B} (sched : list bool) (p : Prog A) (q : Prog B)
    (s : Server) : A * B * Server :=
  match sched with
  | [] =>
      let '(a, s1) := run p s in
      let '(b, s2) := run q s1 in
      (a, b, s2)
  | true :: sched' =>
      match p with
      | Ret _ => interleave sched' p q s
      | Do c k => let '(r, s') := step c s in interleave sched' (k r) q s'
      end
  | false :: sched' =>
      match q with
      | Ret _ => interleave sched' p q s
      | Do c k => let '(r, s') := step c s in interleave sched' p (k r) s'
      end
  end.

End redis.

(** ** Providers ([internal/gateway/providers]) *)

Module providers.

Module ChatRequest.
Record t := {
  Model : string;
  Messages : list openai.ChatCompletionMessage;
  Temperature : option (ref spec_float);   (* *float32 *)
  MaxTokens : option (ref Z);              (* *int *)
  TopP : option (ref spec_float);          (* *float32 *)
  Stream : bool;
}.
(** [req.Model = model] on the callee's copy of the request. *)
Definition with_Model (model : string) (r : t) : t :=
  {| Model := model; Messages := Messages r; Temperature := Temperature r;
     MaxTokens := MaxTokens r; TopP := TopP r; Stream := Stream r |}.
End ChatRequest.

Module ChatResponse.
Record t := {
  ID : string;
  Object : string;
  Created : Z;
  Model : string;
  Choices : list openai.ChatCompletionChoice;
  Usage : openai.Usage;
  SystemFingerprint : string;
  LatencyMs : Z;
  CostUSD : spec_float;
}.
Definition with_CostUSD (c : spec_float) (r : t) : t :=
  {| ID := ID r; Object := Object r; Created := Created r; Model := Model r;
     Choices := Choices r; Usage := Usage r;
     SystemFingerprint := SystemFingerprint r; LatencyMs := LatencyMs r;
     CostUSD := c |}.
Definition with_LatencyMs (l : Z) (r : t) : t :=
  {| ID := ID r; Object := Object r; Created := Created r; Model := Model r;
     Choices := Choices r; Usage := Usage r;
     SystemFingerprint := SystemFingerprint r; LatencyMs := l;
     CostUSD := CostUSD r |}.
End ChatResponse.

(** A [StreamReader] as the handler sees it: the chunks its [Recv] will
    deliver, in order, and how the stream ends: [None] for [io.EOF],
    [Some e] for a read error. *)
Record StreamReader := {
  chunks : list openai.ChatCompletionStreamResponse;
  ending : option error;
}.

Module AnthropicMessage.
Record t := { Role : string; Content : string }.
End AnthropicMessage.

Module AnthropicRequest.
Record t := {
  Model : string;
  Messages : list AnthropicMessage.t;
  MaxTokens : Z;
  Temperature : option (ref spec_float);
  System : string;
  Stream : bool;
}.
Definition with_Messages (ms : list AnthropicMessage.t) (r : t) : t :=
  {| Model := Model r; Messages := ms; MaxTokens := MaxTokens r;
     Temperature := Temperature r; System := System r; Stream := Stream r |}.
Definition with_MaxTokens (n : Z) (r : t) : t :=
  {| Model := Model r; Messages := Messages r; MaxTokens := n;
     Temperature := Temperature r; System := System r; Stream := Stream r |}.
Definition with_System (s : string) (r : t) : t :=
  {| Model := Model r; Messages := Messages r; MaxTokens := MaxTokens r;
     Temperature := Temperature r; System := s; Stream := Stream r |}.
End AnthropicRequest.

Record AnthropicContentBlock := { Type_ : string; Text : string }.
Record AnthropicUsage := { InputTokens : Z; OutputTokens : Z }.

Module AnthropicResponse.
Record t := {
  ID : string;
  Content : list AnthropicContentBlock;
  Model : string;
  Usage : AnthropicUsage;
}.
End AnthropicResponse.

(** What [httpClient.Do] followed by [io.ReadAll] yields. *)
Inductive HttpOutcome :=
| TransportError (e : error)
| HttpResponse (status : Z) (body : string).

(** The collaborators outside the repository: the network with its state,
    the wall clock, and the JSON codec. *)
Class Env := {
  World : Type;
  (* reading the wall clock, in milliseconds since the epoch *)
  clock : World -> Z * World;
  (* fmt.Sprintf with the verb %.6f *)
  fmt_float6 : spec_float -> string;
  anthropic_post : AnthropicRequest.t -> World -> HttpOutcome * World;
  anthropic_unmarshal : string -> AnthropicResponse.t + error;
  response_marshal : ChatResponse.t -> string + error;
  response_unmarshal : string -> ChatResponse.t + error;
  chunk_marshal : openai.ChatCompletionStreamResponse -> string;
  (* what a request body says, [None] when it does not decode; where the
     optional numbers are stored is not the codec's choice, see
     [handlers.Decode] *)
  request_decode : string -> option ChatRequest.t;
}.

Section WithEnv.
Context {E : Env}.

(** The [Provider] interface. *)
Record Provider := {
  ChatCompletion : ChatRequest.t -> World -> (ChatResponse.t + error) * World;
  ChatCompletionStream : ChatRequest.t -> World -> (StreamReader + error) * World;
  GetProviderName : string;
}.

(** *** Anthropic *)

(** [convertRequest]: the loop over [req.Messages] carries the outgoing
    message list and the system prompt. *)
Definition convertRequest_step
    (acc : list AnthropicMessage.t * string) (msg : openai.ChatCompletionMessage)
  : list AnthropicMessage.t * string :=
  if String.eqb (openai.Role msg) "system"
  then (fst acc, openai.Content msg)
  else ((fst acc ++ [ {| AnthropicMessage.Role := openai.Role msg;
                         AnthropicMessage.Content := openai.Content msg |} ])%list,
        snd acc).

Definition convertRequest (req : ChatRequest.t) : AnthropicRequest.t * string :=
  let anthropicReq :=
    {| AnthropicRequest.Model := ChatRequest.Model req;
       AnthropicRequest.Messages := [];
       AnthropicRequest.MaxTokens := 4096;
       AnthropicRequest.Temperature := ChatRequest.Temperature req;
       AnthropicRequest.System := "";
       AnthropicRequest.Stream := false |} in
  let anthropicReq :=
    match deref (ChatRequest.MaxTokens req) with
    | Some n => if 0 <? n then AnthropicRequest.with_MaxTokens n anthropicReq
                else anthropicReq
    | None => anthropicReq
    end in
  let '(msgs, systemPrompt) :=
    fold_left convertRequest_step (ChatRequest.Messages req)
              (AnthropicRequest.Messages anthropicReq, "") in
  (AnthropicRequest.with_Messages msgs anthropicReq, systemPrompt).

(** The request that [ChatCompletion] marshals and posts. *)
Definition wire_request (req : ChatRequest.t) : AnthropicRequest.t :=
  let '(anthropicReq, systemPrompt) := convertRequest req in
  if negb (String.eqb systemPrompt "")
  then AnthropicRequest.with_System systemPrompt anthropicReq
  else anthropicReq.

Definition convertResponse (resp : AnthropicResponse.t) (latencyMs : Z) (created : Z)
  : ChatResponse.t :=
  let content :=
    fold_left (fun acc block =>
                 if String.eqb (Type_ block) "text" then acc +:+ Text block else acc)
              (AnthropicResponse.Content resp) "" in
  let u := AnthropicResponse.Usage resp in
  {| ChatResponse.ID := AnthropicResponse.ID resp;
     ChatResponse.Object := "chat.completion";
     ChatResponse.Created := created;
     ChatResponse.Model := AnthropicResponse.Model resp;
     ChatResponse.Choices :=
       [ {| openai.Index := 0;
            openai.Message := {| openai.Role := "assistant";
                                 openai.Content := content |};
            openai.FinishReason := "stop" |} ];
     ChatResponse.Usage :=
       {| openai.PromptTokens := InputTokens u;
          openai.CompletionTokens := OutputTokens u;
          openai.TotalTokens := wrap64 (InputTokens u + OutputTokens u) |};
     ChatResponse.SystemFingerprint := "";
     ChatResponse.LatencyMs := latencyMs;
     ChatResponse.CostUSD := F64.zero |}.

(** The errors of the HTTP clients (Anthropic and Gemini alike): for an
    answer other than 200, [fmt.Errorf("<api> API error (status %d): %s", ...)];
    for a failed exchange, [fmt.Errorf("<api> API error: %w", err)]. *)
Definition status_error (api : string) (status : Z) (body : string) : error :=
  api +:+ " API error (status " +:+ GoStrings.fmt_d status +:+ "): " +:+ body.

Definition transport_error (api : string) (e : error) : error :=
  api +:+ " API error: " +:+ e.

Definition AnthropicChatCompletion (req : ChatRequest.t) (w : World)
  : (ChatResponse.t + error) * World :=
  let '(startTime, w) := clock w in
  let '(out, w) := anthropic_post (wire_request req) w in
  match out with
  | TransportError e => (inr (transport_error "Anthropic" e), w)
  | HttpResponse status body =>
      if negb (status =? 200) then (inr (status_error "Anthropic" status body), w)
      else
        match anthropic_unmarshal body with
        | inr e => (inr ("failed to parse response: " +:+ e), w)
        | inl anthropicResp =>
            let '(t, w) := clock w in
            let latencyMs := t - startTime in
            let '(created, w) := clock w in
            (inl (convertResponse anthropicResp latencyMs (created / 1000)), w)
        end
  end.

(** The Anthropic provider; its streaming path (the SSE reader) is taken
    as given. *)
Definition NewAnthropicProvider
    (stream : ChatRequest.t -> World -> (StreamReader + error) * World) : Provider :=
  {| ChatCompletion := AnthropicChatCompletion;
     ChatCompletionStream := stream;
     GetProviderName := "anthropic" |}.

(** *** The manager *)

Record Manager := {
  providers : gmap string Provider;
  failover : gmap string (list string);
}.

Record Config := {
  OpenAIAPIKey : string;
  AnthropicAPIKey : string;
  GeminiAPIKey : string;
}.

(** [setupFailoverChains]. *)
Definition setupFailoverChains : gmap string (list string) :=
  <["gemini-2.5-pro" := ["gpt-4o"; "claude-sonnet-4-5-20250929"] ]>
  (<["gemini-2.5-flash" := ["gpt-4o-mini"; "claude-haiku-4-5-20251001"] ]>
  (<["claude-haiku-4-5-20251001" := ["gpt-4o-mini"; "gemini-2.5-flash"] ]>
  (<["claude-sonnet-4-5-20250929" := ["gpt-4o"; "gemini-2.5-pro"] ]>
  (<["gpt-4" := ["claude-opus-4-5-20251101"; "gemini-2.5-pro"] ]>
  (<["gpt-4o-mini" := ["claude-haiku-4-5-20251001"; "gemini-2.5-flash"] ]>
  (<["gpt-4o" := ["claude-sonnet-4-5-20250929"; "gemini-2.5-pro"] ]> ∅)))))).

(** [NewManager]: a provider is registered when its key is non-empty. *)
Definition NewManager (cfg : Config) (openaiP anthropicP geminiP : Provider)
  : Manager :=
  let ps : gmap string Provider := ∅ in
  let ps := if negb (String.eqb (OpenAIAPIKey cfg) "")
            then <["openai" := openaiP]> ps else ps in
  let ps := if negb (String.eqb (AnthropicAPIKey cfg) "")
            then <["anthropic" := anthropicP]> ps else ps in
  let ps := if negb (String.eqb (GeminiAPIKey cfg) "")
            then <["google" := geminiP]> ps else ps in
  {| providers := ps; failover := setupFailoverChains |}.

Definition detectProvider (model : string) : string :=
  if GoStrings.HasPrefix model "gpt-" then "openai"
  else if GoStrings.HasPrefix model "claude-" then "anthropic"
  else if GoStrings.HasPrefix model "gemini-" then "google"
  else "".

Definition GetProvider (m : Manager) (model : string)
  : (Provider * string) + error :=
  let providerName := detectProvider model in
  if String.eqb providerName "" then inr ("unknown model: " +:+ model)
  else
    match providers m !! providerName with
    | None => inr ("provider " +:+ providerName +:+ " not configured (check API key)")
    | Some provider => inl (provider, providerName)
    end.

Definition GetFailoverChain (m : Manager) (model : string) : list string :=
  match failover m !! model with
  | None => []
  | Some chain =>
      fold_left
        (fun available fallbackModel =>
           match providers m !! detectProvider fallbackModel with
           | Some _ => (available ++ [fallbackModel])%list
           | None => available
           end)
        chain []
  end.

(** [isRetryableError] looks for four markers in the text of the error. *)
Definition isRetryableError (err : error) : bool :=
  GoStrings.Contains err "429" ||
  GoStrings.Contains err "rate limit" ||
  GoStrings.Contains err "timeout" ||
  GoStrings.Contains err "status 5".

(** The network together with the list of provider calls made so far
    (most recent first): which provider was invoked, with which
    request. *)
Record Net := { world : World; calls : list (string * ChatRequest.t) }.

Definition invoke (provider : Provider) (providerName : string)
    (req : ChatRequest.t) (n : Net) : (ChatResponse.t + error) * Net :=
  let '(r, w') := ChatCompletion provider req (world n) in
  (r, {| world := w'; calls := (providerName, req) :: calls n |}).

(** The result tuple of [Manager.ChatCompletion]:
    [(resp, providerName, failoverUsed, err)]. *)
Definition Outcome : Type := option ChatResponse.t * string * bool * option error.

(** The loop over the failover chain. *)
Fixpoint tryFailover (m : Manager) (originalModel originalProvider : string)
    (failoverChain : list string) (req : ChatRequest.t) (n : Net)
  : Outcome * Net :=
  match failoverChain with
  | [] =>
      ((None, originalProvider, false,
        Some ("all providers failed for model " +:+ originalModel)), n)
  | fallbackModel :: rest =>
      let req := ChatRequest.with_Model fallbackModel req in
      match GetProvider m fallbackModel with
      | inr _ => tryFailover m originalModel originalProvider rest req n
      | inl (provider, providerName) =>
          match invoke provider providerName req n with
          | (inl resp, n') => ((Some resp, providerName, true, None), n')
          | (inr _, n') => tryFailover m originalModel originalProvider rest req n'
          end
      end
  end.

Definition ManagerChatCompletion (m : Manager) (req : ChatRequest.t) (n : Net)
  : Outcome * Net :=
  let originalModel := ChatRequest.Model req in
  let originalProvider := detectProvider originalModel in
  (* Try the primary model first *)
  match GetProvider m (ChatRequest.Model req) with
  | inr err => ((None, "", false, Some err), n)
  | inl (provider, providerName) =>
      match invoke provider providerName req n with
      | (inl resp, n') => ((Some resp, providerName, false, None), n')
      | (inr err, n') =>
          (* Check if error is retryable (rate limit, timeout, server error) *)
          if negb (isRetryableError err)
          then ((None, providerName, false, Some err), n')
          else
            (* Try failover chain *)
            tryFailover m originalModel originalProvider
                        (GetFailoverChain m originalModel) req n'
      end
  end.

End WithEnv.

End providers.

(** ** The exact-match cache ([internal/gateway/cache]) *)

Module cache.

Import providers.

(** [%v] of a message and of a slice of messages.  The message struct
    belongs to the go-openai library; the model has its role and content
    and renders those two.  The further fields of the library's struct,
    which a decoded text message leaves empty, are not rendered, so the
    text hashed here differs from the one the Go program hashes by a
    constant piece per message, and the digests are those of the text
    given here. *)
Definition fmt_message (m : openai.ChatCompletionMessage) : string :=
  "{" +:+ openai.Role m +:+ " " +:+ openai.Content m +:+ "}".

Fixpoint fmt_join (l : list string) : string :=
  match l with
  | [] => ""
  | [x] => x
  | x :: l' => x +:+ " " +:+ fmt_join l'
  end.

Definition fmt_messages (ms : list openai.ChatCompletionMessage) : string :=
  "[" +:+ fmt_join (List.map fmt_message ms) +:+ "]".

(** [%v] of a pointer to a number: [<nil>], or the address in
    hexadecimal. *)
Definition fmt_pointer {A} (p : option (ref A)) : string :=
  match p with
  | None => "<nil>"
  | Some r => "0x" +:+ GoStrings.fmt_x (Zpos (ref_addr r))
  end.

(** The argument of the hash: [fmt.Sprintf("%s:%v:%v:%v:%v", ...)]. *)
Definition keyData (req : ChatRequest.t) : string :=
  ChatRequest.Model req +:+ ":" +:+
  fmt_messages (ChatRequest.Messages req) +:+ ":" +:+
  fmt_pointer (ChatRequest.Temperature req) +:+ ":" +:+
  fmt_pointer (ChatRequest.MaxTokens req) +:+ ":" +:+
  fmt_pointer (ChatRequest.TopP req).

Definition generateCacheKey (req : ChatRequest.t) : string :=
  "cache:exact:" +:+ SHA256.hex_of_string (keyData req).

Section WithEnv.
Context {E : Env}.

Definition Get (req : ChatRequest.t) : redis.Prog (ChatResponse.t + error) :=
  let key := generateCacheKey req in
  redis.bind (redis.Get key) (fun '(val, err) =>
    match err with
    | Some e => redis.Ret (inr e)
    | None =>
        match response_unmarshal val with
        | inr e => redis.Ret (inr ("failed to deserialize cached response: " +:+ e))
        | inl cachedResp => redis.Ret (inl cachedResp)
        end
    end).

Definition Set_ (req : ChatRequest.t) (resp : ChatResponse.t) (ttl : Z)
  : redis.Prog (option error) :=
  let key := generateCacheKey req in
  match response_marshal resp with
  | inr e => redis.Ret (Some ("failed to serialize response: " +:+ e))
  | inl data => redis.Set_ key data ttl
  end.

End WithEnv.

End cache.

(** ** The durable store ([internal/shared/database]) *)

Module database.

(** The pricing table, whether the connection is broken, and the writes
    that were handed to background goroutines. *)
Record DB := {
  pricing : gmap (string * string) models.ModelPricing;
  broken : option error;
  logs : list models.GatewayLog;
  last_used : list string;
}.

Definition GetModelPricing (db : DB) (provider model : string)
  : models.ModelPricing + error :=
  match broken db with
  | Some e => inr ("database error: " +:+ e)
  | None =>
      match pricing db !! (provider, model) with
      | None => inr ("pricing not found for " +:+ provider +:+ "/" +:+ model)
      | Some p => inl p
      end
  end.

(** [go db.LogRequest(...)] *)
Definition LogRequest (log : models.GatewayLog) (db : DB) : DB :=
  {| pricing := pricing db; broken := broken db;
     logs := log :: logs db; last_used := last_used db |}.

(** [go db.UpdateAPIKeyLastUsed(...)] *)
Definition UpdateAPIKeyLastUsed (apiKeyID : string) (db : DB) : DB :=
  {| pricing := pricing db; broken := broken db;
     logs := logs db; last_used := apiKeyID :: last_used db |}.

End database.

(** ** HTTP handlers ([internal/gateway/handlers]) *)

Module handlers.

Import providers.

(** The part of [http.ResponseWriter] the handlers act on: the header
    map, the status line once written, the body writes (latest first),
    and whether the writer implements [http.Flusher]. *)
Record ResponseWriter := {
  Header : gmap string string;
  status : option Z;
  written : list string;
  flusher : bool;
}.

Definition HeaderSet (k v : string) (w : ResponseWriter) : ResponseWriter :=
  {| Header := <[k := v]> (Header w); status := status w;
     written := written w; flusher := flusher w |}.

Definition WriteHeader (code : Z) (w : ResponseWriter) : ResponseWriter :=
  {| Header := Header w;
     status := match status w with None => Some code | st => st end;
     written := written w; flusher := flusher w |}.

(** A write sends the status line first if it was not sent yet. *)
Definition Fprintf (s : string) (w : ResponseWriter) : ResponseWriter :=
  let w := WriteHeader 200 w in
  {| Header := Header w; status := status w;
     written := s :: written w; flusher := flusher w |}.

(** [http.Error]. *)
Definition http_Error (w : ResponseWriter) (msg : string) (code : Z)
  : ResponseWriter :=
  let w := HeaderSet "Content-Type" "text/plain; charset=utf-8" w in
  let w := HeaderSet "X-Content-Type-Options" "nosniff" w in
  let w := WriteHeader code w in
  Fprintf (msg +:+ String (ascii_of_N 10) "") w.

Definition StatusUnauthorized : Z := 401.
Definition StatusBadRequest : Z := 400.
Definition StatusTooManyRequests : Z := 429.
Definition StatusInternalServerError : Z := 500.

Definition nl2 : string := String (ascii_of_N 10) (String (ascii_of_N 10) "").
Definition dq : string := String (ascii_of_N 34) "".

Section WithEnv.
Context {E : Env}.

(** Where the decoder puts the optional numbers of a request.
    [json.Decode] allocates a cell for each of [temperature], [max_tokens]
    and [top_p] that the body gives; the addresses are the Go runtime's
    choice, made anew for every request. *)
Record Cells := {
  temperature_at : positive;
  max_tokens_at : positive;
  top_p_at : positive;
}.

(** What a request carries for the handlers: the identity the auth
    middleware put in its context, if any, the body, and the cells the
    runtime will hand out when the body is decoded. *)
Record Request := {
  ctx_api_key : option models.APIKey;
  Body : string;
  alloc : Cells;
}.

(** A pointer field after decoding: absent when the body does not give the
    field, a cell at the given address otherwise. *)
Definition place {A} (addr : positive) (p : option (ref A)) : option (ref A) :=
  match p with
  | Some r => Some (Ref addr (ref_val r))
  | None => None
  end.

(** [json.NewDecoder(r.Body).Decode(&req)]: what the body says, with its
    optional numbers in the cells of this request. *)
Definition Decode (r : Request) : option ChatRequest.t :=
  match request_decode (Body r) with
  | None => None
  | Some req =>
      Some {| ChatRequest.Model := ChatRequest.Model req;
              ChatRequest.Messages := ChatRequest.Messages req;
              ChatRequest.Temperature :=
                place (temperature_at (alloc r)) (ChatRequest.Temperature req);
              ChatRequest.MaxTokens :=
                place (max_tokens_at (alloc r)) (ChatRequest.MaxTokens req);
              ChatRequest.TopP := place (top_p_at (alloc r)) (ChatRequest.TopP req);
              ChatRequest.Stream := ChatRequest.Stream req |}
  end.

(** Everything a handler can act on besides its response writer. *)
Record Sys := {
  store : redis.Server;
  net : Net;
  db : database.DB;
}.

Definition Handler : Type := ResponseWriter -> Request -> Sys -> ResponseWriter * Sys.

Definition with_store (st : redis.Server) (s : Sys) : Sys :=
  {| store := st; net := net s; db := db s |}.
Definition with_net (n : Net) (s : Sys) : Sys :=
  {| store := store s; net := n; db := db s |}.
Definition with_db (d : database.DB) (s : Sys) : Sys :=
  {| store := store s; net := net s; db := d |}.
Definition with_world (w : World) (s : Sys) : Sys :=
  with_net {| world := w; calls := calls (net s) |} s.

(** [time.Now()] and [time.Since(t)] in milliseconds. *)
Definition time_Now (s : Sys) : Z * Sys :=
  let '(t, w) := clock (world (net s)) in (t, with_world w s).
Definition time_Since (t0 : Z) (s : Sys) : Z * Sys :=
  let '(t, s) := time_Now s in (t - t0, s).

(** *** middleware.go *)

Definition RateLimitMiddleware (next : Handler) : Handler :=
  fun w r s =>
    match ctx_api_key r with
    | None => next w r s
    | Some apiKey =>
        let limit := models.RateLimitPerMinute apiKey in
        let limit := if limit <=? 0 then 100 (* fallback default *) else limit in
        let '((exceeded, remaining, err), st) :=
          redis.run (redis.CheckRateLimit (models.ID apiKey) limit) (store s) in
        let s := with_store st s in
        match err with
        | Some _ => next w r s
        | None =>
            let w := HeaderSet "X-RateLimit-Limit" (GoStrings.fmt_d limit) w in
            let w := HeaderSet "X-RateLimit-Remaining" (GoStrings.fmt_d remaining) w in
            if exceeded then
              let w := HeaderSet "Retry-After" "60" w in
              (http_Error w "rate limit exceeded" StatusTooManyRequests, s)
            else next w r s
        end
    end.

(** *** chat.go *)

Record ChatHandler := { providerMgr : Manager }.

Definition calculateCost (s : Sys) (provider model : string) (usage : openai.Usage)
  : spec_float * option error :=
  match database.GetModelPricing (db s) provider model with
  | inr err => (F64.zero, Some err)
  | inl pricing =>
      let inputCost :=
        F64.mul (F64.div (F64.of_int (openai.PromptTokens usage)) F64.thousand)
                (models.InputPer1kTokens pricing) in
      let outputCost :=
        F64.mul (F64.div (F64.of_int (openai.CompletionTokens usage)) F64.thousand)
                (models.OutputPer1kTokens pricing) in
      (F64.add inputCost outputCost, None)
  end.

Definition logRequest (apiKey : models.APIKey) (req : ChatRequest.t)
    (resp : option ChatResponse.t) (provider : string) (durationMs : Z)
    (cacheHit failoverUsed : bool) (err : option error) (s : Sys) : Sys :=
  let log :=
    {| models.APIKeyID := models.ID apiKey;
       models.Method := "POST";
       models.Endpoint := "/v1/chat/completions";
       models.Model := ChatRequest.Model req;
       models.Provider := provider;
       models.CostUSD :=
         match resp with Some r => ChatResponse.CostUSD r | None => F64.zero end;
       models.LatencyMs := durationMs;
       models.PromptTokens :=
         match resp with
         | Some r => openai.PromptTokens (ChatResponse.Usage r) | None => 0 end;
       models.CompletionTokens :=
         match resp with
         | Some r => openai.CompletionTokens (ChatResponse.Usage r) | None => 0 end;
       models.TotalTokens :=
         match resp with
         | Some r => openai.TotalTokens (ChatResponse.Usage r) | None => 0 end;
       models.CacheHit := cacheHit;
       models.FailoverUsed := failoverUsed;
       models.StatusCode := match err with Some _ => 500 | None => 200 end;
       models.ErrorMessage := err |} in
  (* Log asynchronously to avoid blocking *)
  let d := database.LogRequest log (db s) in
  (* Update API key last used *)
  let d := database.UpdateAPIKeyLastUsed (models.ID apiKey) d in
  with_db d s.

(** The response built for the log of a streamed request:
    [&providers.ChatResponse{Usage: usage}]. *)
Definition usage_only (usage : openai.Usage) : ChatResponse.t :=
  {| ChatResponse.ID := ""; ChatResponse.Object := ""; ChatResponse.Created := 0;
     ChatResponse.Model := ""; ChatResponse.Choices := [];
     ChatResponse.Usage := usage; ChatResponse.SystemFingerprint := "";
     ChatResponse.LatencyMs := 0; ChatResponse.CostUSD := F64.zero |}.

(** The chunk loop of [handleStreamingChat] up to the end of the stream:
    every chunk is written as one [data:] frame; the last usage seen
    gives [totalTokens]. *)
Fixpoint streamChunks (cs : list openai.ChatCompletionStreamResponse)
    (totalTokens : Z) (w : ResponseWriter) : Z * ResponseWriter :=
  match cs with
  | [] => (totalTokens, w)
  | chunk :: cs' =>
      (* Track usage *)
      let totalTokens :=
        match openai.StreamUsage chunk with
        | Some u => openai.TotalTokens u
        | None => totalTokens
        end in
      (* Send chunk *)
      streamChunks cs' totalTokens (Fprintf ("data: " +:+ chunk_marshal chunk +:+ nl2) w)
  end.

Definition handleStreamingChat (h : ChatHandler) (w : ResponseWriter)
    (apiKey : models.APIKey) (req : ChatRequest.t) (s : Sys)
  : ResponseWriter * Sys :=
  let '(startTime, s) := time_Now s in
  (* Set SSE headers *)
  let w := HeaderSet "Content-Type" "text/event-stream" w in
  let w := HeaderSet "Cache-Control" "no-cache" w in
  let w := HeaderSet "Connection" "keep-alive" w in
  let w := HeaderSet "X-Accel-Buffering" "no" w in
  if negb (flusher w)
  then (http_Error w "streaming not supported" StatusInternalServerError, s)
  else
    (* Get provider *)
    match GetProvider (providerMgr h) (ChatRequest.Model req) with
    | inr err =>
        (http_Error w ("provider error: " +:+ err) StatusInternalServerError, s)
    | inl (provider, providerName) =>
        (* Create stream *)
        let '(r, wd) := ChatCompletionStream provider req (world (net s)) in
        let s := with_world wd s in
        match r with
        | inr err =>
            (http_Error w ("streaming error: " +:+ err) StatusInternalServerError, s)
        | inl stream =>
            (* Stream chunks *)
            let '(totalTokens, w) := streamChunks (chunks stream) 0 w in
            match ending stream with
            | Some err =>
                (Fprintf ("data: {" +:+ dq +:+ "error" +:+ dq +:+ ": " +:+ dq
                        +:+ err +:+ dq +:+ "}" +:+ nl2) w, s)
            | None =>
                (* Send [DONE] *)
                let w := Fprintf ("data: [DONE]" +:+ nl2) w in
                (* Log request *)
                let usage :=
                  {| openai.PromptTokens := 0; openai.CompletionTokens := 0;
                     openai.TotalTokens := totalTokens |} in
                let resp := usage_only usage in
                let '(cost, _) :=
                  calculateCost s providerName (ChatRequest.Model req) usage in
                let resp := ChatResponse.with_CostUSD cost resp in
                let '(d, s) := time_Since startTime s in
                (w, logRequest apiKey req (Some resp) providerName d false false None s)
            end
        end
    end.

Definition HandleChatCompletion (h : ChatHandler) : Handler :=
  fun w r s =>
    let '(startTime, s) := time_Now s in
    (* Get API key from context (set by auth middleware) *)
    match ctx_api_key r with
    | None => (http_Error w "unauthorized" StatusUnauthorized, s)
    | Some apiKey =>
        (* Parse request *)
        match Decode r with
        | None => (http_Error w "invalid request body" StatusBadRequest, s)
        | Some req =>
            (* Handle streaming separately *)
            if ChatRequest.Stream req then handleStreamingChat h w apiKey req s
            else
              (* Check cache if enabled *)
              let '(cached, s) :=
                if models.CacheEnabled apiKey then
                  let '(r, st) := redis.run (cache.Get req) (store s) in
                  (match r with
                   | inl cachedResp =>
                       Some (ChatResponse.with_CostUSD F64.zero cachedResp)
                   | inr _ => None
                   end, with_store st s)
                else (None, s) in
              let finish (resp : ChatResponse.t) (providerName : string)
                         (cacheHit failoverUsed : bool) (w : ResponseWriter) (s : Sys) :=
                let '(totalLatency, s) := time_Since startTime s in
                let resp := ChatResponse.with_LatencyMs totalLatency resp in
                (* Set headers *)
                let w := HeaderSet "Content-Type" "application/json" w in
                let w := HeaderSet "X-Cache-Hit" (if cacheHit then "true" else "false") w in
                let w := HeaderSet "X-Cost-USD" (fmt_float6 (ChatResponse.CostUSD resp)) w in
                let w := HeaderSet "X-Provider" providerName w in
                let w := HeaderSet "X-Latency-Ms" (GoStrings.fmt_d totalLatency) w in
                let w := if failoverUsed then HeaderSet "X-Failover" "true" w else w in
                (* Log request *)
                let '(d, s) := time_Since startTime s in
                let s := logRequest apiKey req (Some resp) providerName d
                                    cacheHit failoverUsed None s in
                (* Return response *)
                match response_marshal resp with
                | inl js => (Fprintf (js +:+ String (ascii_of_N 10) "") w, s)
                | inr _ => (w, s)
                end in
              match cached with
              | Some resp => finish resp "" true false w s
              | None =>
                  (* If not cached, call provider *)
                  let '((resp, providerName, failoverUsed, err), n) :=
                    ManagerChatCompletion (providerMgr h) req (net s) in
                  let s := with_net n s in
                  match err, resp with
                  | None, Some resp =>
                      (* Calculate cost *)
                      let '(cost, _) :=
                        calculateCost s providerName (ChatRequest.Model req)
                                      (ChatResponse.Usage resp) in
                      let resp := ChatResponse.with_CostUSD cost resp in
                      (* Cache the response if enabled *)
                      let s :=
                        if models.CacheEnabled apiKey then
                          let ttl := wrap64 (models.CacheTTLSeconds apiKey * 1000000000) in
                          let '(_, st) := redis.run (cache.Set_ req resp ttl) (store s) in
                          with_store st s
                        else s in
                      finish resp providerName false failoverUsed w s
                  | Some e, _ =>
                      let w := http_Error w ("provider error: " +:+ e)
                                          StatusInternalServerError in
                      let '(d, s) := time_Since startTime s in
                      (w, logRequest apiKey req None providerName d false failoverUsed
                                     (Some e) s)
                  | None, None =>
                      (* not produced by the manager: a nil response without error *)
                      (w, s)
                  end
              end
        end
    end.

End WithEnv.

End handlers.

(** ** Specification-side definitions *)

Import providers.

(** Two requests carry the same values in the five fingerprinted fields;
    the optional fields are compared by what they point to. *)
Definition same_fields (r1 r2 : ChatRequest.t) : Prop :=
  ChatRequest.Model r1 = ChatRequest.Model r2 /\
  ChatRequest.Messages r1 = ChatRequest.Messages r2 /\
  deref (ChatRequest.Temperature r1) = deref (ChatRequest.Temperature r2) /\
  deref (ChatRequest.MaxTokens r1) = deref (ChatRequest.MaxTokens r2) /\
  deref (ChatRequest.TopP r1) = deref (ChatRequest.TopP r2).

(** The error classes of the specification, read off the upstream outcome:
    rate-limited, server error, timeout or connection failure, other. *)
Inductive ErrorClass := RateLimited | ServerError | TimeoutOrConnection | OtherError.

Definition classify (o : HttpOutcome) : ErrorClass :=
  match o with
  | TransportError _ => TimeoutOrConnection
  | HttpResponse status _ =>
      if status =? 429 then RateLimited
      else if (500 <=? status) && (status <=? 599) then ServerError
      else OtherError
  end.

Definition retryable_class (c : ErrorClass) : bool :=
  match c with OtherError => false | _ => true end.

(** The error a client returns for an upstream outcome that is not a 200. *)
Definition provider_error (api : string) (o : HttpOutcome) : error :=
  match o with
  | TransportError e => transport_error api e
  | HttpResponse status body => status_error api status body
  end.

(** The text of an error carries none of the four markers. *)
Definition unmarked (e : error) : Prop :=
  GoStrings.Contains e "429" = false /\
  GoStrings.Contains e "rate limit" = false /\
  GoStrings.Contains e "timeout" = false /\
  GoStrings.Contains e "status 5" = false.

(** Messages API translation, as the specification words it. *)
Definition is_system (m : openai.ChatCompletionMessage) : bool :=
  String.eqb (openai.Role m) "system".

Definition to_anthropic (m : openai.ChatCompletionMessage) : AnthropicMessage.t :=
  {| AnthropicMessage.Role := openai.Role m;
     AnthropicMessage.Content := openai.Content m |}.

Definition last_system_content (ms : list openai.ChatCompletionMessage) : string :=
  match last (List.filter is_system ms) with
  | Some m => openai.Content m
  | None => ""
  end.

Section FailoverSpec.
Context {E : Env}.

(** The calls a stretch of the failover chain gives rise to, in order:
    each model whose provider resolves is tried with the model substituted
    into the request. *)
Definition attempt_of (m : Manager) (req : ChatRequest.t) (fallbackModel : string)
  : list (string * ChatRequest.t) :=
  match GetProvider m fallbackModel with
  | inl (_, providerName) => [(providerName, ChatRequest.with_Model fallbackModel req)]
  | inr _ => []
  end.

(** Every model of a stretch of the chain is tried in turn, from network
    state [n] to [n'], and none of the calls succeeds. *)
Inductive all_fail (m : Manager) (req : ChatRequest.t) : list string -> Net -> Net -> Prop :=
| all_fail_nil n : all_fail m req [] n n
| all_fail_skip f fs err n n' :
    GetProvider m f = inr err ->
    all_fail m req fs n n' ->
    all_fail m req (f :: fs) n n'
| all_fail_call f fs p name e n n1 n' :
    GetProvider m f = inl (p, name) ->
    invoke p name (ChatRequest.with_Model f req) n = (inr e, n1) ->
    all_fail m req fs n1 n' ->
    all_fail m req (f :: fs) n n'.

(** The effective limit the middleware passes to the rate limiter. *)
Definition effective_limit (apiKey : models.APIKey) : Z :=
  if models.RateLimitPerMinute apiKey <=? 0 then 100
  else models.RateLimitPerMinute apiKey.

(** All prices of the pricing table are numbers (neither NaN nor an
    infinity), as the column type DECIMAL(10,6) of [model_pricing] has
    them. *)
Definition finite_prices (d : database.DB) : Prop :=
  forall k p, database.pricing d !! k = Some p ->
    F64.is_finite (models.InputPer1kTokens p) = true /\
    F64.is_finite (models.OutputPer1kTokens p) = true.

End FailoverSpec.

(** Sequential rate-limit checks of one caller: a check, then the time
    [dt] passing, for each entry of [gaps].  Returns the results in order
    and the server as the next check would find it. *)
Fixpoint checks (apiKeyID : string) (limit : Z) (gaps : list Z) (s : redis.Server)
  : list (bool * Z * option error) * redis.Server :=
  match gaps with
  | [] => ([], s)
  | dt :: gaps' =>
      let '(r, s1) := redis.run (redis.CheckRateLimit apiKeyID limit) s in
      let '(rs, s2) := checks apiKeyID limit gaps' (redis.elapse dt s1) in
      (r :: rs, s2)
  end.

Definition sumZ (l : list Z) : Z := fold_right Z.add 0 l.

(** The results [(false, limit - 1, nil)], ..., [(false, limit - k, nil)],
    counting from [c + 1]. *)
Fixpoint accepted_from (limit c : Z) (k : nat) : list (bool * Z * option error) :=
  match k with
  | O => []
  | S k' => (false, limit - (c + 1), None) :: accepted_from limit (c + 1) k'
  end.

(** How many of two results are admissions. *)
Definition accepted (r : bool * Z * option error) : nat :=
  match r with (false, _, None) => 1 | _ => 0 end.

(** The key under which the rate limiter counts a caller. *)
Definition rate_key (apiKeyID : string) : string := "ratelimit:" +:+ apiKeyID.

(** The counter of the caller is [c], its window ends at [t], which is still
    ahead, and the connection to the server is healthy. *)
Definition window (apiKeyID : string) (s : redis.Server) (c t : Z) : Prop :=
  redis.faults s = [] /\
  redis.data s !! rate_key apiKeyID = Some (redis.Entry (redis.RInt c) (Some t)) /\
  redis.clock s < t.

Definition starts_with_5 (n : Z) : bool :=
  GoStrings.HasPrefix (GoStrings.fmt_d n) "5".

(** ** A sample environment for the closed examples *)

Module Sample.

Record sim := { tick : Z; script : list HttpOutcome }.

Definition user (content : string) : openai.ChatCompletionMessage :=
  {| openai.Role := "user"; openai.Content := content |}.
Definition system (content : string) : openai.ChatCompletionMessage :=
  {| openai.Role := "system"; openai.Content := content |}.

(** 0.5 as a float32. *)
Definition half : spec_float := S754_finite false 8388608 (-24).

Definition request (model : string) (temperature : option (ref spec_float))
    (stream : bool) : ChatRequest.t :=
  {| ChatRequest.Model := model;
     ChatRequest.Messages := [user "2+2?"];
     ChatRequest.Temperature := temperature;
     ChatRequest.MaxTokens := None;
     ChatRequest.TopP := None;
     ChatRequest.Stream := stream |}.

(** The same request decoded twice: the decoder allocates the
    temperature at two different addresses. *)
Definition reqA : ChatRequest.t :=
  request "gpt-4o-mini" (Some (Ref 0xc000012340%positive half)) false.
Definition reqB : ChatRequest.t :=
  request "gpt-4o-mini" (Some (Ref 0xc000012348%positive half)) false.

Definition answer (model text : string) : ChatResponse.t :=
  {| ChatResponse.ID := "msg_1"; ChatResponse.Object := "chat.completion";
     ChatResponse.Created := 0; ChatResponse.Model := model;
     ChatResponse.Choices :=
       [ {| openai.Index := 0;
            openai.Message := {| openai.Role := "assistant"; openai.Content := text |};
            openai.FinishReason := "stop" |} ];
     ChatResponse.Usage := {| openai.PromptTokens := 7; openai.CompletionTokens := 1;
                              openai.TotalTokens := 8 |};
     ChatResponse.SystemFingerprint := ""; ChatResponse.LatencyMs := 3;
     ChatResponse.CostUSD := F64.zero |}.

Definition env : Env :=
  {| World := sim;
     clock := fun w => (tick w, {| tick := tick w + 1; script := script w |});
     fmt_float6 := fun _ => "0.000000";
     anthropic_post := fun _ w =>
       match script w with
       | [] => (TransportError "unexpected EOF", w)
       | o :: rest => (o, {| tick := tick w; script := rest |})
       end;
     anthropic_unmarshal := fun _ => inr "unexpected end of JSON input";
     response_marshal := fun r => inl (ChatResponse.ID r);
     response_unmarshal := fun _ => inr "unexpected end of JSON input";
     chunk_marshal := fun c => openai.DeltaContent c;
     request_decode := fun body =>
       if String.eqb body "stream" then Some (request "claude-haiku-4-5-20251001" None true)
       else if String.eqb body "plain" then Some (request "claude-haiku-4-5-20251001" None false)
       else None |}.

(** A provider that answers every call, and one that fails every call
    with the given error. *)
Definition answering (name : string) : @Provider env :=
  {| ChatCompletion := fun req w => (inl (answer (ChatRequest.Model req) "4"), w);
     ChatCompletionStream := fun req w =>
       (inl {| chunks := [ {| openai.DeltaRole := ""; openai.DeltaContent := "4";
                              openai.StreamUsage :=
                                Some {| openai.PromptTokens := 7;
                                        openai.CompletionTokens := 1;
                                        openai.TotalTokens := 8 |} |} ];
               ending := None |}, w);
     GetProviderName := name |}.

Definition failing (name : string) (e : error) : @Provider env :=
  {| ChatCompletion := fun _ w => (inr e, w);
     ChatCompletionStream := fun _ w => (inr e, w);
     GetProviderName := name |}.

Definition anthropic : @Provider env :=
  @NewAnthropicProvider env (fun _ w => (inr "Anthropic streaming API error: EOF", w)).

Definition all_keys : @Config :=
  {| OpenAIAPIKey := "sk-1"; AnthropicAPIKey := "sk-2"; GeminiAPIKey := "sk-3" |}.

Definition net0 (outcomes : list HttpOutcome) : @Net env :=
  {| world := {| tick := 0; script := outcomes |} : @World env; calls := [] |}.

Definition server0 : redis.Server :=
  {| redis.data := ∅; redis.clock := 0; redis.faults := []; redis.received := [] |}.

Definition db0 : database.DB :=
  {| database.pricing :=
       {[ ("anthropic", "claude-haiku-4-5-20251001") :=
            {| models.InputPer1kTokens := S754_finite false 1 (-10);
               models.OutputPer1kTokens := S754_finite false 5 (-10) |} ]};
     database.broken := None; database.logs := []; database.last_used := [] |}.

Definition key (limit : Z) (cacheEnabled : bool) : models.APIKey :=
  {| models.ID := "key-1"; models.RateLimitPerMinute := limit;
     models.CacheEnabled := cacheEnabled; models.CacheTTLSeconds := 3600 |}.

Definition writer : handlers.ResponseWriter :=
  {| handlers.Header := ∅; handlers.status := None; handlers.written := [];
     handlers.flusher := true |}.

(** An invalid-request answer whose text happens to contain the digits
    429. *)
Definition bad_request : HttpOutcome :=
  HttpResponse 400 "invalid_request_error: max_tokens: 42900 > 8192".

(** OpenAI fails, Anthropic talks to the scripted network, Gemini
    answers. *)
Definition manager : @Manager env :=
  @NewManager env all_keys
    (failing "openai" "OpenAI API error: error, status code: 500")
    anthropic (answering "google").

(** All three providers answer. *)
Definition healthy_manager : @Manager env :=
  @NewManager env all_keys (answering "openai") (answering "anthropic")
              (answering "google").

(** OpenAI and Gemini answer, Anthropic talks to the scripted network. *)
Definition scripted_manager : @Manager env :=
  @NewManager env all_keys (answering "openai") anthropic (answering "google").

Definition haiku : ChatRequest.t := request "claude-haiku-4-5-20251001" None false.

Definition sys0 : @handlers.Sys env :=
  {| handlers.store := server0; handlers.net := net0 []; handlers.db := db0 |}.

Definition unreachable : redis.Server :=
  {| redis.data := ∅; redis.clock := 0; redis.faults := [true]; redis.received := [] |}.

Definition passthrough : @handlers.Handler env := fun w _ s => (w, s).

(** The cells of a first request, and those of a later one. *)
Definition cells : handlers.Cells :=
  {| handlers.temperature_at := 0xc000012340; handlers.max_tokens_at := 0xc000012350;
     handlers.top_p_at := 0xc000012360 |}.
Definition later_cells : handlers.Cells :=
  {| handlers.temperature_at := 0xc000012348; handlers.max_tokens_at := 0xc000012358;
     handlers.top_p_at := 0xc000012368 |}.

End Sample.

(** ** Further parts of the gateway

    The definitions below cover the remaining code of the packages modelled
    above: the Gemini translation, the model tables of the three clients,
    the configuration loader, and the authentication and CORS middleware
    with the route that [main] assembles from them. *)

(** *** From Go's library: [strings.Split] with a one-byte separator,
    [strconv.Atoi], [strconv.ParseBool] *)

Module gostd.

(** [strings.Split(s, sep)] for a separator of one byte: the pieces between
    the separators, in order; a string without separator is its only
    piece. *)
Fixpoint Split (s : string) (sep : ascii) : list string :=
  match s with
  | EmptyString => [""]
  | String c s' =>
      if Ascii.eqb c sep then "" :: Split s' sep
      else
        match Split s' sep with
        | piece :: pieces => String c piece :: pieces
        | [] => [String c ""]
        end
  end.

Definition is_digit (c : ascii) : bool :=
  let n := Z.of_N (N_of_ascii c) in (48 <=? n) && (n <=? 57).

Fixpoint parse_digits (s : string) (acc : Z) : option Z :=
  match s with
  | EmptyString => Some acc
  | String c s' =>
      if is_digit c then parse_digits s' (10 * acc + (Z.of_N (N_of_ascii c) - 48))
      else None
  end.

(** [gostd.Atoi]: an optional sign, then one or more decimal digits,
    with a value in the range of [int]; [None] stands for its error. *)
Definition Atoi (s : string) : option Z :=
  let '(neg, ds) :=
    match s with
    | String "-" s' => (true, s')
    | String "+" s' => (false, s')
    | _ => (false, s)
    end in
  match ds with
  | EmptyString => None
  | _ =>
      match parse_digits ds 0 with
      | Some n =>
          let v := if neg then - n else n in
          if (- 2 ^ 63 <=? v) && (v <=? 2 ^ 63 - 1) then Some v else None
      | None => None
      end
  end.

(** [gostd.ParseBool]. *)
Definition ParseBool (s : string) : option bool :=
  if existsb (String.eqb s) ["1"; "t"; "T"; "TRUE"; "true"; "True"] then Some true
  else if existsb (String.eqb s) ["0"; "f"; "F"; "FALSE"; "false"; "False"] then Some false
  else None.

End gostd.

(** *** Configuration ([internal/shared/config]) *)

Module config.

Record Config := {
  Port : string;
  Env_ : string;
  DatabaseURL : string;
  RedisURL : string;
  OpenAIAPIKey : string;
  AnthropicAPIKey : string;
  GeminiAPIKey : string;
  DefaultRateLimit : Z;
  CacheTTLSeconds : Z;
  CacheEnabled : bool;
}.

(** The process environment, after [godotenv.Load]; [os.Getenv] yields the
    empty string for a variable that is not set. *)
Definition Getenv (env : gmap string string) (key : string) : string :=
  default "" (env !! key).

Definition getEnv (env : gmap string string) (key defaultValue : string) : string :=
  let value := Getenv env key in
  if negb (String.eqb value "") then value else defaultValue.

Definition getEnvInt (env : gmap string string) (key : string) (defaultValue : Z) : Z :=
  let value := Getenv env key in
  if negb (String.eqb value "") then
    match gostd.Atoi value with
    | Some intVal => intVal
    | None => defaultValue
    end
  else defaultValue.

Definition getEnvBool (env : gmap string string) (key : string) (defaultValue : bool)
  : bool :=
  let value := Getenv env key in
  if negb (String.eqb value "") then
    match gostd.ParseBool value with
    | Some boolVal => boolVal
    | None => defaultValue
    end
  else defaultValue.

Definition Load (env : gmap string string) : Config + error :=
  let cfg :=
    {| Port := getEnv env "PORT" "8080";
       Env_ := getEnv env "ENV" "development";
       DatabaseURL := getEnv env "DATABASE_URL" "";
       RedisURL := getEnv env "REDIS_URL" "redis://localhost:6379";
       OpenAIAPIKey := getEnv env "OPENAI_API_KEY" "";
       AnthropicAPIKey := getEnv env "ANTHROPIC_API_KEY" "";
       GeminiAPIKey := getEnv env "GEMINI_API_KEY" "";
       DefaultRateLimit := getEnvInt env "DEFAULT_RATE_LIMIT" 100;
       CacheTTLSeconds := getEnvInt env "CACHE_TTL_SECONDS" 3600;
       CacheEnabled := getEnvBool env "CACHE_ENABLED" true |} in
  (* Validate required fields *)
  if String.eqb (DatabaseURL cfg) "" then inr "DATABASE_URL is required"
  (* At least one provider API key is required *)
  else if String.eqb (OpenAIAPIKey cfg) "" && String.eqb (AnthropicAPIKey cfg) ""
          && String.eqb (GeminiAPIKey cfg) ""
  then inr "at least one provider API key is required (OPENAI_API_KEY, ANTHROPIC_API_KEY, or GEMINI_API_KEY)"
  else inl cfg.

(** The three fields [NewManager] reads. *)
Definition provider_keys (cfg : Config) : providers.Config :=
  {| providers.OpenAIAPIKey := OpenAIAPIKey cfg;
     providers.AnthropicAPIKey := AnthropicAPIKey cfg;
     providers.GeminiAPIKey := GeminiAPIKey cfg |}.

End config.

(** *** The model tables of the three clients ([ValidateModel]) *)

Module OpenAIProvider.
Definition validModels : gmap string bool :=
  list_to_map [ ("gpt-4", true); ("gpt-4-turbo", true); ("gpt-4o", true);
                ("gpt-4o-mini", true); ("gpt-3.5-turbo", true);
                ("gpt-3.5-turbo-16k", true) ].
Definition ValidateModel (model : string) : bool := default false (validModels !! model).
Definition GetProviderName : string := "openai".
End OpenAIProvider.

Module AnthropicProvider.
Definition validModels : gmap string bool :=
  list_to_map [ ("claude-opus-4-5-20251101", true); ("claude-sonnet-4-5-20250929", true);
                ("claude-haiku-4-5-20251001", true); ("claude-3-5-haiku-20241022", true) ].
Definition ValidateModel (model : string) : bool := default false (validModels !! model).
Definition GetProviderName : string := "anthropic".
End AnthropicProvider.

(** *** Gemini ([internal/gateway/providers/gemini.go]) *)

Module GeminiProvider.

Record GeminiPart := { Text : string }.

Record GeminiContent := { Role : string; Parts : list GeminiPart }.

Record GeminiGenerationConfig := {
  Temperature : option (ref spec_float);
  TopP : option (ref spec_float);
  MaxOutputTokens : option (ref Z);
}.

Record GeminiRequest := {
  Contents : list GeminiContent;
  GenerationConfig : option GeminiGenerationConfig;   (* a pointer, nil when absent *)
}.

Record GeminiCandidate := {
  Content : GeminiContent;
  FinishReason : string;
  Index : Z;
}.

Record GeminiUsage := {
  PromptTokenCount : Z;
  CandidatesTokenCount : Z;
  TotalTokenCount : Z;
}.

Record GeminiResponse := {
  Candidates : list GeminiCandidate;
  UsageMetadata : GeminiUsage;
}.

(** The role of a message in Gemini's terms: the two assignments of the
    loop body, in their order. *)
Definition convertRole (role : string) : string :=
  let role := if String.eqb role "assistant" then "model" else role in
  if String.eqb role "system" then "user" else role.

Definition convertRequest (req : providers.ChatRequest.t) : GeminiRequest :=
  let contents :=
    fold_left
      (fun contents msg =>
         (contents ++ [ {| Role := convertRole (openai.Role msg);
                           Parts := [ {| Text := openai.Content msg |} ] |} ])%list)
      (providers.ChatRequest.Messages req) [] in
  let generationConfig :=
    match providers.ChatRequest.Temperature req, providers.ChatRequest.MaxTokens req,
          providers.ChatRequest.TopP req with
    | None, None, None => None
    | _, _, _ =>
        Some {| Temperature := providers.ChatRequest.Temperature req;
                TopP := providers.ChatRequest.TopP req;
                MaxOutputTokens := providers.ChatRequest.MaxTokens req |}
    end in
  {| Contents := contents; GenerationConfig := generationConfig |}.

(** The text of a content document: its parts joined. *)
Definition parts_text (parts : list GeminiPart) : string :=
  fold_left (fun content part => content +:+ Text part) parts "".

(** [convertResponse]; [unix] is the reading of [time.Now().Unix()] for the
    identifier, [created] the one for the creation time. *)
Definition convertResponse (resp : GeminiResponse) (model : string) (latencyMs : Z)
    (unix created : Z) : providers.ChatResponse.t :=
  let content :=
    match Candidates resp with
    | candidate :: _ => parts_text (Parts (Content candidate))
    | [] => ""
    end in
  {| providers.ChatResponse.ID := "gemini-" +:+ GoStrings.fmt_d unix;
     providers.ChatResponse.Object := "chat.completion";
     providers.ChatResponse.Created := created;
     providers.ChatResponse.Model := model;
     providers.ChatResponse.Choices :=
       [ {| openai.Index := 0;
            openai.Message := {| openai.Role := "assistant"; openai.Content := content |};
            openai.FinishReason := "stop" |} ];
     providers.ChatResponse.Usage :=
       {| openai.PromptTokens := PromptTokenCount (UsageMetadata resp);
          openai.CompletionTokens := CandidatesTokenCount (UsageMetadata resp);
          openai.TotalTokens := TotalTokenCount (UsageMetadata resp) |};
     providers.ChatResponse.SystemFingerprint := "";
     providers.ChatResponse.LatencyMs := latencyMs;
     providers.ChatResponse.CostUSD := F64.zero |}.

Definition validModels : gmap string bool :=
  list_to_map [ ("gemini-2.5-flash", true); ("gemini-2.5-pro", true);
                ("gemini-2.0-flash", true); ("gemini-2.0-flash-exp", true) ].
Definition ValidateModel (model : string) : bool := default false (validModels !! model).
Definition GetProviderName : string := "google".

(** How a call of the client ends: it returns, or the goroutine panics. *)
Inductive CallOutcome :=
| Returned (r : providers.ChatResponse.t + error)
| Panicked.

Section WithEnv.
Context {E : providers.Env}.

(** The exchange with the API: the URL carries the model and the key. *)
Variable gemini_post : string -> GeminiRequest -> providers.World
                       -> providers.HttpOutcome * providers.World.
Variable gemini_unmarshal : string -> GeminiResponse + error.
(** Whether [http.NewRequestWithContext] accepts the URL (it refuses one
    that does not parse, as a model name with a control character or a
    broken percent escape makes it). *)
Variable url_parses : string -> bool.

Definition endpoint (model apiKey : string) : string :=
  "https://generativelanguage.googleapis.com/v1beta/models/" +:+ model
  +:+ ":generateContent?key=" +:+ apiKey.

Definition ChatCompletion (apiKey : string) (req : providers.ChatRequest.t)
    (w : providers.World) : CallOutcome * providers.World :=
  let '(startTime, w) := providers.clock w in
  let geminiReq := convertRequest req in
  let url := endpoint (providers.ChatRequest.Model req) apiKey in
  (* httpReq, _ := http.NewRequestWithContext(ctx, "POST", url, ...): the
     error is dropped, and for a URL that is refused httpReq is nil;
     httpReq.Header.Set then dereferences the nil request *)
  if negb (url_parses url) then (Panicked, w)
  else
    let '(out, w) := gemini_post url geminiReq w in
    match out with
    | providers.TransportError e =>
        (Returned (inr (providers.transport_error "Gemini" e)), w)
    | providers.HttpResponse status body =>
        if negb (status =? 200)
        then (Returned (inr (providers.status_error "Gemini" status body)), w)
        else
          match gemini_unmarshal body with
          | inr e => (Returned (inr ("failed to parse response: " +:+ e)), w)
          | inl geminiResp =>
              let '(t, w) := providers.clock w in
              let latencyMs := t - startTime in
              let '(unix, w) := providers.clock w in
              let '(created, w) := providers.clock w in
              (Returned (inl (convertResponse geminiResp (providers.ChatRequest.Model req)
                                              latencyMs (unix / 1000) (created / 1000))), w)
          end
    end.

End WithEnv.

End GeminiProvider.

(** *** Authentication and CORS ([handlers/middleware.go]), and the route *)

Module middleware.

Import handlers.

(** The [api_keys] table behind [db.GetAPIKey]: rows by their [key_hash]
    (a unique index), each with its [is_active] flag. *)
Record Middleware := { api_keys : gmap string (models.APIKey * bool) }.

(** [GetAPIKey]: the raw key is hashed and looked up; only an active row
    is returned. *)
Definition GetAPIKey (m : Middleware) (d : database.DB) (rawKey : string)
  : models.APIKey + error :=
  let keyHash := SHA256.hex_of_string rawKey in
  match database.broken d with
  | Some e => inr ("database error: " +:+ e)
  | None =>
      match api_keys m !! keyHash with
      | Some (apiKey, true) => inl apiKey
      | _ => inr "invalid API key"
      end
  end.

Section WithEnv.
Context {E : providers.Env}.

(** An incoming request as the outer middleware sees it: the method, the
    value of [Header.Get("Authorization")] (empty when the header is
    absent), and what the handlers read. *)
Record HttpRequest := {
  Method : string;
  Authorization : string;
  request : Request;
}.

Definition HttpHandler : Type := ResponseWriter -> HttpRequest -> Sys -> ResponseWriter * Sys.

(** [r.WithContext(context.WithValue(r.Context(), "api_key", apiKey))]. *)
Definition WithAPIKey (apiKey : models.APIKey) (r : HttpRequest) : HttpRequest :=
  {| Method := Method r; Authorization := Authorization r;
     request := {| ctx_api_key := Some apiKey; Body := Body (request r);
                   alloc := alloc (request r) |} |}.

Definition AuthMiddleware (m : Middleware) (next : HttpHandler) : HttpHandler :=
  fun w r s =>
    (* Extract API key from Authorization header *)
    let authHeader := Authorization r in
    if String.eqb authHeader ""
    then (http_Error w "missing authorization header" StatusUnauthorized, s)
    else
      (* Parse Bearer token *)
      match gostd.Split authHeader " " with
      | [scheme; apiKeyValue] =>
          if negb (String.eqb scheme "Bearer")
          then (http_Error w "invalid authorization header format" StatusUnauthorized, s)
          else
            (* Validate API key *)
            match GetAPIKey m (db s) apiKeyValue with
            | inr _ => (http_Error w "invalid API key" StatusUnauthorized, s)
            | inl apiKey =>
                (* Add API key to context *)
                next w (WithAPIKey apiKey r) s
            end
      | _ => (http_Error w "invalid authorization header format" StatusUnauthorized, s)
      end.

Definition CORSMiddleware (next : HttpHandler) : HttpHandler :=
  fun w r s =>
    let w := HeaderSet "Access-Control-Allow-Origin" "*" w in
    let w := HeaderSet "Access-Control-Allow-Methods" "GET, POST, OPTIONS" w in
    let w := HeaderSet "Access-Control-Allow-Headers" "Content-Type, Authorization" w in
    if String.eqb (Method r) "OPTIONS" then (WriteHeader 200 w, s)
    else next w r s.

(** A handler of the inner kind in the outer chain. *)
Definition serve (h : Handler) : HttpHandler := fun w r s => h w (request r) s.

(** The chain [main] puts in front of [POST /v1/chat/completions], as far
    as it is the gateway's own: CORS, authentication, rate limiting, the chat
    handler.  The router's logger, recoverer and timeout are left out. *)
Definition chat_route (m : Middleware) (h : ChatHandler) : HttpHandler :=
  CORSMiddleware
    (AuthMiddleware m
       (serve (RateLimitMiddleware (HandleChatCompletion h)))).

End WithEnv.

End middleware.

(** *** Which key a store command acts on *)

Definition key_of (c : redis.Cmd) : string :=
  match c with
  | redis.GET key | redis.SET key _ _ | redis.INCR key | redis.EXPIRE key _ => key
  end.

(** A client method that issues commands on the key [k] only, whatever the
    server replies. *)
Inductive uses_only {A : Type} (k : string) : redis.Prog A -> Prop :=
| uses_only_Ret a : uses_only k (redis.Ret a)
| uses_only_Do c cont :
    key_of c = k -> (forall r, uses_only k (cont r)) -> uses_only k (redis.Do c cont).

(** A client method that only reads. *)
Inductive reads_only {A : Type} : redis.Prog A -> Prop :=
| reads_only_Ret a : reads_only (redis.Ret a)
| reads_only_Do key cont :
    (forall r, reads_only (cont r)) -> reads_only (redis.Do (redis.GET key) cont).

(** *** Reading a stream *)

(** The frame the handler writes for one chunk. *)
Definition sse_frame {E : providers.Env} (chunk : openai.ChatCompletionStreamResponse)
  : string :=
  "data: " +:+ providers.chunk_marshal chunk +:+ handlers.nl2.

(** The total of the last chunk that reports a usage, 0 when none does. *)
Definition reported_total (cs : list openai.ChatCompletionStreamResponse) : Z :=
  match last (omap openai.StreamUsage cs) with
  | Some u => openai.TotalTokens u
  | None => 0
  end.

(** *** Further sample data *)

Module Sample2.

(** The response the sample codec knows: it is written as its identifier
    and read back from it. *)
Definition cached : ChatResponse.t := Sample.answer "claude-haiku-4-5-20251001" "4".

(** As [Sample.env], with a codec that reads back what it wrote. *)
Definition env : Env :=
  {| World := Sample.sim;
     clock := fun w => (Sample.tick w,
                        {| Sample.tick := Sample.tick w + 1; Sample.script := Sample.script w |});
     fmt_float6 := fun _ => "0.000000";
     anthropic_post := fun _ w =>
       match Sample.script w with
       | [] => (TransportError "unexpected EOF", w)
       | o :: rest => (o, {| Sample.tick := Sample.tick w; Sample.script := rest |})
       end;
     anthropic_unmarshal := fun _ => inr "unexpected end of JSON input";
     response_marshal := fun r => inl (ChatResponse.ID r);
     response_unmarshal := fun js =>
       if String.eqb js "msg_1" then inl cached else inr "unexpected end of JSON input";
     chunk_marshal := fun c => openai.DeltaContent c;
     request_decode := fun body =>
       if String.eqb body "plain" then Some Sample.haiku
       else if String.eqb body "tempered"
       then Some (Sample.request "claude-haiku-4-5-20251001"
                    (Some (Ref 1%positive Sample.half)) false)
       else None |}.

Definition answering (name : string) : @Provider env :=
  {| ChatCompletion := fun req w => (inl (Sample.answer (ChatRequest.Model req) "4"), w);
     ChatCompletionStream := fun _ w => (inr "stream closed", w);
     GetProviderName := name |}.

Definition manager : @Manager env :=
  @NewManager env Sample.all_keys (answering "openai") (answering "anthropic")
              (answering "google").

Definition sys0 : @handlers.Sys env :=
  {| handlers.store := Sample.server0;
     handlers.net := {| world := {| Sample.tick := 0; Sample.script := [] |} : @World env;
                        calls := [] |};
     handlers.db := Sample.db0 |}.

(** A store that holds an answer for [Sample.haiku]. *)
Definition warm : redis.Server :=
  {| redis.data := {[ cache.generateCacheKey Sample.haiku
                      := redis.Entry (redis.RStr "msg_1") None ]};
     redis.clock := 0; redis.faults := []; redis.received := [] |}.

Definition plain : handlers.Request :=
  {| handlers.ctx_api_key := Some (Sample.key 60 true); handlers.Body := "plain";
     handlers.alloc := Sample.cells |}.

(** Every provider is down; Anthropic answers 529 from the scripted
    network, the two others fail with a server error. *)
Definition overloaded : error := "API error (status 503): overloaded".

Definition all_down : @Manager Sample.env :=
  @NewManager Sample.env Sample.all_keys (Sample.failing "openai" overloaded)
              Sample.anthropic (Sample.failing "google" overloaded).

(** Anthropic is the only provider with a key. *)
Definition anthropic_only : @Config :=
  {| OpenAIAPIKey := ""; AnthropicAPIKey := "sk-2"; GeminiAPIKey := "" |}.

Definition sample_request (body : string) (cacheEnabled : bool) : handlers.Request :=
  {| handlers.ctx_api_key := Some (Sample.key 60 cacheEnabled); handlers.Body := body;
     handlers.alloc := Sample.cells |}.

Definition anonymous : handlers.Request :=
  {| handlers.ctx_api_key := None; handlers.Body := "plain";
     handlers.alloc := Sample.cells |}.

Definition chat : @handlers.ChatHandler Sample.env :=
  {| handlers.providerMgr := Sample.healthy_manager |}.

(** One active key, stored under the hash of its token. *)
Definition keys : middleware.Middleware :=
  {| middleware.api_keys :=
       {[ SHA256.hex_of_string "sk-live" := (Sample.key 60 true, true) ]} |}.

Definition bearer : middleware.HttpRequest :=
  {| middleware.Method := "POST"; middleware.Authorization := "Bearer sk-live";
     middleware.request := anonymous |}.

Definition preflight : middleware.HttpRequest :=
  {| middleware.Method := "OPTIONS"; middleware.Authorization := "";
     middleware.request := anonymous |}.

(** The request with a temperature, as a first and as a later request. *)
Definition tempered (cells : handlers.Cells) : handlers.Request :=
  {| handlers.ctx_api_key := Some (Sample.key 60 true); handlers.Body := "tempered";
     handlers.alloc := cells |}.

(** Failed exchanges as [net/http] words them: a refused connection, and
    the client's own timeout of 60 seconds running out. *)
Definition refused : HttpOutcome :=
  TransportError ("Post " +:+ handlers.dq +:+ "https://api.anthropic.com/v1/messages"
                  +:+ handlers.dq
                  +:+ ": dial tcp 160.79.104.10:443: connect: connection refused").

Definition client_timeout : HttpOutcome :=
  TransportError ("Post " +:+ handlers.dq +:+ "https://api.anthropic.com/v1/messages"
                  +:+ handlers.dq
                  +:+ ": context deadline exceeded (Client.Timeout exceeded while awaiting headers)").

(** An invalid-request answer without the digits 429. *)
Definition plain_bad_request : HttpOutcome :=
  HttpResponse 400 "invalid_request_error: max_tokens: 9000 > 8192".



(** A Gemini upstream that is down. *)
Definition gemini_down (url : string) (body : GeminiProvider.GeminiRequest)
    (w : @World Sample.env) : HttpOutcome * @World Sample.env :=
  (HttpResponse 503 "down", w).

End Sample2.
(** * Properties *)

Example sha256_abc :
  SHA256.hex_of_string "abc"
  = "ba7816bf8f01cfea414140de5dae2223b00361a396177a9cb410ff61f20015ad".
Proof. vm_compute. reflexivity. Qed.

Example sha256_empty :
  SHA256.hex_of_string ""
  = "e3b0c44298fc1c149afbf4c8996fb92427ae41e4649b934ca495991b7852b855".
Proof. vm_compute. reflexivity. Qed.

Example sha256_two_blocks :
  SHA256.hex_of_string "abcdbcdecdefdefgefghfghighijhijkijkljklmklmnlmnomnopnopq"
  = "248d6a61d20638b8e5c026930c3e6039a33ce45964ff2167f6ecedd419db06c1".
Proof. vm_compute. reflexivity. Qed.

(** ** Strings *)

Lemma Contains_cons c s sub :
  GoStrings.Contains s sub = true -> GoStrings.Contains (String c s) sub = true.
Proof. intros H. simpl. rewrite H. apply orb_true_r. Qed.

Lemma Contains_append_l p s sub :
  GoStrings.Contains s sub = true -> GoStrings.Contains (p +:+ s) sub = true.
Proof.
  intros H. induction p as [|c p IH]; [exact H|].
  change (String c p +:+ s) with (String c (p +:+ s)). now apply Contains_cons.
Qed.

Lemma HasPrefix_append sub rest : GoStrings.HasPrefix (sub +:+ rest) sub = true.
Proof.
  induction sub as [|c sub IH]; [reflexivity|].
  simpl. now rewrite Ascii.eqb_refl.
Qed.

Lemma Contains_prefix sub rest : GoStrings.Contains (sub +:+ rest) sub = true.
Proof.
  destruct (sub +:+ rest) eqn:Heq; simpl;
    rewrite <- Heq, HasPrefix_append; reflexivity.
Qed.

(** A marker found in the middle of a text. *)
Lemma Contains_middle p sub rest :
  GoStrings.Contains (p +:+ sub +:+ rest) sub = true.
Proof. apply Contains_append_l, Contains_prefix. Qed.

(** The decimal form of a 5xx status starts with the digit 5. *)
Lemma fmt_d_5xx status :
  500 <= status <= 599 -> exists rest, GoStrings.fmt_d status = String "5" rest.
Proof.
  intros Hr.
  assert (Hall : forallb starts_with_5 (List.map (fun k => 500 + Z.of_nat k) (seq 0 100)) = true)
    by (vm_compute; reflexivity).
  rewrite forallb_forall in Hall.
  assert (Hs : starts_with_5 status = true).
  { apply Hall. apply in_map_iff. exists (Z.to_nat (status - 500)). split; [lia|].
    apply in_seq. lia. }
  unfold starts_with_5 in Hs.
  destruct (GoStrings.fmt_d status) as [|c rest]; [discriminate|].
  cbn [GoStrings.HasPrefix] in Hs.
  destruct (Ascii.eqb_spec "5"%char c) as [<-|]; [eauto|discriminate].
Qed.

Lemma status_5xx_retryable api status body :
  500 <= status <= 599 -> isRetryableError (status_error api status body) = true.
Proof.
  intros Hr. destruct (fmt_d_5xx status Hr) as [rest Hd].
  unfold isRetryableError, status_error. rewrite Hd.
  assert (GoStrings.Contains
            (api +:+ " API error (status " +:+ String "5" rest +:+ "): " +:+ body)
            "status 5" = true) as ->.
  { apply Contains_append_l.
    apply (Contains_middle " API error (" "status 5" (rest +:+ "): " +:+ body)). }
  repeat rewrite orb_true_r. reflexivity.
Qed.

Lemma status_429_retryable api body :
  isRetryableError (status_error api 429 body) = true.
Proof.
  unfold isRetryableError.
  assert (GoStrings.Contains (status_error api 429 body) "429" = true) as ->.
  { apply Contains_append_l.
    apply (Contains_middle " API error (status " "429" ("): " +:+ body)). }
  reflexivity.
Qed.

Lemma timeout_retryable api t :
  GoStrings.Contains t "timeout" = true ->
  isRetryableError (transport_error api t) = true.
Proof.
  intros Ht. unfold isRetryableError, transport_error.
  rewrite (Contains_append_l api _ _ (Contains_append_l " API error: " t "timeout" Ht)).
  repeat rewrite orb_true_r. reflexivity.
Qed.

Lemma unmarked_not_retryable e : unmarked e <-> isRetryableError e = false.
Proof.
  unfold unmarked, isRetryableError. rewrite !orb_false_iff. tauto.
Qed.

(** ** The failover loop *)

Section Failover.
Context {E : Env}.

Lemma invoke_calls p name req n r n' :
  invoke p name req n = (r, n') -> calls n' = (name, req) :: calls n.
Proof.
  unfold invoke. destruct (ChatCompletion p req (world n)) as [r0 w'].
  intros [= <- <-]. reflexivity.
Qed.

Lemma with_Model_twice f g (r : ChatRequest.t) :
  ChatRequest.with_Model f (ChatRequest.with_Model g r) = ChatRequest.with_Model f r.
Proof. reflexivity. Qed.

(** A stretch of failed attempts is consumed by the loop; the request it
    carries on with differs from the original one in its model only. *)
Lemma tryFailover_all_fail m om op req before rest n n' :
  all_fail m req before n n' ->
  forall g,
  exists g',
    tryFailover m om op (before ++ rest) (ChatRequest.with_Model g req) n
    = tryFailover m om op rest (ChatRequest.with_Model g' req) n'.
Proof.
  induction 1 as [n | f fs err n n' Hg _ IH | f fs p name e n n1 n' Hg Hi _ IH];
    intros g.
  - exists g. reflexivity.
  - destruct (IH f) as [g' Hg']. exists g'.
    cbn [app tryFailover]. rewrite Hg. exact Hg'.
  - destruct (IH f) as [g' Hg']. exists g'.
    cbn [app tryFailover]. rewrite Hg, with_Model_twice, Hi. exact Hg'.
Qed.

Lemma all_fail_calls m req before n n' :
  all_fail m req before n n' ->
  calls n' = (rev (flat_map (attempt_of m req) before) ++ calls n)%list.
Proof.
  induction 1 as [n | f fs err n n' Hg _ IH | f fs p name e n n1 n' Hg Hi _ IH].
  - reflexivity.
  - cbn [flat_map]. unfold attempt_of at 1. rewrite Hg. exact IH.
  - cbn [flat_map]. unfold attempt_of at 1. rewrite Hg.
    rewrite IH, (invoke_calls _ _ _ _ _ _ Hi).
    cbn [app rev]. rewrite <- app_assoc. reflexivity.
Qed.

Lemma tryFailover_from_original m om op chain req n :
  tryFailover m om op chain req n
  = tryFailover m om op chain (ChatRequest.with_Model (ChatRequest.Model req) req) n.
Proof. destruct req; reflexivity. Qed.

End Failover.

Section Orchestrator.
Context {E : Env}.

Lemma GetFailoverChain_filter m avail chain :
  fold_left
    (fun available fallbackModel =>
       match providers m !! detectProvider fallbackModel with
       | Some _ => (available ++ [fallbackModel])%list
       | None => available
       end) chain avail
  = (avail ++ List.filter (fun f => bool_decide (is_Some (providers m !! detectProvider f)))
                          chain)%list.
Proof.
  revert avail. induction chain as [|f chain IH]; intros avail; cbn [fold_left List.filter].
  - now rewrite app_nil_r.
  - rewrite IH. destruct (providers m !! detectProvider f) as [p|].
    + rewrite bool_decide_eq_true_2 by eauto. now rewrite <- app_assoc.
    + rewrite bool_decide_eq_false_2 by (intros [? [=]]). reflexivity.
Qed.

(** Every model of a filtered chain has its provider registered. *)
Lemma chain_configured m model f :
  In f (GetFailoverChain m model) -> is_Some (providers m !! detectProvider f).
Proof.
  unfold GetFailoverChain. destruct (failover m !! model) as [chain|]; [|intros []].
  rewrite GetFailoverChain_filter. cbn [app]. intros Hin.
  apply filter_In in Hin as [_ Hin]. now apply bool_decide_eq_true in Hin.
Qed.

(** The failover loop, once [isRetryableError] has accepted the primary
    error: when the filtered chain of the requested model is
    [before ++ fb :: after],
    where every attempt on [before] fails and the call of [fb]'s provider
    with the model [fb] substituted succeeds, the manager returns that
    response with [fb]'s provider name and [failoverUsed = true]; the calls
    made are the primary one, then the attempts on [before] in chain order,
    then the one on [fb], each with the fallback model in the request. *)
Lemma failover_returns_first_success
    (m : Manager) (req : ChatRequest.t) (n n1 n2 n3 : Net)
    (p pf : Provider) (name namef : string) (e : error)
    (before after : list string) (fb : string) (resp : ChatResponse.t) :
  GetProvider m (ChatRequest.Model req) = inl (p, name) ->
  invoke p name req n = (inr e, n1) ->
  isRetryableError e = true ->
  GetFailoverChain m (ChatRequest.Model req) = (before ++ fb :: after)%list ->
  all_fail m req before n1 n2 ->
  GetProvider m fb = inl (pf, namef) ->
  invoke pf namef (ChatRequest.with_Model fb req) n2 = (inl resp, n3) ->
  ManagerChatCompletion m req n = ((Some resp, namef, true, None), n3) /\
  namef = detectProvider fb /\
  calls n3 = ((namef, ChatRequest.with_Model fb req)
                :: rev (flat_map (attempt_of m req) before)
                ++ (name, req) :: calls n)%list.
Proof.
  intros Hp Hi Hr Hc Hf Hpf Hif. split; [|split].
  - unfold ManagerChatCompletion. rewrite Hp, Hi, Hr, Hc. cbn [negb].
    rewrite tryFailover_from_original.
    destruct (tryFailover_all_fail m (ChatRequest.Model req)
                (detectProvider (ChatRequest.Model req)) req before (fb :: after)
                n1 n2 Hf (ChatRequest.Model req)) as [g' ->].
    cbn [tryFailover]. rewrite Hpf, with_Model_twice, Hif. reflexivity.
  - unfold GetProvider in Hpf.
    destruct (String.eqb (detectProvider fb) ""); [discriminate|].
    destruct (providers m !! detectProvider fb); [|discriminate].
    now injection Hpf as _ <-.
  - rewrite (invoke_calls _ _ _ _ _ _ Hif), (all_fail_calls _ _ _ _ _ Hf),
      (invoke_calls _ _ _ _ _ _ Hi). reflexivity.
Qed.

(** A primary error that [isRetryableError] turns down is returned at once,
    with [failoverUsed = false]; the primary call is the only provider call
    made. *)
Lemma permanent_error_returned_immediately
    (m : Manager) (req : ChatRequest.t) (n n1 : Net)
    (p : Provider) (name : string) (e : error) :
  GetProvider m (ChatRequest.Model req) = inl (p, name) ->
  invoke p name req n = (inr e, n1) ->
  isRetryableError e = false ->
  ManagerChatCompletion m req n = ((None, name, false, Some e), n1) /\
  calls (snd (ManagerChatCompletion m req n)) = (name, req) :: calls n.
Proof.
  intros Hp Hi Hr.
  assert (H : ManagerChatCompletion m req n = ((None, name, false, Some e), n1)).
  { unfold ManagerChatCompletion. now rewrite Hp, Hi, Hr. }
  split; [exact H|]. rewrite H. cbn [snd]. exact (invoke_calls _ _ _ _ _ _ Hi).
Qed.

(** Property X9. When every attempt on the chain fails, the manager reports the
    exhaustion under the provider of the model first asked for. *)
Lemma failover_exhausted
    (m : Manager) (req : ChatRequest.t) (n n1 n2 : Net)
    (p : Provider) (name : string) (e : error) :
  GetProvider m (ChatRequest.Model req) = inl (p, name) ->
  invoke p name req n = (inr e, n1) ->
  isRetryableError e = true ->
  all_fail m req (GetFailoverChain m (ChatRequest.Model req)) n1 n2 ->
  ManagerChatCompletion m req n
  = ((None, detectProvider (ChatRequest.Model req), false,
      Some ("all providers failed for model " +:+ ChatRequest.Model req)), n2).
Proof.
  intros Hp Hi Hr Hf. unfold ManagerChatCompletion. rewrite Hp, Hi, Hr. cbn [negb].
  rewrite tryFailover_from_original.
  destruct (tryFailover_all_fail m (ChatRequest.Model req)
              (detectProvider (ChatRequest.Model req)) req _ [] n1 n2 Hf
              (ChatRequest.Model req)) as [g' Hg'].
  rewrite app_nil_r in Hg'. rewrite Hg'. reflexivity.
Qed.

(** In a manager built by [NewManager] every model of a filtered chain
    resolves to its provider, so the loop skips none. *)
Lemma NewManager_chain_resolves cfg a b c model f :
  In f (GetFailoverChain (NewManager cfg a b c) model) ->
  exists p, GetProvider (NewManager cfg a b c) f = inl (p, detectProvider f).
Proof.
  intros Hin. apply chain_configured in Hin as [p Hp].
  exists p. unfold GetProvider. rewrite Hp.
  destruct (String.eqb_spec (detectProvider f) "") as [He|]; [|reflexivity].
  exfalso. rewrite He in Hp. unfold NewManager in Hp. cbn [providers] in Hp.
  destruct (negb (OpenAIAPIKey cfg =? "")%string),
           (negb (AnthropicAPIKey cfg =? "")%string),
           (negb (GeminiAPIKey cfg =? "")%string);
    repeat (rewrite lookup_insert_ne in Hp by discriminate);
    rewrite lookup_empty in Hp; discriminate.
Qed.

End Orchestrator.


(** ** Anthropic request translation *)

Section Anthropic.
Context {E : Env}.

Lemma convertRequest_loop ms acc sp :
  fold_left convertRequest_step ms (acc, sp)
  = ((acc ++ List.map to_anthropic (List.filter (fun m => negb (is_system m)) ms))%list,
     match last (List.filter is_system ms) with
     | Some m => openai.Content m
     | None => sp
     end).
Proof.
  revert acc sp. induction ms as [|m ms IH]; intros acc sp; cbn [fold_left List.filter].
  - now rewrite app_nil_r.
  - unfold convertRequest_step at 2.
    change (String.eqb (openai.Role m) "system") with (is_system m).
    destruct (is_system m); cbn [negb fst snd]; rewrite IH.
    + rewrite last_cons. now destruct (last (List.filter is_system ms)).
    + cbn [List.map]. now rewrite <- app_assoc.
Qed.

Lemma wire_request_fields req :
  AnthropicRequest.Messages (wire_request req)
  = List.map to_anthropic
      (List.filter (fun m => negb (is_system m)) (ChatRequest.Messages req)) /\
  AnthropicRequest.System (wire_request req)
  = last_system_content (ChatRequest.Messages req).
Proof.
  unfold wire_request, convertRequest, last_system_content.
  set (base := match deref (ChatRequest.MaxTokens req) with
               | Some n => _ | None => _ end).
  assert (Hm : AnthropicRequest.Messages base = []).
  { subst base. destruct (deref (ChatRequest.MaxTokens req)) as [k|]; [|reflexivity].
    now destruct (0 <? k). }
  assert (Hs : AnthropicRequest.System base = "").
  { subst base. destruct (deref (ChatRequest.MaxTokens req)) as [k|]; [|reflexivity].
    now destruct (0 <? k). }
  rewrite Hm, convertRequest_loop. cbn [app].
  destruct (last (List.filter is_system (ChatRequest.Messages req))) as [m|].
  - destruct (String.eqb_spec (openai.Content m) "") as [Hc|Hc]; cbn [negb].
    + cbn. now rewrite Hs, Hc.
    + now cbn.
  - cbn. now rewrite Hs.
Qed.

Lemma wire_request_model req :
  AnthropicRequest.Model (wire_request req) = ChatRequest.Model req.
Proof.
  unfold wire_request, convertRequest.
  destruct (fold_left _ _ _) as [msgs systemPrompt].
  destruct (negb _); cbn;
    destruct (deref (ChatRequest.MaxTokens req)) as [k|]; try reflexivity;
    now destruct (0 <? k).
Qed.

(** Claim C8. The request sent to the Messages API: no message of role
    [system] remains in the message list, which is the list of the other
    messages in their order; the top-level system field holds the content
    of the last system message (empty when there is none). *)
Theorem anthropic_system_prompt_extracted (req : ChatRequest.t) :
  AnthropicRequest.Messages (wire_request req)
  = List.map to_anthropic
      (List.filter (fun m => negb (is_system m)) (ChatRequest.Messages req)) /\
  Forall (fun m => AnthropicMessage.Role m <> "system")
         (AnthropicRequest.Messages (wire_request req)) /\
  AnthropicRequest.System (wire_request req)
  = last_system_content (ChatRequest.Messages req).
Proof.
  destruct (wire_request_fields req) as [Hm Hs]. repeat split; [exact Hm| |exact Hs].
  rewrite Hm. apply List.Forall_forall. intros am Hin.
  apply in_map_iff in Hin as [m [<- Hin]]. apply filter_In in Hin as [_ Hin].
  unfold is_system in Hin. cbn.
  destruct (String.eqb_spec (openai.Role m) "system"); [discriminate|assumption].
Qed.

End Anthropic.

(** ** The chat handler *)

Section Handler.
Context {E : Env}.
Import handlers.

Lemma store_time_Now s : store (snd (time_Now s)) = store s.
Proof. unfold time_Now. now destruct (clock (world (net s))). Qed.

Lemma db_time_Now s : db (snd (time_Now s)) = db s.
Proof. unfold time_Now. now destruct (clock (world (net s))). Qed.

Lemma store_time_Since t s : store (snd (time_Since t s)) = store s.
Proof.
  unfold time_Since. pose proof (store_time_Now s) as H.
  destruct (time_Now s). exact H.
Qed.

Lemma db_time_Since t s : db (snd (time_Since t s)) = db s.
Proof.
  unfold time_Since. pose proof (db_time_Now s) as H.
  destruct (time_Now s). exact H.
Qed.

Lemma store_handleStreamingChat h w apiKey req s :
  store (snd (handleStreamingChat h w apiKey req s)) = store s.
Proof.
  unfold handleStreamingChat.
  pose proof (store_time_Now s) as H0. destruct (time_Now s) as [startTime s0].
  cbn [snd] in H0.
  destruct (negb _); [exact H0|].
  destruct (GetProvider _ _) as [[provider providerName]|err]; [|exact H0].
  destruct (ChatCompletionStream _ _ _) as [[stream|err] wd]; [|exact H0].
  destruct (streamChunks _ _ _) as [totalTokens w'].
  destruct (ending stream); [exact H0|].
  destruct (calculateCost _ _ _ _) as [cost cerr].
  pose proof (store_time_Since startTime (with_world wd s0)) as H1.
  destruct (time_Since _ _) as [d s1]. cbn [snd] in *.
  cbn. rewrite H1. exact H0.
Qed.

(** Claim C3. A request that asks for streaming leaves the shared store as it
    was: its data is unchanged and the server has received no command, so
    the cache was neither read nor written, whatever the caller's
    [CacheEnabled] says. *)
Theorem streaming_request_skips_cache
    (h : ChatHandler) (w : ResponseWriter) (r : Request) (s : Sys)
    (req : ChatRequest.t) :
  request_decode (Body r) = Some req ->
  ChatRequest.Stream req = true ->
  store (snd (HandleChatCompletion h w r s)) = store s.
Proof.
  intros Hd Hs. unfold HandleChatCompletion.
  pose proof (store_time_Now s) as H0. destruct (time_Now s) as [startTime s0].
  cbn [snd] in H0.
  destruct (ctx_api_key r) as [apiKey|]; [|exact H0].
  unfold Decode. rewrite Hd. cbn [ChatRequest.Stream]. rewrite Hs.
  rewrite store_handleStreamingChat. exact H0.
Qed.

(** The cost of a usage without prompt and completion tokens. *)
Lemma zero_times_price p :
  F64.is_finite p = true ->
  exists sgn, F64.mul (F64.div (F64.of_int 0) F64.thousand) p = S754_zero sgn.
Proof.
  destruct p as [sgn| | |sgn m e]; try discriminate; intros _; eexists; reflexivity.
Qed.

Lemma calculateCost_no_tokens s provider model total :
  finite_prices (db s) ->
  F64.eqb (fst (calculateCost s provider model
                  {| openai.PromptTokens := 0; openai.CompletionTokens := 0;
                     openai.TotalTokens := total |})) F64.zero = true.
Proof.
  intros Hf. unfold calculateCost, database.GetModelPricing.
  destruct (database.broken (db s)); [reflexivity|].
  destruct (database.pricing (db s) !! (provider, model)) as [p|] eqn:Hp; [|reflexivity].
  destruct (Hf _ _ Hp) as [Hi Ho]. cbn [fst openai.PromptTokens openai.CompletionTokens].
  destruct (zero_times_price _ Hi) as [si ->], (zero_times_price _ Ho) as [so ->].
  now destruct si, so.
Qed.

(** Whatever a streamed request hands to the log has no prompt and no
    completion tokens, and a cost that compares equal to zero, for any
    pricing table whose prices are numbers. *)
Lemma streamed_record_or_none
    (h : ChatHandler) (w : ResponseWriter) (apiKey : models.APIKey)
    (req : ChatRequest.t) (s : Sys) :
  finite_prices (db s) ->
  let s' := snd (handleStreamingChat h w apiKey req s) in
  database.logs (db s') = database.logs (db s) \/
  exists log,
    database.logs (db s') = log :: database.logs (db s) /\
    models.PromptTokens log = 0 /\
    models.CompletionTokens log = 0 /\
    F64.eqb (models.CostUSD log) F64.zero = true.
Proof.
  intros Hf. unfold handleStreamingChat.
  pose proof (db_time_Now s) as H0. destruct (time_Now s) as [startTime s0].
  cbn [snd] in H0.
  destruct (negb _); [left; cbn; now rewrite H0|].
  destruct (GetProvider _ _) as [[provider providerName]|err]; [|left; cbn; now rewrite H0].
  destruct (ChatCompletionStream _ _ _) as [[stream|err] wd]; [|left; cbn; now rewrite H0].
  destruct (streamChunks _ _ _) as [totalTokens w'].
  destruct (ending stream); [left; cbn; now rewrite H0|].
  right.
  pose proof (calculateCost_no_tokens (with_world wd s0) providerName
                (ChatRequest.Model req) totalTokens) as Hc.
  destruct (calculateCost _ _ _ _) as [cost cerr].
  pose proof (db_time_Since startTime (with_world wd s0)) as H1.
  destruct (time_Since _ _) as [d s1]. cbn [snd] in *.
  eexists. cbn. rewrite H1. cbn. rewrite H0. repeat split.
  apply Hc. cbn. now rewrite H0.
Qed.

(** Claim C9. When the rate-limit check comes back with an error, the
    middleware hands the request to the next handler with the response
    writer as it received it: it sets no header and writes no status. *)
Theorem rate_limit_fails_open
    (next : Handler) (w : ResponseWriter) (r : Request) (s : Sys)
    (apiKey : models.APIKey) (exceeded : bool) (remaining : Z) (e : error)
    (st : redis.Server) :
  ctx_api_key r = Some apiKey ->
  redis.run (redis.CheckRateLimit (models.ID apiKey) (effective_limit apiKey)) (store s)
  = ((exceeded, remaining, Some e), st) ->
  RateLimitMiddleware next w r s = next w r (with_store st s).
Proof.
  intros Hk Hc. unfold RateLimitMiddleware. rewrite Hk.
  unfold effective_limit in Hc. rewrite Hc. reflexivity.
Qed.

End Handler.

(** ** The rate limiter *)

Section RateLimiter.
Import redis.
Variable id : string.
Variable L : Z.
Hypothesis HL : 0 < L <= max_int64.

Lemma wrap64_small z : - 2 ^ 63 <= z < 2 ^ 63 -> wrap64 z = z.
Proof. intros H. unfold wrap64. rewrite Z.mod_small; lia. Qed.

Lemma step_healthy c s :
  faults s = [] ->
  step c s = (fst (exec c s),
              {| data := snd (exec c s); clock := clock s; faults := [];
                 received := c :: received s |}).
Proof. intros H. unfold step. rewrite H. now destruct (exec c s). Qed.

Lemma window_lookup s c t :
  window id s c t -> lookup s (rate_key id) = Some (Entry (RInt c) (Some t)).
Proof.
  intros (_ & Hd & Ht). unfold lookup, live. rewrite Hd. cbn.
  now rewrite (proj2 (Z.ltb_lt _ _) Ht).
Qed.

Lemma check_first s :
  faults s = [] -> lookup s (rate_key id) = None ->
  run (CheckRateLimit id L) s
  = ((false, L - 1, None),
     {| data := <[rate_key id := Entry (RInt 1) (Some (clock s + minute))]> (data s);
        clock := clock s; faults := [];
        received := SET (rate_key id) (RInt 1) minute :: GET (rate_key id) :: received s |}).
Proof.
  intros Hf Hl.
  unfold CheckRateLimit. fold (rate_key id). cbn [run].
  rewrite (step_healthy _ _ Hf). cbn [exec fst snd]. rewrite Hl. cbn [fst snd run].
  rewrite step_healthy by reflexivity. cbn [exec fst snd data clock received].
  rewrite wrap64_small by (unfold max_int64 in HL; lia). reflexivity.
Qed.

Lemma check_below s c t :
  window id s c t -> 1 <= c < L ->
  run (CheckRateLimit id L) s
  = ((false, L - (c + 1), None),
     {| data := <[rate_key id := Entry (RInt (c + 1)) (Some t)]> (data s);
        clock := clock s; faults := [];
        received := INCR (rate_key id) :: GET (rate_key id) :: received s |}).
Proof.
  intros Hw Hc. pose proof (window_lookup _ _ _ Hw) as Hl.
  destruct Hw as (Hf & Hd & Ht).
  unfold CheckRateLimit. fold (rate_key id). cbn [run].
  rewrite (step_healthy _ _ Hf). cbn [exec fst snd]. rewrite Hl. cbn [fst snd val].
  rewrite (proj2 (Z.leb_gt L c)) by lia. cbn [run].
  rewrite step_healthy by reflexivity. cbn [exec fst snd].
  change (lookup {| data := data s; clock := clock s; faults := [];
                    received := GET (rate_key id) :: received s |} (rate_key id))
    with (lookup s (rate_key id)).
  rewrite Hl, (proj2 (Z.ltb_lt c max_int64)) by lia. cbn [fst snd data received].
  rewrite (proj2 (Z.eqb_neq (c + 1) 1)) by lia.
  rewrite wrap64_small by (unfold max_int64 in HL; lia).
  rewrite (proj2 (Z.ltb_ge _ _)) by lia. cbn [run]. reflexivity.
Qed.

Lemma check_at_limit s c t :
  window id s c t -> L <= c ->
  run (CheckRateLimit id L) s
  = ((true, 0, None),
     {| data := data s; clock := clock s; faults := [];
        received := GET (rate_key id) :: received s |}).
Proof.
  intros Hw Hc. pose proof (window_lookup _ _ _ Hw) as Hl.
  destruct Hw as (Hf & Hd & Ht).
  unfold CheckRateLimit. fold (rate_key id). cbn [run].
  rewrite (step_healthy _ _ Hf). cbn [exec fst snd]. rewrite Hl. cbn [fst snd val].
  rewrite (proj2 (Z.leb_le L c)) by lia. reflexivity.
Qed.

Lemma window_elapse s c t dt :
  window id s c t -> clock s + dt < t -> window id (elapse dt s) c t.
Proof. intros (Hf & Hd & _) Ht. repeat split; assumption. Qed.

(** Checks inside the window, from counter [c] on. *)
Lemma checks_in_window gaps : forall s c t,
  window id s c t -> 1 <= c -> c + Z.of_nat (length gaps) <= L ->
  Forall (fun dt => 0 <= dt) gaps ->
  clock s + sumZ gaps < t ->
  fst (checks id L gaps s) = accepted_from L c (length gaps) /\
  window id (snd (checks id L gaps s)) (c + Z.of_nat (length gaps)) t /\
  clock (snd (checks id L gaps s)) = clock s + sumZ gaps.
Proof.
  induction gaps as [|dt gaps IH]; intros s c t Hw Hc Hlen Hpos Hsum.
  - cbn. rewrite !Z.add_0_r. auto.
  - cbn [length] in Hlen. rewrite Nat2Z.inj_succ in Hlen.
    inversion Hpos as [|? ? Hdt Hpos']; subst.
    cbn [sumZ fold_right] in Hsum. fold (sumZ gaps) in Hsum.
    assert (0 <= sumZ gaps) as Hs0.
    { clear -Hpos'. induction Hpos'; cbn; [lia|]. fold (sumZ l). lia. }
    cbn [checks]. rewrite (check_below s c t Hw) by lia.
    set (s1 := {| data := _ |}).
    assert (Hw1 : window id (elapse dt s1) (c + 1) t).
    { destruct Hw as (_ & _ & Ht). repeat split; cbn [elapse data clock faults s1].
      - apply lookup_insert_eq.
      - lia. }
    destruct (IH (elapse dt s1) (c + 1) t Hw1) as (Hr & Hw2 & Hc2);
      [lia | lia | exact Hpos' | cbn [elapse clock s1]; lia |].
    destruct (checks id L gaps (elapse dt s1)) as [rs s2]. cbn [fst snd] in *.
    split; [|split].
    + cbn [length accepted_from]. now rewrite Hr.
    + cbn [length]. rewrite Nat2Z.inj_succ.
      replace (c + Z.succ (Z.of_nat (length gaps))) with (c + 1 + Z.of_nat (length gaps)) by lia.
      exact Hw2.
    + rewrite Hc2. cbn [elapse clock s1 sumZ fold_right]. fold (sumZ gaps). lia.
Qed.

End RateLimiter.

Section RateLimitClaim.
Context {E : Env}.
Import redis handlers.

Lemma sumZ_nonneg gaps : Forall (fun dt => 0 <= dt) gaps -> 0 <= sumZ gaps.
Proof. induction 1 as [|dt l Hdt _ IH]; cbn; [lia|]. fold (sumZ l). lia. Qed.

(** Claim C6. A caller with limit [L] whose counter is absent makes [L + 1]
    checks, the last one before the window of the first has ended: the
    first [L] are accepted with [L - 1], ..., [0] requests remaining, and
    check [L + 1] reports the limit as exceeded; the middleware answers it
    with status 429 and [Retry-After: 60] without calling the next
    handler.  Once the window has ended the counter is absent, and the
    next check is accepted again. *)
Theorem rate_limit_window
    (apiKey : models.APIKey) (gaps : list Z) (s : Server) :
  let id := models.ID apiKey in
  let L := models.RateLimitPerMinute apiKey in
  0 < L <= max_int64 ->
  faults s = [] ->
  lookup s (rate_key id) = None ->
  length gaps = Z.to_nat L ->
  Forall (fun dt => 0 <= dt) gaps ->
  sumZ gaps < minute ->
  let sL := snd (checks id L gaps s) in
  let sL' := snd (run (CheckRateLimit id L) sL) in
  fst (checks id L gaps s) = accepted_from L 0 (Z.to_nat L) /\
  fst (run (CheckRateLimit id L) sL) = (true, 0, None) /\
  (forall (next : Handler) w r sys,
     ctx_api_key r = Some apiKey -> store sys = sL ->
     RateLimitMiddleware next w r sys
     = (http_Error
          (HeaderSet "Retry-After" "60"
             (HeaderSet "X-RateLimit-Remaining" "0"
                (HeaderSet "X-RateLimit-Limit" (GoStrings.fmt_d L) w)))
          "rate limit exceeded" StatusTooManyRequests,
        with_store sL' sys) /\
     Header (fst (RateLimitMiddleware next w r sys)) !! "Retry-After" = Some "60" /\
     (status w = None ->
      status (fst (RateLimitMiddleware next w r sys)) = Some 429)) /\
  (forall dt, clock s + minute <= clock sL' + dt ->
     lookup (elapse dt sL') (rate_key id) = None /\
     fst (run (CheckRateLimit id L) (elapse dt sL')) = (false, L - 1, None)).
Proof.
  intros id L HL Hf Hl Hlen Hpos Hsum.
  destruct gaps as [|g1 gaps]; [cbn in Hlen; lia|].
  inversion Hpos as [|? ? Hg1 Hpos']; subst.
  pose proof (sumZ_nonneg _ Hpos') as Hs0.
  cbn [sumZ fold_right] in Hsum. fold (sumZ gaps) in Hsum.
  cbn [length] in Hlen.
  cbn [checks]. rewrite (check_first id L HL s Hf Hl).
  set (s1 := {| data := _ |}).
  assert (Hw1 : window id (elapse g1 s1) 1 (clock s + minute)).
  { repeat split; cbn [elapse data clock faults s1].
    - apply lookup_insert_eq.
    - lia. }
  destruct (checks_in_window id L HL gaps (elapse g1 s1) 1 (clock s + minute) Hw1)
    as (Hr & Hw & Hc); [lia | lia | exact Hpos' | cbn [elapse clock s1]; lia |].
  destruct (checks id L gaps (elapse g1 s1)) as [rs sL]. cbn [fst snd] in *.
  replace (1 + Z.of_nat (length gaps)) with L in Hw by lia.
  pose proof (check_at_limit id L sL L _ Hw ltac:(lia)) as Hlast.
  rewrite Hlast. cbn [fst snd].
  split; [|split; [|split]].
  - rewrite <- Hlen. cbn [accepted_from]. rewrite Hr.
    now replace (L - (0 + 1)) with (L - 1) by lia.
  - reflexivity.
  - intros next w r sys Hk Hst.
    assert (Hm : RateLimitMiddleware next w r sys
                 = (http_Error
                      (HeaderSet "Retry-After" "60"
                         (HeaderSet "X-RateLimit-Remaining" "0"
                            (HeaderSet "X-RateLimit-Limit" (GoStrings.fmt_d L) w)))
                      "rate limit exceeded" StatusTooManyRequests,
                    with_store
                      {| data := data sL; clock := clock sL; faults := [];
                         received := GET (rate_key id) :: received sL |} sys)).
    { unfold RateLimitMiddleware. rewrite Hk. fold id L.
      rewrite (proj2 (Z.leb_gt L 0)) by lia. rewrite Hst, Hlast. reflexivity. }
    rewrite Hm. cbn [fst]. split; [reflexivity|split].
    + unfold http_Error, Fprintf, WriteHeader, HeaderSet. cbn [Header].
      rewrite !lookup_insert_ne by discriminate. apply lookup_insert_eq.
    + intros Hs. unfold http_Error, Fprintf, WriteHeader, HeaderSet. cbn [status].
      rewrite Hs. reflexivity.
  - intros dt Hdt. cbn [clock] in Hdt.
    destruct Hw as (Hfl & Hd & Ht).
    assert (Hgone : lookup (elapse dt
               {| data := data sL; clock := clock sL; faults := [];
                  received := GET (rate_key id) :: received sL |}) (rate_key id) = None).
    { unfold lookup, live. cbn [elapse data clock]. rewrite Hd. cbn [expire_at].
      now rewrite (proj2 (Z.ltb_ge _ _)) by lia. }
    split; [exact Hgone|].
    erewrite check_first; [reflexivity | exact HL | reflexivity | exact Hgone].
Qed.

End RateLimitClaim.

(** ** The cache fingerprint *)

Lemma generateCacheKey_length (req : ChatRequest.t) :
  String.length (cache.generateCacheKey req) = 76%nat.
Proof. reflexivity. Qed.

(** The key is a function of the model, the messages and the addresses held
    in the three optional fields: what the addresses point to plays no part. *)
Lemma generateCacheKey_by_address (r1 r2 : ChatRequest.t) :
  ChatRequest.Model r1 = ChatRequest.Model r2 ->
  ChatRequest.Messages r1 = ChatRequest.Messages r2 ->
  ref_addr <$> ChatRequest.Temperature r1 = ref_addr <$> ChatRequest.Temperature r2 ->
  ref_addr <$> ChatRequest.MaxTokens r1 = ref_addr <$> ChatRequest.MaxTokens r2 ->
  ref_addr <$> ChatRequest.TopP r1 = ref_addr <$> ChatRequest.TopP r2 ->
  cache.generateCacheKey r1 = cache.generateCacheKey r2.
Proof.
  intros Hm Hs Ht Hk Hp. unfold cache.generateCacheKey, cache.keyData.
  rewrite Hm, Hs.
  assert (Hptr : forall A (p q : option (ref A)),
             ref_addr <$> p = ref_addr <$> q -> cache.fmt_pointer p = cache.fmt_pointer q).
  { intros A [p|] [q|] H; try discriminate; [|reflexivity].
    injection H as H. unfold cache.fmt_pointer. now rewrite H. }
  now rewrite (Hptr _ _ _ Ht), (Hptr _ _ _ Hk), (Hptr _ _ _ Hp).
Qed.

(** Without optional fields, equal values give equal keys. *)
Lemma generateCacheKey_without_optionals (r1 r2 : ChatRequest.t) :
  same_fields r1 r2 ->
  ChatRequest.Temperature r1 = None -> ChatRequest.MaxTokens r1 = None ->
  ChatRequest.TopP r1 = None ->
  cache.generateCacheKey r1 = cache.generateCacheKey r2.
Proof.
  intros (Hm & Hs & Ht & Hk & Hp) Ht1 Hk1 Hp1.
  apply generateCacheKey_by_address; try assumption.
  - rewrite Ht1 in *. now destruct (ChatRequest.Temperature r2).
  - rewrite Hk1 in *. now destruct (ChatRequest.MaxTokens r2).
  - rewrite Hp1 in *. now destruct (ChatRequest.TopP r2).
Qed.

(** Claim C1. The same request decoded twice, with the temperature 0.5 stored
    at two addresses: the five fingerprinted fields have equal values, and
    the two cache keys differ, since [%v] prints the address of a
    [*float32], not the number. *)
Theorem cache_key_depends_on_pointer_identity :
  same_fields Sample.reqA Sample.reqB /\
  cache.keyData Sample.reqA = "gpt-4o-mini:[{user 2+2?}]:0xc000012340:<nil>:<nil>" /\
  cache.keyData Sample.reqB = "gpt-4o-mini:[{user 2+2?}]:0xc000012348:<nil>:<nil>" /\
  cache.generateCacheKey Sample.reqA
  = "cache:exact:01a672f2743c3b5cd159702905a9dcf8349e561ba04850291d4dc37452bb1f60" /\
  cache.generateCacheKey Sample.reqB
  = "cache:exact:765b2707443ca8df084e7eaf321d31262b3f1eac4ca96d585b8f8ad09dc370be" /\
  cache.generateCacheKey Sample.reqA <> cache.generateCacheKey Sample.reqB.
Proof.
  assert (HA : cache.generateCacheKey Sample.reqA
    = "cache:exact:01a672f2743c3b5cd159702905a9dcf8349e561ba04850291d4dc37452bb1f60")
    by (vm_compute; reflexivity).
  assert (HB : cache.generateCacheKey Sample.reqB
    = "cache:exact:765b2707443ca8df084e7eaf321d31262b3f1eac4ca96d585b8f8ad09dc370be")
    by (vm_compute; reflexivity).
  repeat split; try reflexivity; try assumption.
  rewrite HA, HB. discriminate.
Qed.

(** ** Closed instances *)

(** Claim C2. The retry decision does not follow the class of the error: it
    is a search for four pieces of text in the error message, of which the
    raw upstream body is a part.  Two answers of the same class (status 400,
    an invalid request) are decided differently, the one whose body
    contains the digits 429 being taken for retryable; a refused connection
    and the expiry of the client's own timeout, both of the class of
    timeouts and connection failures, are not taken for retryable. *)
Theorem retry_decision_ignores_error_class :
  (classify Sample.bad_request = OtherError /\
   classify Sample2.plain_bad_request = OtherError /\
   isRetryableError (provider_error "Anthropic" Sample.bad_request) = true /\
   isRetryableError (provider_error "Anthropic" Sample2.plain_bad_request) = false) /\
  (classify Sample2.refused = TimeoutOrConnection /\
   retryable_class (classify Sample2.refused) = true /\
   isRetryableError (provider_error "Anthropic" Sample2.refused) = false) /\
  (classify Sample2.client_timeout = TimeoutOrConnection /\
   retryable_class (classify Sample2.client_timeout) = true /\
   isRetryableError (provider_error "Anthropic" Sample2.client_timeout) = false).
Proof. repeat split; vm_compute; reflexivity. Qed.

(** Claim C5. A permanent error that is not returned at once: Anthropic
    turns the request down as invalid (status 400), the text of the answer
    contains the digits 429, and the manager goes on to the fallback chain;
    the caller gets the answer of OpenAI with [failoverUsed = true], after
    two provider calls. *)
Theorem permanent_error_triggers_failover :
  retryable_class (classify Sample.bad_request) = false /\
  exists n,
    @ManagerChatCompletion Sample.env Sample.scripted_manager Sample.haiku
      (Sample.net0 [Sample.bad_request])
    = ((Some (Sample.answer "gpt-4o-mini" "4"), "openai", true, None), n) /\
    calls n = [ ("openai", ChatRequest.with_Model "gpt-4o-mini" Sample.haiku);
                ("anthropic", Sample.haiku) ].
Proof.
  split; [reflexivity|]. eexists. split; vm_compute; reflexivity.
Qed.

(** Claim C4. A retryable error after which no fallback is tried: the
    connection to Anthropic is refused, the chain of the requested model has
    two models whose providers are configured and would answer, and the
    manager returns the error of the primary call with
    [failoverUsed = false], having called Anthropic only. *)
Theorem connection_failure_skips_failover :
  retryable_class (classify Sample2.refused) = true /\
  @GetFailoverChain Sample.env Sample.scripted_manager "claude-haiku-4-5-20251001"
  = ["gpt-4o-mini"; "gemini-2.5-flash"] /\
  (exists n,
     @ManagerChatCompletion Sample.env Sample.scripted_manager Sample.haiku
       (Sample.net0 [Sample2.refused])
     = ((None, "anthropic", false,
         Some (provider_error "Anthropic" Sample2.refused)), n) /\
     calls n = [ ("anthropic", Sample.haiku) ] /\
     fst (invoke (Sample.answering "openai") "openai"
            (ChatRequest.with_Model "gpt-4o-mini" Sample.haiku) n)
     = inl (Sample.answer "gpt-4o-mini" "4")).
Proof.
  split; [reflexivity|]. split; [vm_compute; reflexivity|].
  eexists. split; [vm_compute; reflexivity|]. split; vm_compute; reflexivity.
Qed.

(** The loop on the sample network: Anthropic is overloaded, OpenAI is
    down, Gemini answers. *)
Example failover_sample_run :
  exists resp n3,
    @ManagerChatCompletion Sample.env Sample.manager Sample.haiku
      (Sample.net0 [HttpResponse 529 "overloaded"])
    = ((Some resp, "google", true, None), n3) /\
    ChatResponse.Model resp = "gemini-2.5-flash" /\
    List.map fst (calls n3) = ["google"; "openai"; "anthropic"].
Proof.
  pose (n1 := {| world := {| Sample.tick := 1; Sample.script := [] |} : @World Sample.env;
                 calls := [("anthropic", Sample.haiku)] |}).
  pose (n2 := {| world := {| Sample.tick := 1; Sample.script := [] |} : @World Sample.env;
                 calls := [("openai", ChatRequest.with_Model "gpt-4o-mini" Sample.haiku);
                           ("anthropic", Sample.haiku)] |}).
  pose (n3 := {| world := {| Sample.tick := 1; Sample.script := [] |} : @World Sample.env;
                 calls := [("google", ChatRequest.with_Model "gemini-2.5-flash" Sample.haiku);
                           ("openai", ChatRequest.with_Model "gpt-4o-mini" Sample.haiku);
                           ("anthropic", Sample.haiku)] |}).
  destruct (@failover_returns_first_success Sample.env Sample.manager Sample.haiku
              (Sample.net0 [HttpResponse 529 "overloaded"]) n1 n2 n3
              Sample.anthropic (Sample.answering "google") "anthropic" "google"
              "Anthropic API error (status 529): overloaded"
              ["gpt-4o-mini"] [] "gemini-2.5-flash"
              (Sample.answer "gemini-2.5-flash" "4"))
    as (H & _ & Hc).
  - vm_compute; reflexivity.
  - vm_compute; reflexivity.
  - vm_compute; reflexivity.
  - vm_compute; reflexivity.
  - eapply all_fail_call with (n1 := n2);
      [vm_compute; reflexivity | vm_compute; reflexivity | apply all_fail_nil].
  - vm_compute; reflexivity.
  - vm_compute; reflexivity.
  - exists (Sample.answer "gemini-2.5-flash" "4"), n3.
    split; [exact H|]. split; reflexivity.
Qed.

Example authentication_failure_sample_run :
  @ManagerChatCompletion Sample.env Sample.manager Sample.haiku
    (Sample.net0 [HttpResponse 401 "invalid x-api-key"])
  = ((None, "anthropic", false,
      Some "Anthropic API error (status 401): invalid x-api-key"),
     {| world := {| Sample.tick := 1; Sample.script := [] |} : @World Sample.env;
        calls := [("anthropic", Sample.haiku)] |}).
Proof.
  apply (@permanent_error_returned_immediately Sample.env Sample.manager Sample.haiku
           (Sample.net0 [HttpResponse 401 "invalid x-api-key"]) _
           Sample.anthropic "anthropic").
  - vm_compute; reflexivity.
  - vm_compute; reflexivity.
  - vm_compute; reflexivity.
Qed.

Lemma streaming_request_skips_cache_witness :
  handlers.store
    (snd (@handlers.HandleChatCompletion Sample.env
            {| handlers.providerMgr := Sample.healthy_manager |} Sample.writer
            {| handlers.ctx_api_key := Some (Sample.key 60 true);
               handlers.Body := "stream"; handlers.alloc := Sample.cells |}
            Sample.sys0))
  = Sample.server0.
Proof.
  apply (@streaming_request_skips_cache Sample.env _ _ _ Sample.sys0
           (Sample.request "claude-haiku-4-5-20251001" None true)).
  - reflexivity.
  - reflexivity.
Defined.

(** The same caller without streaming: the cache is read, and written
    after the provider has answered. *)
Example plain_request_uses_cache :
  List.length
    (redis.received
       (handlers.store
          (snd (@handlers.HandleChatCompletion Sample.env
                  {| handlers.providerMgr := Sample.healthy_manager |} Sample.writer
                  {| handlers.ctx_api_key := Some (Sample.key 60 true);
                     handlers.Body := "plain"; handlers.alloc := Sample.cells |}
                  Sample.sys0)))) = 2%nat.
Proof. vm_compute. reflexivity. Qed.

Lemma rate_limit_window_witness :
  fst (checks "key-1" 2 [10; 10] Sample.server0) = [(false, 1, None); (false, 0, None)] /\
  fst (redis.run (redis.CheckRateLimit "key-1" 2)
         (snd (checks "key-1" 2 [10; 10] Sample.server0))) = (true, 0, None).
Proof.
  destruct (@rate_limit_window Sample.env (Sample.key 2 true) [10; 10] Sample.server0)
    as (H1 & H2 & _).
  - cbn. unfold redis.max_int64. lia.
  - reflexivity.
  - reflexivity.
  - reflexivity.
  - repeat constructor; lia.
  - vm_compute; reflexivity.
  - split; [exact H1 | exact H2].
Defined.

(** Claim C7. Two checks of one caller with limit 1, their commands
    interleaved: both read the counter before either has written it, both
    set it to 1, and both are accepted.  The check is a read followed by a
    separate write, as the commands received by the server show. *)
Theorem rate_limit_check_then_set_race :
  let '(a, b, s) :=
    redis.interleave [true; false; true; false]
      (redis.CheckRateLimit "key-1" 1) (redis.CheckRateLimit "key-1" 1)
      Sample.server0 in
  a = (false, 0, None) /\ b = (false, 0, None) /\
  (accepted a + accepted b = 2)%nat /\
  redis.received s
  = [ redis.SET "ratelimit:key-1" (redis.RInt 1) redis.minute;
      redis.SET "ratelimit:key-1" (redis.RInt 1) redis.minute;
      redis.GET "ratelimit:key-1"; redis.GET "ratelimit:key-1" ].
Proof. vm_compute. repeat split; reflexivity. Qed.

(** One after the other, the second of the two checks is refused. *)
Example rate_limit_sequential_limit_1 :
  fst (checks "key-1" 1 [0; 0] Sample.server0) = [(false, 0, None); (true, 0, None)].
Proof. vm_compute. reflexivity. Qed.

Example anthropic_two_system_messages :
  let req :=
    {| ChatRequest.Model := "claude-haiku-4-5-20251001";
       ChatRequest.Messages :=
         [Sample.system "be brief"; Sample.user "hi"; Sample.system "be kind";
          Sample.user "2+2?"];
       ChatRequest.Temperature := None; ChatRequest.MaxTokens := None;
       ChatRequest.TopP := None; ChatRequest.Stream := false |} in
  AnthropicRequest.System (wire_request req) = "be kind" /\
  AnthropicRequest.Messages (wire_request req)
  = [ {| AnthropicMessage.Role := "user"; AnthropicMessage.Content := "hi" |};
      {| AnthropicMessage.Role := "user"; AnthropicMessage.Content := "2+2?" |} ] /\
  AnthropicRequest.MaxTokens (wire_request req) = 4096.
Proof. vm_compute. repeat split; reflexivity. Qed.

Lemma rate_limit_fails_open_witness :
  @handlers.RateLimitMiddleware Sample.env Sample.passthrough Sample.writer
    {| handlers.ctx_api_key := Some (Sample.key 60 true); handlers.Body := "plain";
       handlers.alloc := Sample.cells |}
    {| handlers.store := Sample.unreachable; handlers.net := Sample.net0 [];
       handlers.db := Sample.db0 |}
  = (Sample.writer,
     {| handlers.store :=
          {| redis.data := ∅; redis.clock := 0; redis.faults := [];
             redis.received := [redis.GET "ratelimit:key-1"] |};
        handlers.net := Sample.net0 []; handlers.db := Sample.db0 |}).
Proof.
  refine (@rate_limit_fails_open Sample.env Sample.passthrough Sample.writer
            {| handlers.ctx_api_key := Some (Sample.key 60 true); handlers.Body := "plain";
               handlers.alloc := Sample.cells |}
            {| handlers.store := Sample.unreachable; handlers.net := Sample.net0 [];
               handlers.db := Sample.db0 |}
            (Sample.key 60 true) false 0 "dial tcp: connection refused"
            {| redis.data := ∅; redis.clock := 0; redis.faults := [];
               redis.received := [redis.GET "ratelimit:key-1"] |} _ _).
  - reflexivity.
  - vm_compute; reflexivity.
Defined.


(** The streamed request of the sample run is logged with the eight total
    tokens of its last chunk, no prompt or completion tokens, and cost 0. *)
Example streaming_log_record :
  List.map (fun log => (models.PromptTokens log, models.CompletionTokens log,
                        models.TotalTokens log, models.CostUSD log))
    (database.logs (handlers.db
       (snd (@handlers.handleStreamingChat Sample.env
               {| handlers.providerMgr := Sample.healthy_manager |} Sample.writer
               (Sample.key 60 true) (Sample.request "claude-haiku-4-5-20251001" None true)
               Sample.sys0))))
  = [(0, 0, 8, S754_zero false)].
Proof. vm_compute. reflexivity. Qed.

(** * Further properties *)

(** ** The store and the cache *)

Lemma run_bind {A B} (p : redis.Prog A) (f : A -> redis.Prog B) (s : redis.Server) :
  redis.run (redis.bind p f) s
  = let '(a, s') := redis.run p s in redis.run (f a) s'.
Proof.
  revert s. induction p as [a|c k IH]; intros s; cbn [redis.bind redis.run].
  - reflexivity.
  - destruct (redis.step c s) as [r s']. apply IH.
Qed.

Lemma step_clock c s : redis.clock (snd (redis.step c s)) = redis.clock s.
Proof.
  unfold redis.step. destruct (redis.faults s) as [|[] fs]; try reflexivity;
    now destruct (redis.exec c s).
Qed.

Lemma step_other_key c s k :
  key_of c <> k ->
  redis.data (snd (redis.step c s)) !! k = redis.data s !! k.
Proof.
  intros Hk. unfold redis.step.
  assert (He : snd (redis.exec c s) !! k = redis.data s !! k).
  { destruct c as [key|key v ttl|key|key ttl]; cbn [key_of] in Hk; cbn [redis.exec].
    - now destruct (redis.lookup s key).
    - cbn [snd]. now apply lookup_insert_ne.
    - destruct (redis.lookup s key) as [[[n|str] d]|]; cbn [snd]; try reflexivity.
      + destruct (n <? redis.max_int64); cbn [snd]; [now apply lookup_insert_ne|reflexivity].
      + now apply lookup_insert_ne.
    - destruct (redis.lookup s key); cbn [snd]; [now apply lookup_insert_ne|reflexivity]. }
  destruct (redis.faults s) as [|[] fs]; try reflexivity;
    destruct (redis.exec c s); exact He.
Qed.

Lemma step_get_data key s : redis.data (snd (redis.step (redis.GET key) s)) = redis.data s.
Proof.
  unfold redis.step. destruct (redis.faults s) as [|[] fs]; try reflexivity;
    cbn [redis.exec]; now destruct (redis.lookup s key).
Qed.

Lemma lookup_same s s' k :
  redis.data s' !! k = redis.data s !! k -> redis.clock s' = redis.clock s ->
  redis.lookup s' k = redis.lookup s k.
Proof. intros Hd Hc. unfold redis.lookup. now rewrite Hd, Hc. Qed.

Lemma run_clock {A} (p : redis.Prog A) s :
  redis.clock (snd (redis.run p s)) = redis.clock s.
Proof.
  revert s. induction p as [a|c k IH]; intros s; cbn [redis.run]; [reflexivity|].
  pose proof (step_clock c s) as Hc. destruct (redis.step c s) as [r s'].
  rewrite IH. exact Hc.
Qed.

(** A method working on one key leaves every other key as it was. *)
Lemma run_uses_only {A} (p : redis.Prog A) k k' s :
  uses_only k p -> k <> k' ->
  redis.lookup (snd (redis.run p s)) k' = redis.lookup s k'.
Proof.
  intros Hu Hne. revert s. induction Hu as [a|c cont Hk _ IH]; intros s; cbn [redis.run].
  - reflexivity.
  - pose proof (step_other_key c s k' ltac:(congruence)) as Hd.
    pose proof (step_clock c s) as Hc.
    destruct (redis.step c s) as [r s']. rewrite IH. now apply lookup_same.
Qed.

(** A method that only reads leaves the data as it was. *)
Lemma run_reads_only {A} (p : redis.Prog A) s :
  reads_only p -> redis.data (snd (redis.run p s)) = redis.data s.
Proof.
  intros Hr. revert s. induction Hr as [a|key cont _ IH]; intros s; cbn [redis.run].
  - reflexivity.
  - pose proof (step_get_data key s) as Hd.
    destruct (redis.step (redis.GET key) s) as [r s']. now rewrite IH.
Qed.

Lemma CheckRateLimit_uses_only id L :
  uses_only (rate_key id) (redis.CheckRateLimit id L).
Proof.
  unfold redis.CheckRateLimit. fold (rate_key id).
  constructor; [reflexivity|]. intros r.
  destruct r as [|[count|str]|n| |e]; try constructor.
  - reflexivity.
  - intros r'. destruct r'; constructor.
  - destruct (L <=? count); constructor; [reflexivity|].
    intros r'. destruct r' as [| |newCount| |]; try constructor.
    destruct (newCount =? 1); constructor; [reflexivity|]. intros _. constructor.
Qed.

Section CacheProps.
Context {E : Env}.

Lemma cache_Get_reads_only req : reads_only (cache.Get req).
Proof.
  unfold cache.Get, redis.Get. cbn [redis.bind]. constructor. intros r.
  destruct r as [|[n|v]|n| |e]; cbn [redis.bind]; try constructor;
    destruct (response_unmarshal _); constructor.
Qed.

Lemma cache_Get_uses_only req : uses_only (cache.generateCacheKey req) (cache.Get req).
Proof.
  unfold cache.Get, redis.Get. cbn [redis.bind]. constructor; [reflexivity|]. intros r.
  destruct r as [|[n|v]|n| |e]; cbn [redis.bind]; try constructor;
    destruct (response_unmarshal _); constructor.
Qed.

Lemma cache_Set_uses_only req resp ttl :
  uses_only (cache.generateCacheKey req) (cache.Set_ req resp ttl).
Proof.
  unfold cache.Set_, redis.Set_. destruct (response_marshal resp); [|constructor].
  constructor; [reflexivity|]. intros r. destruct r; constructor.
Qed.

Lemma cache_key_not_rate_key req id : cache.generateCacheKey req <> rate_key id.
Proof. unfold cache.generateCacheKey, rate_key. discriminate. Qed.

(** A cache lookup changes nothing in the store's data, whatever the
    store holds and whether or not the connection works. *)
Theorem cache_get_is_read_only (req : ChatRequest.t) (s : redis.Server) :
  redis.data (snd (redis.run (cache.Get req) s)) = redis.data s /\
  redis.clock (snd (redis.run (cache.Get req) s)) = redis.clock s.
Proof. split; [apply run_reads_only, cache_Get_reads_only | apply run_clock]. Qed.

(** Property X1. What was stored comes back: after [Set] on a working connection,
    [Get] for the same request returns the response that was stored, as long
    as the TTL (when positive) has not run out, whatever the key held
    before. *)
Theorem cache_set_then_get
    (req : ChatRequest.t) (resp : ChatResponse.t) (js : string) (ttl dt : Z)
    (s : redis.Server) :
  redis.faults s = [] ->
  response_marshal resp = inl js ->
  response_unmarshal js = inl resp ->
  0 <= dt -> (0 < ttl -> dt < ttl) ->
  fst (redis.run (cache.Set_ req resp ttl) s) = None /\
  fst (redis.run (cache.Get req)
         (redis.elapse dt (snd (redis.run (cache.Set_ req resp ttl) s)))) = inl resp.
Proof.
  intros Hf Hm Hu Hdt Httl.
  unfold cache.Set_, redis.Set_. rewrite Hm. cbn [redis.run].
  rewrite (step_healthy _ _ Hf). cbn [redis.exec fst snd]. split; [reflexivity|].
  unfold cache.Get. rewrite run_bind. unfold redis.Get. cbn [redis.run].
  rewrite step_healthy by reflexivity.
  assert (Hl : redis.lookup
                 (redis.elapse dt
                    {| redis.data := <[cache.generateCacheKey req :=
                                         redis.Entry (redis.RStr js)
                                           (redis.deadline (redis.clock s) ttl)]>
                                       (redis.data s);
                       redis.clock := redis.clock s; redis.faults := [];
                       redis.received :=
                         redis.SET (cache.generateCacheKey req) (redis.RStr js) ttl
                           :: redis.received s |})
                 (cache.generateCacheKey req)
               = Some (redis.Entry (redis.RStr js) (redis.deadline (redis.clock s) ttl))).
  { unfold redis.lookup. cbn [redis.elapse redis.data redis.clock].
    rewrite lookup_insert_eq. unfold redis.live, redis.deadline. cbn [redis.expire_at].
    destruct (0 <? ttl) eqn:Ht; [|reflexivity].
    apply Z.ltb_lt in Ht. now rewrite (proj2 (Z.ltb_lt _ _)) by lia. }
  cbn [redis.exec fst snd]. rewrite Hl. cbn [fst snd redis.val redis.run].
  now rewrite Hu.
Qed.

(** Property X2. A cache entry written with a positive TTL is gone once the TTL has
    passed: the lookup then fails with "key not found". *)
Theorem cache_entry_expires
    (req : ChatRequest.t) (resp : ChatResponse.t) (js : string) (ttl dt : Z)
    (s : redis.Server) :
  redis.faults s = [] ->
  response_marshal resp = inl js ->
  0 < ttl <= dt ->
  fst (redis.run (cache.Get req)
         (redis.elapse dt (snd (redis.run (cache.Set_ req resp ttl) s))))
  = inr "key not found".
Proof.
  intros Hf Hm Httl.
  unfold cache.Set_, redis.Set_. rewrite Hm. cbn [redis.run].
  rewrite (step_healthy _ _ Hf). cbn [redis.exec fst snd].
  unfold cache.Get. rewrite run_bind. unfold redis.Get. cbn [redis.run].
  rewrite step_healthy by reflexivity. cbn [redis.exec fst snd].
  unfold redis.lookup at 1. cbn [redis.elapse redis.data redis.clock].
  rewrite lookup_insert_eq. unfold redis.live, redis.deadline. cbn [redis.expire_at].
  rewrite (proj2 (Z.ltb_lt 0 ttl)) by lia.
  rewrite (proj2 (Z.ltb_ge _ _)) by lia. reflexivity.
Qed.

(** Property X3. The rate limiter and the cache keep out of each other's way: a
    rate-limit check leaves every cache entry as it was, and a cache write
    or read leaves every caller's counter as it was. *)
Theorem rate_limiter_and_cache_are_disjoint
    (id : string) (L : Z) (req : ChatRequest.t) (resp : ChatResponse.t) (ttl : Z)
    (s : redis.Server) :
  redis.lookup (snd (redis.run (redis.CheckRateLimit id L) s)) (cache.generateCacheKey req)
  = redis.lookup s (cache.generateCacheKey req) /\
  redis.lookup (snd (redis.run (cache.Set_ req resp ttl) s)) (rate_key id)
  = redis.lookup s (rate_key id) /\
  redis.lookup (snd (redis.run (cache.Get req) s)) (rate_key id)
  = redis.lookup s (rate_key id).
Proof.
  pose proof (cache_key_not_rate_key req id) as Hne. repeat split.
  - apply (run_uses_only _ _ _ _ (CheckRateLimit_uses_only id L)). congruence.
  - now apply (run_uses_only _ _ _ _ (cache_Set_uses_only req resp ttl)).
  - now apply (run_uses_only _ _ _ _ (cache_Get_uses_only req)).
Qed.

End CacheProps.

(** ** The rate limiter on an arbitrary store *)

(** A command either fails on the connection, leaving the data alone, or
    is executed. *)
Lemma step_cases c s :
  (exists e s', redis.step c s = (redis.RErr e, s') /\ redis.data s' = redis.data s /\
                redis.clock s' = redis.clock s) \/
  (exists s', redis.step c s = (fst (redis.exec c s), s') /\
              redis.data s' = snd (redis.exec c s) /\ redis.clock s' = redis.clock s).
Proof.
  unfold redis.step. destruct (redis.faults s) as [|[] fs].
  - right. destruct (redis.exec c s). eexists. repeat split.
  - left. do 2 eexists. repeat split.
  - right. destruct (redis.exec c s). eexists. repeat split.
Qed.

(** The outcomes of one check, each with what it leaves in the store's
    data. *)
Lemma CheckRateLimit_cases (id : string) (L : Z) (s : redis.Server) :
  1 <= L <= redis.max_int64 ->
  let r := fst (redis.run (redis.CheckRateLimit id L) s) in
  let d := redis.data (snd (redis.run (redis.CheckRateLimit id L) s)) in
  (exists e, r = (false, 0, Some e)) \/
  (r = (true, 0, None) /\ d = redis.data s /\
   exists c t, redis.lookup s (rate_key id) = Some (redis.Entry (redis.RInt c) t) /\ L <= c) \/
  (r = (false, L - 1, None) /\ redis.lookup s (rate_key id) = None /\
   exists t, d !! rate_key id = Some (redis.Entry (redis.RInt 1) t)) \/
  (exists c t rem,
     r = (false, rem, None) /\ 0 <= rem /\
     redis.lookup s (rate_key id) = Some (redis.Entry (redis.RInt c) t) /\ c < L /\
     (0 <= c -> rem = L - (c + 1)) /\
     exists t', d !! rate_key id = Some (redis.Entry (redis.RInt (c + 1)) t')).
Proof.
  intros HL r d. subst r d. unfold redis.CheckRateLimit. fold (rate_key id).
  cbn [redis.run].
  destruct (step_cases (redis.GET (rate_key id)) s)
    as [(e & s1 & -> & Hd1 & Hc1) | (s1 & -> & Hd1 & Hc1)].
  { left. eexists. reflexivity. }
  cbn [redis.exec] in *.
  destruct (redis.lookup s (rate_key id)) as [[[c|str] t]|] eqn:Hl;
    cbn [fst snd redis.val] in *.
  - (* a counter *)
    destruct (L <=? c) eqn:Hc.
    + apply Z.leb_le in Hc. right; left. cbn [redis.run fst snd]. eauto 10.
    + apply Z.leb_gt in Hc. cbn [redis.run].
      assert (Hl1 : redis.lookup s1 (rate_key id) = Some (redis.Entry (redis.RInt c) t))
        by (rewrite <- Hl; apply lookup_same; [now rewrite Hd1 | exact Hc1]).
      destruct (step_cases (redis.INCR (rate_key id)) s1)
        as [(e & s2 & -> & Hd2 & Hc2) | (s2 & -> & Hd2 & Hc2)].
      { left. eexists. reflexivity. }
      cbn [redis.exec] in *. rewrite Hl1 in *.
      destruct (c <? redis.max_int64) eqn:Hm; cbn [fst snd] in *;
        [|left; eexists; reflexivity].
      right; right; right. exists c, t.
      assert (Hrem : 0 <= (if wrap64 (L - (c + 1)) <? 0 then 0 else wrap64 (L - (c + 1)))).
      { destruct (wrap64 _ <? 0) eqn:Hw; [lia|now apply Z.ltb_ge in Hw]. }
      assert (Hval : 0 <= c ->
                (if wrap64 (L - (c + 1)) <? 0 then 0 else wrap64 (L - (c + 1))) = L - (c + 1)).
      { intros Hc0. rewrite wrap64_small by (unfold redis.max_int64 in HL; lia).
        now rewrite (proj2 (Z.ltb_ge _ _)) by lia. }
      destruct (c + 1 =? 1) eqn:H1; cbn [redis.run].
      * destruct (step_cases (redis.EXPIRE (rate_key id) redis.minute) s2)
          as [(e & s3 & -> & Hd3 & Hc3) | (s3 & -> & Hd3 & Hc3)];
          cbn [redis.run fst snd]; eexists; repeat split; try eassumption.
        -- rewrite Hd3, Hd2. eexists. apply lookup_insert_eq.
        -- rewrite Hd3. cbn [redis.exec].
           assert (Hl2 : redis.lookup s2 (rate_key id)
                         = Some (redis.Entry (redis.RInt (c + 1)) t)).
           { unfold redis.lookup. rewrite Hd2, lookup_insert_eq, Hc2, Hc1.
             unfold redis.lookup in Hl. destruct (redis.data s !! rate_key id) as [e0|];
               [|discriminate].
             destruct (redis.live (redis.clock s) e0) eqn:Hlive; [|discriminate].
             injection Hl as ->. unfold redis.live in *. cbn [redis.expire_at] in *.
             now rewrite Hlive. }
           rewrite Hl2. cbn [snd redis.val]. eexists. apply lookup_insert_eq.
      * cbn [fst snd]. eexists. repeat split; try eassumption.
        rewrite Hd2. eexists. apply lookup_insert_eq.
  - (* not a number *)
    left. cbn [redis.run fst]. eexists. reflexivity.
  - (* no counter *)
    cbn [redis.run].
    destruct (step_cases (redis.SET (rate_key id) (redis.RInt 1) redis.minute) s1)
      as [(e & s2 & -> & Hd2 & Hc2) | (s2 & -> & Hd2 & Hc2)].
    { left. eexists. reflexivity. }
    cbn [redis.exec fst snd redis.run] in *. right; right; left.
    rewrite wrap64_small by (unfold redis.max_int64 in HL; lia).
    repeat split. rewrite Hd2. eexists. apply lookup_insert_eq.
Qed.

(** Property X4. The number of remaining requests a check reports is never negative,
    whatever the store holds; it is 0 when the limit is reported as exceeded
    and when the check fails, and a check that reports the limit as exceeded
    leaves the counter as it was. *)
Theorem rate_limit_remaining_bounds (id : string) (L : Z) (s : redis.Server) :
  1 <= L <= redis.max_int64 ->
  let '(exceeded, remaining, err) := fst (redis.run (redis.CheckRateLimit id L) s) in
  0 <= remaining /\
  (exceeded = true -> remaining = 0 /\ err = None /\
     redis.data (snd (redis.run (redis.CheckRateLimit id L) s)) = redis.data s) /\
  (err <> None -> exceeded = false /\ remaining = 0).
Proof.
  intros HL. pose proof (CheckRateLimit_cases id L s HL) as H. cbn zeta in H.
  destruct (fst (redis.run (redis.CheckRateLimit id L) s)) as [[exceeded remaining] err].
  destruct H as [(e & [= -> -> ->]) | [([= -> -> ->] & Hd & _)
    | [([= -> -> ->] & _) | (c & t & rem & [= -> -> ->] & Hrem & _)]]].
  - split; [lia|]. split; [discriminate|]. intros _. split; reflexivity.
  - split; [lia|]. split; [intros _; repeat split; exact Hd|].
    intros Hn. exfalso. now apply Hn.
  - split; [lia|]. split; [discriminate|]. intros Hn. exfalso. now apply Hn.
  - split; [exact Hrem|]. split; [discriminate|]. intros Hn. exfalso. now apply Hn.
Qed.

(** Property X5. An accepted check counts: without an error and without the limit
    exceeded, the counter stored afterwards is 1 for a caller that had none,
    and one more than before otherwise. *)
Theorem rate_limit_accepted_is_counted (id : string) (L : Z) (s : redis.Server)
    (remaining : Z) :
  1 <= L <= redis.max_int64 ->
  fst (redis.run (redis.CheckRateLimit id L) s) = (false, remaining, None) ->
  exists t,
    redis.data (snd (redis.run (redis.CheckRateLimit id L) s)) !! rate_key id
    = Some (redis.Entry
              (redis.RInt (match redis.lookup s (rate_key id) with
                           | Some (redis.Entry (redis.RInt c) _) => c + 1
                           | _ => 1
                           end)) t).
Proof.
  intros HL Hr. pose proof (CheckRateLimit_cases id L s HL) as H. cbn zeta in H.
  rewrite Hr in H.
  destruct H as [(e & [=]) | [([=] & _) | [(_ & -> & t & Ht)
    | (c & t & rem & _ & _ & -> & _ & _ & t' & Ht)]]]; eauto.
Qed.

(** ** Routing and the failover table *)

Section ManagerProps.
Context {E : Env}.

Lemma detectProvider_cases model :
  detectProvider model = "openai" /\ GoStrings.HasPrefix model "gpt-" = true \/
  detectProvider model = "anthropic" /\ GoStrings.HasPrefix model "claude-" = true \/
  detectProvider model = "google" /\ GoStrings.HasPrefix model "gemini-" = true \/
  detectProvider model = "" /\
    GoStrings.HasPrefix model "gpt-" = false /\
    GoStrings.HasPrefix model "claude-" = false /\
    GoStrings.HasPrefix model "gemini-" = false.
Proof.
  unfold detectProvider.
  destruct (GoStrings.HasPrefix model "gpt-"); [auto|].
  destruct (GoStrings.HasPrefix model "claude-"); [auto|].
  destruct (GoStrings.HasPrefix model "gemini-"); auto 10.
Qed.

(** Property X7. A model whose name starts with none of [gpt-], [claude-], [gemini-]
    is refused with "unknown model", and a model whose provider has no key
    with "provider ... not configured"; in both cases no provider is called
    and no failover is tried. *)
Theorem unroutable_model_is_refused (m : Manager) (req : ChatRequest.t) (n : Net) :
  (GoStrings.HasPrefix (ChatRequest.Model req) "gpt-" = false ->
   GoStrings.HasPrefix (ChatRequest.Model req) "claude-" = false ->
   GoStrings.HasPrefix (ChatRequest.Model req) "gemini-" = false ->
   ManagerChatCompletion m req n
   = ((None, "", false, Some ("unknown model: " +:+ ChatRequest.Model req)), n)) /\
  (detectProvider (ChatRequest.Model req) <> "" ->
   providers m !! detectProvider (ChatRequest.Model req) = None ->
   ManagerChatCompletion m req n
   = ((None, "", false,
       Some ("provider " +:+ detectProvider (ChatRequest.Model req)
             +:+ " not configured (check API key)")), n)).
Proof.
  split.
  - intros H1 H2 H3. unfold ManagerChatCompletion, GetProvider, detectProvider.
    now rewrite H1, H2, H3.
  - intros Hd Hp. unfold ManagerChatCompletion, GetProvider.
    destruct (String.eqb_spec (detectProvider (ChatRequest.Model req)) ""); [contradiction|].
    now rewrite Hp.
Qed.

Lemma tryFailover_shape m om op chain req n :
  let '((resp, name, fo, err), n') := tryFailover m om op chain req n in
  ((exists r, resp = Some r /\ err = None /\ fo = true) \/
   (resp = None /\ fo = false /\ name = op /\
    err = Some ("all providers failed for model " +:+ om))) /\
  exists new, calls n' = (new ++ calls n)%list /\ (length new <= length chain)%nat.
Proof.
  revert req n. induction chain as [|f chain IH]; intros req n; cbn [tryFailover].
  - split; [right; auto|]. exists []. split; [reflexivity|cbn; lia].
  - destruct (GetProvider m f) as [[p name]|e].
    + pose proof (invoke_calls p name (ChatRequest.with_Model f req) n) as Hc.
      destruct (invoke p name (ChatRequest.with_Model f req) n) as [[resp|e] n1].
      * split; [left; eauto|]. exists [(name, ChatRequest.with_Model f req)].
        split; [now apply Hc with (r := inl resp)|cbn; lia].
      * specialize (IH (ChatRequest.with_Model f req) n1).
        destruct (tryFailover m om op chain (ChatRequest.with_Model f req) n1)
          as [[[[resp name'] fo] err] n'].
        destruct IH as [Hs (new & Hn & Hl)]. split; [exact Hs|].
        exists (new ++ [(name, ChatRequest.with_Model f req)])%list. split.
        -- rewrite Hn, (Hc (inr e) n1 eq_refl), <- app_assoc. reflexivity.
        -- rewrite length_app. cbn. lia.
    + specialize (IH (ChatRequest.with_Model f req) n).
      destruct (tryFailover m om op chain (ChatRequest.with_Model f req) n)
        as [[[[resp name'] fo] err] n'].
      destruct IH as [Hs (new & Hn & Hl)]. split; [exact Hs|].
      exists new. split; [exact Hn|cbn; lia].
Qed.

(** Property X8. What the manager returns is either a response without error or an
    error without response, never both and never neither; [failoverUsed] is
    set only together with a response; and it makes at most one provider
    call more than the filtered chain of the requested model is long. *)
Theorem manager_outcome_well_formed (m : Manager) (req : ChatRequest.t) (n : Net) :
  let '((resp, name, failoverUsed, err), n') := ManagerChatCompletion m req n in
  ((exists r, resp = Some r /\ err = None) \/
   (exists e, resp = None /\ err = Some e /\ failoverUsed = false)) /\
  exists new,
    calls n' = (new ++ calls n)%list /\
    (length new <= 1 + length (GetFailoverChain m (ChatRequest.Model req)))%nat.
Proof.
  unfold ManagerChatCompletion.
  destruct (GetProvider m (ChatRequest.Model req)) as [[p name]|e].
  - pose proof (invoke_calls p name req n) as Hc.
    destruct (invoke p name req n) as [[resp|e] n1].
    + split; [left; eauto|]. exists [(name, req)].
      split; [now apply Hc with (r := inl resp)|cbn; lia].
    + destruct (isRetryableError e); cbn [negb].
      * pose proof (tryFailover_shape m (ChatRequest.Model req)
                      (detectProvider (ChatRequest.Model req))
                      (GetFailoverChain m (ChatRequest.Model req)) req n1) as H.
        destruct (tryFailover _ _ _ _ _ _) as [[[[resp name'] fo] err] n'].
        destruct H as [Hs (new & Hn & Hl)]. split.
        -- destruct Hs as [(r & -> & -> & _) | (-> & -> & _ & ->)]; [left|right]; eauto.
        -- exists (new ++ [(name, req)])%list. split.
           ++ rewrite Hn, (Hc (inr e) n1 eq_refl), <- app_assoc. reflexivity.
           ++ rewrite length_app. cbn. lia.
      * split; [right; eauto|]. exists [(name, req)].
        split; [now apply Hc with (r := inr e)|cbn; lia].
  - split; [right; eauto|]. exists []. split; [reflexivity|cbn; lia].
Qed.

Lemma GetFailoverChain_eq_filter (m : Manager) (model : string) :
  GetFailoverChain m model
  = List.filter (fun f => bool_decide (is_Some (providers m !! detectProvider f)))
                (default [] (failover m !! model)).
Proof.
  unfold GetFailoverChain. destruct (failover m !! model) as [chain|]; [|reflexivity].
  rewrite GetFailoverChain_filter. reflexivity.
Qed.

(** Property X10. The filtered chain of a model is the static chain of that model
    with the models of unconfigured providers left out, in the same order;
    a model without entry in the table has the empty chain. *)
Theorem failover_chain_is_filtered (m : Manager) (model : string) :
  GetFailoverChain m model
  = List.filter (fun f => bool_decide (is_Some (providers m !! detectProvider f)))
                (default [] (failover m !! model)) /\
  (failover m !! model = None -> GetFailoverChain m model = []).
Proof.
  split; [apply GetFailoverChain_eq_filter|].
  intros H. rewrite GetFailoverChain_eq_filter, H. reflexivity.
Qed.

Lemma setupFailoverChains_entries model chain :
  setupFailoverChains !! model = Some chain ->
  In (model, chain)
     [ ("gpt-4o", ["claude-sonnet-4-5-20250929"; "gemini-2.5-pro"]);
       ("gpt-4o-mini", ["claude-haiku-4-5-20251001"; "gemini-2.5-flash"]);
       ("gpt-4", ["claude-opus-4-5-20251101"; "gemini-2.5-pro"]);
       ("claude-sonnet-4-5-20250929", ["gpt-4o"; "gemini-2.5-pro"]);
       ("claude-haiku-4-5-20251001", ["gpt-4o-mini"; "gemini-2.5-flash"]);
       ("gemini-2.5-flash", ["gpt-4o-mini"; "claude-haiku-4-5-20251001"]);
       ("gemini-2.5-pro", ["gpt-4o"; "claude-sonnet-4-5-20250929"]) ].
Proof.
  unfold setupFailoverChains. intros H.
  repeat (apply lookup_insert_Some in H as [[<- <-] | [_ H]];
          [cbn; tauto|]).
  now rewrite lookup_empty in H.
Qed.

Lemma NewManager_chain_crosses
    (cfg : Config) (a b c : Provider) (model f : string) :
  In f (GetFailoverChain (NewManager cfg a b c) model) ->
  detectProvider f <> detectProvider model /\ detectProvider f <> "".
Proof.
  rewrite GetFailoverChain_eq_filter. intros Hin. apply filter_In in Hin as [Hin _].
  unfold NewManager in Hin. cbn [failover] in Hin.
  destruct (setupFailoverChains !! model) as [chain|] eqn:Hc; [|destruct Hin].
  apply setupFailoverChains_entries in Hc. cbn [default] in Hin.
  cbn [In] in Hc.
  repeat (destruct Hc as [[= <- <-] | Hc];
          [cbn [In] in Hin;
           repeat (destruct Hin as [<- | Hin]; [split; vm_compute; discriminate|]);
           destruct Hin|]).
  destruct Hc.
Qed.

(** Property X11. In a manager built by [NewManager], a fallback model is always
    served by a provider other than the one of the model asked for, and by
    one of the three known providers. *)
Theorem failover_crosses_providers
    (cfg : Config) (a b c : Provider) (model f : string) :
  In f (GetFailoverChain (NewManager cfg a b c) model) ->
  detectProvider f <> detectProvider model /\
  In (detectProvider f) ["openai"; "anthropic"; "google"].
Proof.
  intros Hin. destruct (NewManager_chain_crosses _ _ _ _ _ _ Hin) as [H1 H2].
  split; [exact H1|].
  destruct (detectProvider_cases f) as [[-> _]|[[-> _]|[[-> _]|[He _]]]];
    cbn; auto; contradiction.
Qed.

(** Property X12. When the provider of the requested model is the only one with a
    key, there is nothing to fall back to: a retryable failure of the primary
    call ends in "all providers failed" after that one call. *)
Theorem single_provider_has_no_failover
    (cfg : Config) (a b c : Provider) (req : ChatRequest.t) (n n1 : Net)
    (p : Provider) (name : string) (e : error) :
  (forall k, is_Some (providers (NewManager cfg a b c) !! k) ->
             k = detectProvider (ChatRequest.Model req)) ->
  GetProvider (NewManager cfg a b c) (ChatRequest.Model req) = inl (p, name) ->
  invoke p name req n = (inr e, n1) ->
  isRetryableError e = true ->
  GetFailoverChain (NewManager cfg a b c) (ChatRequest.Model req) = [] /\
  ManagerChatCompletion (NewManager cfg a b c) req n
  = ((None, detectProvider (ChatRequest.Model req), false,
      Some ("all providers failed for model " +:+ ChatRequest.Model req)), n1) /\
  calls n1 = (name, req) :: calls n.
Proof.
  intros Honly Hp Hi Hr.
  assert (Hnil : GetFailoverChain (NewManager cfg a b c) (ChatRequest.Model req) = []).
  { destruct (GetFailoverChain _ _) as [|f chain] eqn:Hc; [reflexivity|exfalso].
    assert (Hin : In f (GetFailoverChain (NewManager cfg a b c) (ChatRequest.Model req)))
      by (rewrite Hc; now left).
    destruct (NewManager_chain_crosses _ _ _ _ _ _ Hin) as [Hne _].
    apply chain_configured in Hin. now apply Honly in Hin. }
  split; [exact Hnil|]. split.
  - unfold ManagerChatCompletion. rewrite Hp, Hi, Hr, Hnil. reflexivity.
  - exact (invoke_calls _ _ _ _ _ _ Hi).
Qed.

End ManagerProps.

(** ** Joining strings *)

Lemma str_app_nil_r (s : string) : s +:+ "" = s.
Proof.
  induction s as [|c s IH]; [reflexivity|].
  change (String c s +:+ "") with (String c (s +:+ "")). now rewrite IH.
Qed.

Lemma str_app_assoc (a b c : string) : (a +:+ b) +:+ c = a +:+ (b +:+ c).
Proof.
  induction a as [|ch a IH]; [reflexivity|].
  change ((String ch a +:+ b) +:+ c) with (String ch ((a +:+ b) +:+ c)).
  now rewrite IH.
Qed.

Lemma concat_empty_cons (x : string) (xs : list string) :
  String.concat "" (x :: xs) = x +:+ String.concat "" xs.
Proof.
  destruct xs as [|y ys]; cbn [String.concat]; [now rewrite str_app_nil_r|reflexivity].
Qed.

(** ** The Anthropic client *)

Section AnthropicProps.
Context {E : Env}.

(** Property X13. The Messages API always receives a positive [max_tokens]: the
    caller's value when it is positive, 4096 when it is absent, zero or
    negative. *)
Theorem anthropic_max_tokens_default (req : ChatRequest.t) :
  0 < AnthropicRequest.MaxTokens (wire_request req) /\
  AnthropicRequest.MaxTokens (wire_request req)
  = match deref (ChatRequest.MaxTokens req) with
    | Some n => if 0 <? n then n else 4096
    | None => 4096
    end.
Proof.
  assert (H : AnthropicRequest.MaxTokens (wire_request req)
              = match deref (ChatRequest.MaxTokens req) with
                | Some n => if 0 <? n then n else 4096
                | None => 4096
                end).
  { unfold wire_request, convertRequest.
    destruct (fold_left _ _ _) as [msgs systemPrompt].
    destruct (negb _); cbn;
      destruct (deref (ChatRequest.MaxTokens req)) as [k|]; try reflexivity;
      now destruct (0 <? k). }
  split; [|exact H]. rewrite H.
  destruct (deref (ChatRequest.MaxTokens req)) as [k|]; [|lia].
  destruct (0 <? k) eqn:Hk; [now apply Z.ltb_lt in Hk|lia].
Qed.

(** The request sent to Anthropic does not depend on the caller's
    [top_p] nor on the [stream] flag: the sampling parameter [top_p] is never
    forwarded, while the temperature is passed on as it came. *)
Theorem anthropic_drops_top_p (req : ChatRequest.t)
    (topP : option (ref spec_float)) (stream : bool) :
  wire_request
    {| ChatRequest.Model := ChatRequest.Model req;
       ChatRequest.Messages := ChatRequest.Messages req;
       ChatRequest.Temperature := ChatRequest.Temperature req;
       ChatRequest.MaxTokens := ChatRequest.MaxTokens req;
       ChatRequest.TopP := topP;
       ChatRequest.Stream := stream |}
  = wire_request req /\
  AnthropicRequest.Temperature (wire_request req) = ChatRequest.Temperature req /\
  AnthropicRequest.Stream (wire_request req) = false.
Proof.
  split; [reflexivity|].
  unfold wire_request, convertRequest.
  destruct (fold_left _ _ _) as [msgs systemPrompt].
  destruct (negb _); cbn;
    destruct (deref (ChatRequest.MaxTokens req)) as [k|]; try (split; reflexivity);
    destruct (0 <? k); split; reflexivity.
Qed.

Lemma text_blocks_fold blocks acc :
  fold_left (fun acc block =>
               if String.eqb (Type_ block) "text" then acc +:+ Text block else acc)
            blocks acc
  = acc +:+ String.concat ""
              (List.map Text
                 (List.filter (fun block => String.eqb (Type_ block) "text") blocks)).
Proof.
  revert acc. induction blocks as [|b blocks IH]; intros acc; cbn [fold_left List.filter].
  - cbn [List.map String.concat]. now rewrite str_app_nil_r.
  - rewrite IH. destruct (String.eqb (Type_ b) "text"); [|reflexivity].
    cbn [List.map]. now rewrite concat_empty_cons, str_app_assoc.
Qed.

(** Property X14. The answer built from an Anthropic response has exactly one choice,
    by the assistant, whose text is the text blocks of the response joined in
    their order, blocks of other types left out; prompt and completion
    tokens are the input and output tokens, the total their sum, and the
    model is the one the upstream reports. *)
Theorem anthropic_response_converted (resp : AnthropicResponse.t) (latencyMs created : Z) :
  let r := convertResponse resp latencyMs created in
  ChatResponse.Choices r
  = [ {| openai.Index := 0;
         openai.Message :=
           {| openai.Role := "assistant";
              openai.Content :=
                String.concat ""
                  (List.map Text
                     (List.filter (fun block => String.eqb (Type_ block) "text")
                                  (AnthropicResponse.Content resp))) |};
         openai.FinishReason := "stop" |} ] /\
  openai.PromptTokens (ChatResponse.Usage r) = InputTokens (AnthropicResponse.Usage resp) /\
  openai.CompletionTokens (ChatResponse.Usage r) = OutputTokens (AnthropicResponse.Usage resp) /\
  openai.TotalTokens (ChatResponse.Usage r)
  = wrap64 (InputTokens (AnthropicResponse.Usage resp)
            + OutputTokens (AnthropicResponse.Usage resp)) /\
  ChatResponse.Model r = AnthropicResponse.Model resp.
Proof.
  cbn zeta. unfold convertResponse. cbn. rewrite text_blocks_fold. repeat split.
Qed.

(** Property X15. The Anthropic client answers with a response only when the upstream
    answered 200 with a body that parses; every other outcome is an error:
    for a status other than 200 the error names the status and carries the
    body, for a failed exchange it carries the cause. *)
Theorem anthropic_response_only_on_200 (req : ChatRequest.t) (w : World) :
  let w1 := snd (clock w) in
  match fst (anthropic_post (wire_request req) w1) with
  | TransportError e =>
      fst (AnthropicChatCompletion req w) = inr ("Anthropic API error: " +:+ e)
  | HttpResponse status body =>
      if status =? 200 then
        match anthropic_unmarshal body with
        | inl ar =>
            exists resp, fst (AnthropicChatCompletion req w) = inl resp /\
                         ChatResponse.Model resp = AnthropicResponse.Model ar
        | inr e =>
            fst (AnthropicChatCompletion req w) = inr ("failed to parse response: " +:+ e)
        end
      else
        fst (AnthropicChatCompletion req w)
        = inr ("Anthropic API error (status " +:+ GoStrings.fmt_d status +:+ "): " +:+ body)
  end.
Proof.
  cbn zeta. unfold AnthropicChatCompletion.
  destruct (clock w) as [startTime w1]. cbn [snd].
  destruct (anthropic_post (wire_request req) w1) as [[e|status body] w2]; cbn [fst].
  - reflexivity.
  - destruct (status =? 200); cbn [negb]; [|reflexivity].
    destruct (anthropic_unmarshal body) as [ar|e]; [|reflexivity].
    destruct (clock w2) as [t w3]. destruct (clock w3) as [created w4].
    eexists. split; reflexivity.
Qed.

End AnthropicProps.

(** ** The Gemini client *)

Section GeminiProps.
Context {E : Env}.
Import GeminiProvider.

Lemma gemini_contents_fold (ms : list openai.ChatCompletionMessage) acc :
  fold_left
    (fun contents msg =>
       (contents ++ [ {| Role := convertRole (openai.Role msg);
                         Parts := [ {| Text := openai.Content msg |} ] |} ])%list)
    ms acc
  = (acc ++ List.map (fun msg => {| Role := convertRole (openai.Role msg);
                                    Parts := [ {| Text := openai.Content msg |} ] |}) ms)%list.
Proof.
  revert acc. induction ms as [|m ms IH]; intros acc; cbn [fold_left List.map].
  - now rewrite app_nil_r.
  - rewrite IH, <- app_assoc. reflexivity.
Qed.

Lemma convertRole_cases role :
  convertRole role <> "assistant" /\ convertRole role <> "system" /\
  (role = "assistant" -> convertRole role = "model") /\
  (role = "system" -> convertRole role = "user") /\
  (role <> "assistant" -> role <> "system" -> convertRole role = role).
Proof.
  unfold convertRole.
  destruct (String.eqb_spec role "assistant") as [->|Ha].
  - cbn. repeat split; try discriminate; try reflexivity. intros H; now destruct H.
  - destruct (String.eqb_spec role "system") as [->|Hs].
    + repeat split; try discriminate; try reflexivity. intros _ H; now destruct H.
    + repeat split; try assumption; try reflexivity; intros ->; contradiction.
Qed.

(** Property X16. The Gemini request has one content per message, in the order of the
    messages, each with the message text as its only part; the role
    [assistant] becomes [model], the role [system] becomes [user], every
    other role is kept, so that no content has the role [assistant] or
    [system]. *)
Theorem gemini_roles_mapped (req : ChatRequest.t) :
  Contents (convertRequest req)
  = List.map (fun msg => {| Role := convertRole (openai.Role msg);
                            Parts := [ {| Text := openai.Content msg |} ] |})
             (ChatRequest.Messages req) /\
  Forall (fun c => Role c <> "assistant" /\ Role c <> "system")
         (Contents (convertRequest req)) /\
  (forall role,
     (role = "assistant" -> convertRole role = "model") /\
     (role = "system" -> convertRole role = "user") /\
     (role <> "assistant" -> role <> "system" -> convertRole role = role)).
Proof.
  assert (H : Contents (convertRequest req)
              = List.map (fun msg => {| Role := convertRole (openai.Role msg);
                                        Parts := [ {| Text := openai.Content msg |} ] |})
                         (ChatRequest.Messages req)).
  { unfold convertRequest. cbn [Contents]. now rewrite gemini_contents_fold. }
  split; [exact H|]. split.
  - rewrite H. apply List.Forall_forall. intros c Hin.
    apply in_map_iff in Hin as [m [<- _]]. cbn [Role].
    destruct (convertRole_cases (openai.Role m)) as (H1 & H2 & _). now split.
  - intros role. destruct (convertRole_cases role) as (_ & _ & H3 & H4 & H5). auto.
Qed.

(** Property X17. The generation parameters are sent exactly when the caller gave at
    least one of temperature, max_tokens and top_p, and then carry all three
    as given ([top_p] included, unlike for Anthropic); no default is put in
    for [max_tokens]. *)
Theorem gemini_generation_config (req : ChatRequest.t) :
  (GenerationConfig (convertRequest req) = None <->
   ChatRequest.Temperature req = None /\ ChatRequest.MaxTokens req = None /\
   ChatRequest.TopP req = None) /\
  (forall cfg, GenerationConfig (convertRequest req) = Some cfg ->
     Temperature cfg = ChatRequest.Temperature req /\
     TopP cfg = ChatRequest.TopP req /\
     MaxOutputTokens cfg = ChatRequest.MaxTokens req).
Proof.
  unfold convertRequest. cbn [GenerationConfig].
  destruct (ChatRequest.Temperature req), (ChatRequest.MaxTokens req),
    (ChatRequest.TopP req); split;
    try (split; [discriminate | intros (? & ? & ?); discriminate]);
    try (intros cfg [= <-]; repeat split);
    try (split; [auto | reflexivity]);
    try discriminate.
Qed.

Lemma parts_text_fold parts acc :
  fold_left (fun content part => content +:+ Text part) parts acc
  = acc +:+ String.concat "" (List.map Text parts).
Proof.
  revert acc. induction parts as [|p parts IH]; intros acc; cbn [fold_left List.map].
  - cbn [String.concat]. now rewrite str_app_nil_r.
  - now rewrite IH, concat_empty_cons, str_app_assoc.
Qed.

(** Property X18. The answer built from a Gemini response reports the model that was
    requested, not one named by the upstream; its only choice holds the
    joined parts of the first candidate (the empty text when there is no
    candidate), later candidates are ignored; the usage is taken over as
    reported. *)
Theorem gemini_response_converted
    (resp : GeminiResponse) (model : string) (latencyMs unix created : Z) :
  let r := convertResponse resp model latencyMs unix created in
  ChatResponse.Model r = model /\
  ChatResponse.Choices r
  = [ {| openai.Index := 0;
         openai.Message :=
           {| openai.Role := "assistant";
              openai.Content :=
                match Candidates resp with
                | candidate :: _ =>
                    String.concat "" (List.map Text (Parts (Content candidate)))
                | [] => ""
                end |};
         openai.FinishReason := "stop" |} ] /\
  openai.TotalTokens (ChatResponse.Usage r) = TotalTokenCount (UsageMetadata resp) /\
  openai.PromptTokens (ChatResponse.Usage r) = PromptTokenCount (UsageMetadata resp) /\
  openai.CompletionTokens (ChatResponse.Usage r)
  = CandidatesTokenCount (UsageMetadata resp).
Proof.
  cbn zeta. unfold convertResponse. cbn. repeat split.
  destruct (Candidates resp) as [|cand rest]; [reflexivity|].
  unfold parts_text. now rewrite parts_text_fold.
Qed.

End GeminiProps.

(** ** The chat handler, path by path *)

Section HandlerProps.
Context {E : Env}.
Import handlers.

Lemma calls_time_Now s : calls (net (snd (time_Now s))) = calls (net s).
Proof. unfold time_Now. now destruct (clock (world (net s))). Qed.

Lemma calls_time_Since t s : calls (net (snd (time_Since t s))) = calls (net s).
Proof.
  unfold time_Since. pose proof (calls_time_Now s) as H.
  destruct (time_Now s). exact H.
Qed.

(** Reading the clock touches neither the store, nor the database, nor the
    list of provider calls. *)
Ltac read_clock :=
  match goal with
  | |- context [time_Since ?t ?s] =>
      let Hs := fresh "Hstore" in
      let Hd := fresh "Hdb" in
      let Hc := fresh "Hcalls" in
      pose proof (store_time_Since t s) as Hs;
      pose proof (db_time_Since t s) as Hd;
      pose proof (calls_time_Since t s) as Hc;
      destruct (time_Since t s) as [? ?]; cbn [snd] in Hs, Hd, Hc
  | |- context [time_Now ?s] =>
      let Hs := fresh "Hstore" in
      let Hd := fresh "Hdb" in
      let Hc := fresh "Hcalls" in
      pose proof (store_time_Now s) as Hs;
      pose proof (db_time_Now s) as Hd;
      pose proof (calls_time_Now s) as Hc;
      destruct (time_Now s) as [? ?]; cbn [snd] in Hs, Hd, Hc
  end.

(** Property X20. A request without identity is answered 401 and a request whose body
    does not decode is answered 400; neither reaches the store, a provider
    or the log. *)
Theorem rejected_request_leaves_no_trace
    (h : ChatHandler) (w : ResponseWriter) (r : Request) (s : Sys) :
  ctx_api_key r = None \/ request_decode (Body r) = None ->
  (fst (HandleChatCompletion h w r s)
   = match ctx_api_key r with
     | Some _ => http_Error w "invalid request body" 400
     | None => http_Error w "unauthorized" 401
     end) /\
  store (snd (HandleChatCompletion h w r s)) = store s /\
  db (snd (HandleChatCompletion h w r s)) = db s /\
  calls (net (snd (HandleChatCompletion h w r s))) = calls (net s).
Proof.
  intros Hr. unfold HandleChatCompletion. read_clock.
  destruct (ctx_api_key r) as [apiKey|]; [|cbn; auto].
  destruct Hr as [Hr|Hr]; [discriminate|]. unfold Decode. rewrite Hr. cbn. auto.
Qed.

(** Property X21. For a caller whose cache is switched off, the handler leaves the
    store alone: nothing is looked up and nothing is written, streaming or
    not, whatever the providers answer. *)
Theorem cache_disabled_skips_store
    (h : ChatHandler) (w : ResponseWriter) (r : Request) (s : Sys)
    (apiKey : models.APIKey) :
  ctx_api_key r = Some apiKey ->
  models.CacheEnabled apiKey = false ->
  store (snd (HandleChatCompletion h w r s)) = store s.
Proof.
  intros Hk Hc. unfold HandleChatCompletion. read_clock. rewrite Hk.
  destruct (Decode r) as [req|]; [|exact Hstore].
  destruct (ChatRequest.Stream req); [now rewrite store_handleStreamingChat|].
  rewrite Hc.
  destruct (ManagerChatCompletion _ _ _) as [[[[resp name] fo] err] n'].
  destruct err as [e|], resp as [resp|]; cbn [with_net store];
    try (read_clock; cbn; now rewrite Hstore0); try exact Hstore.
  destruct (calculateCost _ _ _ _) as [cost cerr].
  read_clock. read_clock.
  destruct (response_marshal _); cbn; now rewrite Hstore1, Hstore0.
Qed.

Lemma cache_get_is_read_only_data (req : ChatRequest.t) (st : redis.Server) :
  redis.data (snd (redis.run (cache.Get req) st)) = redis.data st /\
  redis.clock (snd (redis.run (cache.Get req) st)) = redis.clock st.
Proof. split; [apply run_reads_only, cache_Get_reads_only | apply run_clock]. Qed.

Lemma get_hit (req : ChatRequest.t) (st : redis.Server) (js : string)
    (d : option Z) (resp : ChatResponse.t) :
  redis.faults st = [] ->
  redis.lookup st (cache.generateCacheKey req) = Some (redis.Entry (redis.RStr js) d) ->
  response_unmarshal js = inl resp ->
  redis.run (cache.Get req) st
  = (inl resp,
     {| redis.data := redis.data st; redis.clock := redis.clock st; redis.faults := [];
        redis.received := redis.GET (cache.generateCacheKey req) :: redis.received st |}).
Proof.
  intros Hf Hl Hu. unfold cache.Get. rewrite run_bind. unfold redis.Get. cbn [redis.run].
  rewrite (step_healthy _ _ Hf). cbn [redis.exec fst snd]. rewrite Hl.
  cbn [fst snd redis.val redis.run]. now rewrite Hu.
Qed.

(** The handler on a cache hit. *)
Lemma handler_cache_hit
    (h : ChatHandler) (w : ResponseWriter) (r : Request) (s : Sys)
    (apiKey : models.APIKey) (req : ChatRequest.t) (js : string) (d : option Z)
    (resp : ChatResponse.t) :
  ctx_api_key r = Some apiKey ->
  models.CacheEnabled apiKey = true ->
  Decode r = Some req ->
  ChatRequest.Stream req = false ->
  redis.faults (store s) = [] ->
  redis.lookup (store s) (cache.generateCacheKey req)
  = Some (redis.Entry (redis.RStr js) d) ->
  response_unmarshal js = inl resp ->
  let w' := fst (HandleChatCompletion h w r s) in
  let s' := snd (HandleChatCompletion h w r s) in
  calls (net s') = calls (net s) /\
  redis.data (store s') = redis.data (store s) /\
  Header w' !! "X-Cache-Hit" = Some "true" /\
  Header w' !! "X-Cost-USD" = Some (fmt_float6 F64.zero) /\
  Header w' !! "X-Failover" = Header w !! "X-Failover" /\
  exists log,
    database.logs (db s') = log :: database.logs (db s) /\
    models.CacheHit log = true /\ models.CostUSD log = F64.zero /\
    models.StatusCode log = 200 /\ models.APIKeyID log = models.ID apiKey.
Proof.
  intros Hk Hc Hd Hs Hf Hl Hu. cbn zeta. unfold HandleChatCompletion.
  read_clock. rewrite Hk, Hd, Hs, Hc.
  rewrite Hstore in *. rewrite (get_hit req (store s) js d resp Hf Hl Hu).
  cbn [with_store]. read_clock. read_clock.
  cbn [store db net with_store] in *.
  assert (Hh : forall (w0 : ResponseWriter) k v k',
             k <> k' -> Header (HeaderSet k v w0) !! k' = Header w0 !! k').
  { intros. unfold HeaderSet. cbn [Header]. now apply lookup_insert_ne. }
  assert (Hh' : forall (w0 : ResponseWriter) k v, Header (HeaderSet k v w0) !! k = Some v).
  { intros. unfold HeaderSet. cbn [Header]. apply lookup_insert_eq. }
  assert (Hw : forall (w0 : ResponseWriter) str, Header (Fprintf str w0) = Header w0)
    by reflexivity.
  destruct (response_marshal _); cbn [fst snd]; rewrite ?Hw;
    (repeat split;
     [ cbn [logRequest with_db net]; congruence
     | cbn [logRequest with_db store]; rewrite Hstore1, Hstore0; reflexivity
     | rewrite !Hh by discriminate; apply Hh'
     | rewrite !Hh by discriminate; apply Hh'
     | rewrite !Hh by discriminate; reflexivity
     | eexists; cbn [logRequest with_db db database.LogRequest
                     database.UpdateAPIKeyLastUsed database.logs];
       rewrite Hdb1, Hdb0; cbn [db]; rewrite Hdb; repeat split ]).
Qed.

(** Property X22. A request answered from the cache calls no provider and writes
    nothing to the store; the answer is marked [X-Cache-Hit: true], its cost
    is zero in the header and in the log record, which is written with
    [cache_hit] set. *)
Theorem cache_hit_calls_no_provider
    (h : ChatHandler) (w : ResponseWriter) (r : Request) (s : Sys)
    (apiKey : models.APIKey) (req : ChatRequest.t) (js : string) (d : option Z)
    (resp : ChatResponse.t) :
  ctx_api_key r = Some apiKey ->
  models.CacheEnabled apiKey = true ->
  Decode r = Some req ->
  ChatRequest.Stream req = false ->
  redis.faults (store s) = [] ->
  redis.lookup (store s) (cache.generateCacheKey req)
  = Some (redis.Entry (redis.RStr js) d) ->
  response_unmarshal js = inl resp ->
  let w' := fst (HandleChatCompletion h w r s) in
  let s' := snd (HandleChatCompletion h w r s) in
  calls (net s') = calls (net s) /\
  redis.data (store s') = redis.data (store s) /\
  Header w' !! "X-Cache-Hit" = Some "true" /\
  Header w' !! "X-Cost-USD" = Some (fmt_float6 F64.zero) /\
  exists log,
    database.logs (db s') = log :: database.logs (db s) /\
    models.CacheHit log = true /\ models.CostUSD log = F64.zero.
Proof.
  intros Hk Hc Hd Hs Hf Hl Hu.
  destruct (handler_cache_hit h w r s apiKey req js d resp Hk Hc Hd Hs Hf Hl Hu)
    as (H1 & H2 & H3 & H4 & _ & log & H5 & H6 & H7 & _).
  cbn zeta. eauto 10.
Qed.



(** Property X23. When the providers fail, the caller gets status 500 with the text
    of the error, nothing is put into the cache, and the failure is logged
    with status 500 and the error message under the provider the manager
    names. *)
Theorem provider_error_is_reported
    (h : ChatHandler) (w : ResponseWriter) (r : Request) (s : Sys)
    (apiKey : models.APIKey) (req : ChatRequest.t)
    (name : string) (fo : bool) (e : error) :
  ctx_api_key r = Some apiKey ->
  Decode r = Some req ->
  ChatRequest.Stream req = false ->
  (models.CacheEnabled apiKey = true ->
   exists ce, fst (redis.run (cache.Get req) (store s)) = inr ce) ->
  fst (ManagerChatCompletion (providerMgr h) req (net (snd (time_Now s))))
  = (None, name, fo, Some e) ->
  let w' := fst (HandleChatCompletion h w r s) in
  let s' := snd (HandleChatCompletion h w r s) in
  w' = http_Error w ("provider error: " +:+ e) 500 /\
  redis.data (store s') = redis.data (store s) /\
  exists log,
    database.logs (db s') = log :: database.logs (db s) /\
    models.StatusCode log = 500 /\ models.ErrorMessage log = Some e /\
    models.Provider log = name /\ models.CacheHit log = false.
Proof.
  intros Hk Hd Hs Hmiss Hm. cbn zeta. unfold HandleChatCompletion.
  read_clock. rewrite Hk, Hd, Hs. cbn [snd] in Hm.
  set (cached := if models.CacheEnabled apiKey then _ else _).
  assert (Hc : exists st, cached = (None, with_store st s0) /\
                          redis.data st = redis.data (store s)).
  { subst cached. destruct (models.CacheEnabled apiKey).
    - destruct (Hmiss eq_refl) as [ce Hce]. rewrite <- Hstore in Hce.
      pose proof (proj1 (cache_get_is_read_only_data req (store s0))) as Hro.
      destruct (redis.run (cache.Get req) (store s0)) as [res st]. cbn [fst snd] in *.
      subst res. exists st. split; [reflexivity|]. now rewrite Hro, Hstore.
    - exists (store s0). split; [now destruct s0|now rewrite Hstore]. }
  destruct Hc as (st & -> & Hst). cbn [net with_store].
  destruct (ManagerChatCompletion _ _ _) as [[[[resp name'] fo'] err] n'].
  cbn [fst] in Hm. injection Hm as -> -> -> ->.
  read_clock. cbn [fst snd]. split; [reflexivity|]. split.
  - cbn [logRequest with_db store]. rewrite Hstore0. cbn. exact Hst.
  - eexists. cbn [logRequest with_db db database.LogRequest
                  database.UpdateAPIKeyLastUsed database.logs].
    rewrite Hdb0. cbn [db with_net with_store]. rewrite Hdb. repeat split.
Qed.




Lemma omap_usage_cons (c : openai.ChatCompletionStreamResponse) cs :
  omap openai.StreamUsage (c :: cs)
  = match openai.StreamUsage c with
    | Some u => u :: omap openai.StreamUsage cs
    | None => omap openai.StreamUsage cs
    end.
Proof. reflexivity. Qed.

(** The chunk loop: the frames it writes and the total it ends with. *)
Lemma streamChunks_spec cs : forall t (w : ResponseWriter),
  fst (streamChunks cs t w)
  = match last (omap openai.StreamUsage cs) with
    | Some u => openai.TotalTokens u
    | None => t
    end /\
  written (snd (streamChunks cs t w)) = (rev (List.map sse_frame cs) ++ written w)%list /\
  Header (snd (streamChunks cs t w)) = Header w /\
  status (snd (streamChunks cs t w))
  = match cs with [] => status w | _ => Some (default 200 (status w)) end.
Proof.
  induction cs as [|c cs IH]; intros t w; cbn [streamChunks].
  - cbn. auto.
  - destruct (IH (match openai.StreamUsage c with
                  | Some u => openai.TotalTokens u | None => t end)
                 (Fprintf ("data: " +:+ chunk_marshal c +:+ nl2) w))
      as (H1 & H2 & H3 & H4).
    rewrite H1, H2, H3, H4, omap_usage_cons. repeat split.
    + destruct (openai.StreamUsage c) as [u|]; [|reflexivity].
      rewrite last_cons. now destruct (last (omap openai.StreamUsage cs)).
    + cbn [List.map rev]. unfold sse_frame at 2. cbn [Fprintf written].
      now rewrite <- app_assoc.
    + destruct cs; cbn [Fprintf WriteHeader status]; now destruct (status w).
Qed.

(** Property X25. A stream that ends normally reaches the caller as one [data:] frame
    per chunk, in the order received, followed by [data: [DONE]]; the log
    record carries as total the total of the last chunk that reported a
    usage.  A stream that breaks is cut off by an error frame after the
    chunks received so far, without [DONE] and without a log record. *)
Theorem stream_is_framed_in_order
    (h : ChatHandler) (w : ResponseWriter) (apiKey : models.APIKey)
    (req : ChatRequest.t) (s : Sys) (p : Provider) (name : string)
    (stream : StreamReader) (wd : World) :
  flusher w = true ->
  GetProvider (providerMgr h) (ChatRequest.Model req) = inl (p, name) ->
  ChatCompletionStream p req (world (net (snd (time_Now s)))) = (inl stream, wd) ->
  let w' := fst (handleStreamingChat h w apiKey req s) in
  let s' := snd (handleStreamingChat h w apiKey req s) in
  Header w' !! "Content-Type" = Some "text/event-stream" /\
  match ending stream with
  | None =>
      written w'
      = (("data: [DONE]" +:+ nl2) :: rev (List.map sse_frame (chunks stream))
           ++ written w)%list /\
      exists log,
        database.logs (db s') = log :: database.logs (db s) /\
        models.TotalTokens log = reported_total (chunks stream) /\
        models.Provider log = name /\ models.StatusCode log = 200
  | Some err =>
      written w'
      = (("data: {" +:+ dq +:+ "error" +:+ dq +:+ ": " +:+ dq +:+ err +:+ dq +:+ "}" +:+ nl2)
           :: rev (List.map sse_frame (chunks stream)) ++ written w)%list /\
      database.logs (db s') = database.logs (db s)
  end.
Proof.
  intros Hfl Hp Hst. cbn zeta. unfold handleStreamingChat.
  read_clock. cbn [snd] in Hst.
  cbn [HeaderSet flusher]. rewrite Hfl. cbn [negb]. rewrite Hp, Hst.
  match goal with
  | |- context [streamChunks ?cs ?t ?w0] =>
      destruct (streamChunks_spec cs t w0) as (H1 & H2 & H3 & _);
      destruct (streamChunks cs t w0) as [totalTokens w1]
  end.
  cbn [fst snd] in H1, H2, H3.
  assert (Hct : Header w1 !! "Content-Type" = Some "text/event-stream").
  { rewrite H3. unfold HeaderSet. cbn [Header].
    rewrite !lookup_insert_ne by discriminate. apply lookup_insert_eq. }
  destruct (ending stream) as [err|].
  - cbn [fst snd Fprintf WriteHeader Header written]. rewrite H2.
    split; [exact Hct|]. split; [reflexivity|]. cbn [with_world with_net db]. now rewrite Hdb.
  - destruct (calculateCost _ _ _ _) as [cost cerr]. read_clock.
    cbn [fst snd Fprintf WriteHeader Header written]. rewrite H2.
    split; [exact Hct|]. split; [reflexivity|].
    eexists. cbn [logRequest with_db db database.LogRequest
                  database.UpdateAPIKeyLastUsed database.logs].
    rewrite Hdb0. cbn [db with_world with_net]. rewrite Hdb. repeat split.
    cbn. rewrite H1. unfold reported_total.
    now destruct (last (omap openai.StreamUsage (chunks stream))).
Qed.


(** Property X26. A streamed request is served by the provider of the requested model
    alone: the manager's completion call, and with it the failover chain, is
    never used, and when the stream cannot be opened the caller gets status
    500 with the error and nothing is logged. *)
Theorem streaming_has_no_failover
    (h : ChatHandler) (w : ResponseWriter) (apiKey : models.APIKey)
    (req : ChatRequest.t) (s : Sys) :
  calls (net (snd (handleStreamingChat h w apiKey req s))) = calls (net s) /\
  (forall p name e wd,
     flusher w = true ->
     GetProvider (providerMgr h) (ChatRequest.Model req) = inl (p, name) ->
     ChatCompletionStream p req (world (net (snd (time_Now s)))) = (inr e, wd) ->
     written (fst (handleStreamingChat h w apiKey req s))
     = ("streaming error: " +:+ e +:+ String (ascii_of_N 10) "") :: written w /\
     (status w = None -> status (fst (handleStreamingChat h w apiKey req s)) = Some 500) /\
     database.logs (db (snd (handleStreamingChat h w apiKey req s)))
     = database.logs (db s)).
Proof.
  split.
  - unfold handleStreamingChat. read_clock.
    destruct (negb _); [exact Hcalls|].
    destruct (GetProvider _ _) as [[provider providerName]|err]; [|exact Hcalls].
    destruct (ChatCompletionStream _ _ _) as [[stream|err] wd]; [|exact Hcalls].
    destruct (streamChunks _ _ _) as [totalTokens w'].
    destruct (ending stream); [exact Hcalls|].
    destruct (calculateCost _ _ _ _) as [cost cerr]. read_clock.
    cbn [snd logRequest with_db net]. rewrite Hcalls0. exact Hcalls.
  - intros p name e wd Hfl Hp Hst. unfold handleStreamingChat.
    read_clock. cbn [snd] in Hst. cbn [HeaderSet flusher]. rewrite Hfl. cbn [negb].
    rewrite Hp, Hst. cbn [fst snd with_world with_net db].
    split; [reflexivity|]. split; [|now rewrite Hdb].
    intros Hs. unfold http_Error, Fprintf, WriteHeader, HeaderSet. cbn [status].
    now rewrite Hs.
Qed.

End HandlerProps.

(** ** Authentication, CORS and the route *)

Lemma Split_cons_sep (s : string) (sep : ascii) :
  gostd.Split (String sep s) sep = "" :: gostd.Split s sep.
Proof. cbn [gostd.Split]. now rewrite Ascii.eqb_refl. Qed.

Lemma Split_cons_other (c : ascii) (s : string) (sep : ascii) :
  c <> sep ->
  gostd.Split (String c s) sep
  = match gostd.Split s sep with
    | piece :: pieces => String c piece :: pieces
    | [] => [String c ""]
    end.
Proof.
  intros Hne. cbn [gostd.Split].
  destruct (Ascii.eqb_spec c sep); [contradiction|reflexivity].
Qed.

Lemma Split_nonempty (s : string) (sep : ascii) : gostd.Split s sep <> [].
Proof.
  destruct s as [|c s]; cbn [gostd.Split]; [discriminate|].
  destruct (Ascii.eqb c sep); [discriminate|].
  destruct (gostd.Split s sep); discriminate.
Qed.

(** Joining the pieces with the separator gives the string back. *)
Lemma Split_join (s : string) (sep : ascii) :
  String.concat (String sep "") (gostd.Split s sep) = s.
Proof.
  induction s as [|c s IH]; [reflexivity|]. cbn [gostd.Split].
  pose proof (Split_nonempty s sep) as Hne.
  destruct (gostd.Split s sep) as [|p ps]; [contradiction|].
  destruct (Ascii.eqb_spec c sep) as [->|Hc].
  - cbn [String.concat]. cbn [String.concat] in IH. now rewrite IH.
  - cbn [String.concat] in *. destruct ps as [|q qs]; [now subst|].
    change (String c p +:+ String sep "" +:+ String.concat (String sep "") (q :: qs))
      with (String c (p +:+ String sep "" +:+ String.concat (String sep "") (q :: qs))).
    now rewrite IH.
Qed.

Lemma Split_no_sep (s : string) (sep : ascii) :
  GoStrings.Contains s (String sep "") = false -> gostd.Split s sep = [s].
Proof.
  induction s as [|c s IH]; [reflexivity|]. cbn [GoStrings.Contains GoStrings.HasPrefix].
  cbn [gostd.Split]. rewrite Ascii.eqb_sym.
  destruct (Ascii.eqb c sep); [discriminate|]. cbn [orb]. intros H. now rewrite IH.
Qed.

Lemma Split_bearer (token : string) :
  GoStrings.Contains token " " = false ->
  gostd.Split ("Bearer " +:+ token) " " = ["Bearer"; token].
Proof.
  intros Hn.
  change ("Bearer " +:+ token)
    with (String "B" (String "e" (String "a" (String "r" (String "e" (String "r"
           (String " " token))))))).
  repeat (rewrite Split_cons_other by discriminate).
  rewrite Split_cons_sep, (Split_no_sep token " " Hn). reflexivity.
Qed.

Section AuthProps.
Context {E : Env}.
Import handlers middleware.

Lemma auth_middleware_decides_aux
    (m : Middleware) (next : HttpHandler) (w : ResponseWriter) (r : HttpRequest)
    (s : Sys) :
  ((exists msg, AuthMiddleware m next w r s = (http_Error w msg 401, s)) \/
   (exists token apiKey,
      Authorization r = "Bearer " +:+ token /\
      api_keys m !! SHA256.hex_of_string token = Some (apiKey, true) /\
      database.broken (db s) = None /\
      AuthMiddleware m next w r s = next w (WithAPIKey apiKey r) s)) /\
  (forall token apiKey,
     Authorization r = "Bearer " +:+ token ->
     GoStrings.Contains token " " = false ->
     api_keys m !! SHA256.hex_of_string token = Some (apiKey, true) ->
     database.broken (db s) = None ->
     AuthMiddleware m next w r s = next w (WithAPIKey apiKey r) s).
Proof.
  split.
  - unfold AuthMiddleware.
    destruct (String.eqb (Authorization r) ""); [left; eauto|].
    pose proof (Split_join (Authorization r) " ") as Hj.
    destruct (gostd.Split (Authorization r) " ") as [|scheme [|token [|x xs]]];
      try (left; eauto; fail).
    destruct (String.eqb_spec scheme "Bearer") as [->|]; cbn [negb]; [|left; eauto].
    unfold GetAPIKey.
    destruct (database.broken (db s)) as [e|] eqn:Hb; [left; eauto|].
    destruct (api_keys m !! SHA256.hex_of_string token) as [[apiKey [|]]|] eqn:Hk;
      try (left; eauto; fail).
    right. exists token, apiKey. repeat split; auto; now rewrite <- Hj.
  - intros token apiKey Ha Hn Hk Hb. unfold AuthMiddleware. rewrite Ha.
    change (("Bearer " +:+ token =? "")%string) with false. cbn match.
    rewrite (Split_bearer token Hn).
    change (("Bearer" =? "Bearer")%string) with true. cbn [negb].
    unfold GetAPIKey. now rewrite Hb, Hk.
Qed.

(** Property X27. The authentication middleware lets a request through exactly when
    its Authorization header is [Bearer], one space and a token without
    space whose SHA-256 is the hash of an active key, and the database
    answers; the next handler then finds that key as the caller's identity.
    Every other request is answered 401 without reaching the next handler. *)
Theorem auth_middleware_decides
    (m : Middleware) (next : HttpHandler) (w : ResponseWriter) (r : HttpRequest)
    (s : Sys) :
  ((exists msg, AuthMiddleware m next w r s = (http_Error w msg 401, s)) \/
   (exists token apiKey,
      Authorization r = "Bearer " +:+ token /\
      api_keys m !! SHA256.hex_of_string token = Some (apiKey, true) /\
      database.broken (db s) = None /\
      AuthMiddleware m next w r s = next w (WithAPIKey apiKey r) s)) /\
  (forall token apiKey,
     Authorization r = "Bearer " +:+ token ->
     GoStrings.Contains token " " = false ->
     api_keys m !! SHA256.hex_of_string token = Some (apiKey, true) ->
     database.broken (db s) = None ->
     AuthMiddleware m next w r s = next w (WithAPIKey apiKey r) s).
Proof. apply auth_middleware_decides_aux. Qed.

(** Property X28. Behind the route of the chat endpoint, the store, the providers and
    the log are reached only on behalf of an authenticated caller: a
    preflight request ([OPTIONS]) and a request that fails authentication
    leave everything as it was; any other request enters the rate limiter
    with the identity found for its token. *)
Theorem route_serves_only_authenticated
    (m : Middleware) (h : ChatHandler) (w : ResponseWriter) (r : HttpRequest) (s : Sys) :
  let cors :=
    HeaderSet "Access-Control-Allow-Headers" "Content-Type, Authorization"
      (HeaderSet "Access-Control-Allow-Methods" "GET, POST, OPTIONS"
         (HeaderSet "Access-Control-Allow-Origin" "*" w)) in
  (Method r = "OPTIONS" -> chat_route m h w r s = (WriteHeader 200 cors, s)) /\
  (snd (chat_route m h w r s) = s \/
   exists token apiKey,
     Method r <> "OPTIONS" /\
     Authorization r = "Bearer " +:+ token /\
     api_keys m !! SHA256.hex_of_string token = Some (apiKey, true) /\
     chat_route m h w r s
     = RateLimitMiddleware (HandleChatCompletion h) cors
         {| ctx_api_key := Some apiKey; Body := Body (request r);
            alloc := alloc (request r) |} s).
Proof.
  cbn zeta. unfold chat_route, CORSMiddleware. split.
  - intros ->. reflexivity.
  - destruct (String.eqb_spec (Method r) "OPTIONS") as [Ho|Ho]; [left; reflexivity|].
    match goal with
    | |- context [AuthMiddleware m ?nx ?w0 r s] =>
        destruct (proj1 (auth_middleware_decides_aux m nx w0 r s))
          as [(msg & ->) | (token & apiKey & Ha & Hk & _ & ->)]
    end.
    + left. reflexivity.
    + right. exists token, apiKey. repeat split; auto.
Qed.

End AuthProps.

(** ** Configuration and the model tables *)

Section ConfigProps.
Context {E : Env}.

Lemma getEnv_empty_default env key : config.getEnv env key "" = config.Getenv env key.
Proof.
  unfold config.getEnv. destruct (String.eqb_spec (config.Getenv env key) "") as [->|];
    reflexivity.
Qed.

(** Property X29. The configuration is accepted exactly when [DATABASE_URL] is set and
    at least one of the three provider keys is set; malformed numbers or
    booleans never make it fail.  The manager built from an accepted
    configuration has at least one provider. *)
Theorem config_load_requirements
    (env : gmap string string) (a b c : Provider) :
  match config.Load env with
  | inr e =>
      (config.Getenv env "DATABASE_URL" = "" /\ e = "DATABASE_URL is required") \/
      (config.Getenv env "DATABASE_URL" <> "" /\
       config.Getenv env "OPENAI_API_KEY" = "" /\
       config.Getenv env "ANTHROPIC_API_KEY" = "" /\
       config.Getenv env "GEMINI_API_KEY" = "")
  | inl cfg =>
      config.DatabaseURL cfg = config.Getenv env "DATABASE_URL" /\
      config.DatabaseURL cfg <> "" /\
      config.OpenAIAPIKey cfg = config.Getenv env "OPENAI_API_KEY" /\
      config.AnthropicAPIKey cfg = config.Getenv env "ANTHROPIC_API_KEY" /\
      config.GeminiAPIKey cfg = config.Getenv env "GEMINI_API_KEY" /\
      (config.OpenAIAPIKey cfg <> "" \/ config.AnthropicAPIKey cfg <> "" \/
       config.GeminiAPIKey cfg <> "") /\
      providers (NewManager (config.provider_keys cfg) a b c) <> ∅
  end.
Proof.
  unfold config.Load. cbn [config.DatabaseURL config.OpenAIAPIKey
                           config.AnthropicAPIKey config.GeminiAPIKey].
  rewrite !getEnv_empty_default.
  destruct (String.eqb_spec (config.Getenv env "DATABASE_URL") "") as [Hd|Hd];
    [left; auto|].
  destruct (String.eqb_spec (config.Getenv env "OPENAI_API_KEY") "") as [Ho|Ho];
    destruct (String.eqb_spec (config.Getenv env "ANTHROPIC_API_KEY") "") as [Ha|Ha];
    destruct (String.eqb_spec (config.Getenv env "GEMINI_API_KEY") "") as [Hg|Hg];
    cbn [andb]; try (right; auto; fail);
    cbn [config.DatabaseURL config.OpenAIAPIKey config.AnthropicAPIKey config.GeminiAPIKey];
    rewrite ?getEnv_empty_default;
    (repeat split; auto;
     unfold NewManager, config.provider_keys;
     cbn [providers OpenAIAPIKey AnthropicAPIKey GeminiAPIKey];
     rewrite ?getEnv_empty_default;
     repeat match goal with
            | |- context [String.eqb ?x ""] =>
                destruct (String.eqb_spec x ""); try contradiction; cbn [negb]
            end;
     apply insert_non_empty).
Qed.

Lemma valid_in_table (table : list (string * bool)) (model : string) :
  default false ((list_to_map table : gmap string bool) !! model) = true ->
  In model (List.map fst table).
Proof.
  destruct ((list_to_map table : gmap string bool) !! model) as [b|] eqn:H; [|discriminate].
  intros _. apply elem_of_list_to_map_2 in H. apply list_elem_of_In in H.
  apply in_map_iff. now exists (model, b).
Qed.

(** Property X30. The model tables agree with the routing: a model that a client
    declares valid is routed to that client's provider, and every model named
    in the failover table, as key or as fallback, is valid for the provider
    it is routed to. *)
Theorem valid_models_route_to_their_provider :
  (forall model,
     (OpenAIProvider.ValidateModel model = true ->
      detectProvider model = OpenAIProvider.GetProviderName) /\
     (AnthropicProvider.ValidateModel model = true ->
      detectProvider model = AnthropicProvider.GetProviderName) /\
     (GeminiProvider.ValidateModel model = true ->
      detectProvider model = GeminiProvider.GetProviderName)) /\
  (forall model chain,
     setupFailoverChains !! model = Some chain ->
     Forall (fun f =>
               OpenAIProvider.ValidateModel f || AnthropicProvider.ValidateModel f
               || GeminiProvider.ValidateModel f = true)
            (model :: chain)).
Proof.
  split.
  - intros model. repeat split; intros H; apply valid_in_table in H; cbn [List.map fst In] in H;
      repeat (destruct H as [<-|H]; [reflexivity|]); destruct H.
  - intros model chain H. apply setupFailoverChains_entries in H. cbn [In] in H.
    repeat (destruct H as [[= <- <-]|H];
            [repeat constructor; vm_compute; reflexivity|]).
    destruct H.
Qed.

End ConfigProps.

(** ** The rate-limit middleware on a caller's first request *)

Section FirstRequest.
Context {E : Env}.
Import handlers.

(** Property X6. The first request of a caller in a window is always let through,
    with the headers [X-RateLimit-Limit] and [X-RateLimit-Remaining] giving
    the limit and the limit less one; a caller whose configured limit is
    zero or negative is served with the limit 100. *)
Theorem first_request_is_accepted
    (next : Handler) (w : ResponseWriter) (r : Request) (s : Sys)
    (apiKey : models.APIKey) :
  ctx_api_key r = Some apiKey ->
  models.RateLimitPerMinute apiKey <= redis.max_int64 ->
  redis.faults (store s) = [] ->
  redis.lookup (store s) (rate_key (models.ID apiKey)) = None ->
  let L := effective_limit apiKey in
  1 <= L /\
  (models.RateLimitPerMinute apiKey <= 0 -> L = 100) /\
  RateLimitMiddleware next w r s
  = next (HeaderSet "X-RateLimit-Remaining" (GoStrings.fmt_d (L - 1))
            (HeaderSet "X-RateLimit-Limit" (GoStrings.fmt_d L) w))
         r
         (with_store
            {| redis.data :=
                 <[rate_key (models.ID apiKey) :=
                     redis.Entry (redis.RInt 1) (Some (redis.clock (store s) + redis.minute))]>
                   (redis.data (store s));
               redis.clock := redis.clock (store s); redis.faults := [];
               redis.received :=
                 redis.SET (rate_key (models.ID apiKey)) (redis.RInt 1) redis.minute
                   :: redis.GET (rate_key (models.ID apiKey)) :: redis.received (store s) |}
            s).
Proof.
  intros Hk Hmax Hf Hl. cbn zeta.
  assert (HL : 0 < effective_limit apiKey <= redis.max_int64).
  { unfold effective_limit. destruct (models.RateLimitPerMinute apiKey <=? 0) eqn:H0.
    - unfold redis.max_int64. lia.
    - apply Z.leb_gt in H0. lia. }
  split; [lia|]. split.
  - intros H0. unfold effective_limit. now rewrite (proj2 (Z.leb_le _ _) H0).
  - unfold RateLimitMiddleware. rewrite Hk. fold (effective_limit apiKey).
    rewrite (check_first (models.ID apiKey) (effective_limit apiKey) HL (store s) Hf Hl).
    reflexivity.
Qed.

End FirstRequest.

(** ** The Gemini exchange *)

Section GeminiExchange.
Context {E : Env}.
Variable gemini_post : string -> GeminiProvider.GeminiRequest -> World -> HttpOutcome * World.
Variable gemini_unmarshal : string -> GeminiProvider.GeminiResponse + error.
Variable url_parses : string -> bool.

(** Property X19. Whenever the Gemini client returns a response, the upstream had
    answered 200 to a request whose URL names the requested model and carries
    the key, and the response reports the requested model; a status other
    than 200 always gives an error that names the status.  When the URL is
    one that [http.NewRequestWithContext] refuses, nothing is sent and the
    call does not return: it panics on the nil request. *)
Theorem gemini_reports_requested_model
    (apiKey : string) (req : ChatRequest.t) (w : World) :
  let url := "https://generativelanguage.googleapis.com/v1beta/models/"
             +:+ ChatRequest.Model req +:+ ":generateContent?key=" +:+ apiKey in
  let out := fst (gemini_post url (GeminiProvider.convertRequest req) (snd (clock w))) in
  let res :=
    fst (GeminiProvider.ChatCompletion gemini_post gemini_unmarshal url_parses
           apiKey req w) in
  (forall resp, res = GeminiProvider.Returned (inl resp) ->
     ChatResponse.Model resp = ChatRequest.Model req /\
     url_parses url = true /\
     exists body, out = HttpResponse 200 body) /\
  (forall status body,
     url_parses url = true -> out = HttpResponse status body -> status <> 200 ->
     res = GeminiProvider.Returned (inr (status_error "Gemini" status body))) /\
  (url_parses url = false ->
     res = GeminiProvider.Panicked /\
     snd (GeminiProvider.ChatCompletion gemini_post gemini_unmarshal url_parses
            apiKey req w) = snd (clock w)).
Proof.
  cbn zeta. unfold GeminiProvider.ChatCompletion, GeminiProvider.endpoint.
  destruct (clock w) as [startTime w1]. cbn [snd].
  destruct (url_parses _); cbn [negb].
  2: { split; [intros resp [=]|]. split; [intros status body [=]|]. now intros _. }
  destruct (gemini_post _ _ w1) as [[e|status body] w2]; cbn [fst].
  - split; [intros resp [=]|]. split; [intros status body _ [=]|intros [=]].
  - destruct (Z.eqb_spec status 200) as [->|Hs]; cbn [negb].
    + split; [|split; [intros status' body' _ [= <- <-] Hn; contradiction|intros [=]]].
      destruct (gemini_unmarshal body) as [geminiResp|e]; [|intros resp [=]].
      destruct (clock w2) as [t w3]. destruct (clock w3) as [unix w4].
      destruct (clock w4) as [created w5]. cbn [fst].
      intros resp [= <-]. split; [reflexivity|]. split; [reflexivity|]. now exists body.
    + split; [intros resp [=]|]. split; [|intros [=]].
      intros status' body' _ [= <- <-] _. reflexivity.
Qed.

End GeminiExchange.

(** ** Closed instances of the further properties *)

Lemma cache_set_then_get_witness :
  fst (redis.run (@cache.Get Sample2.env Sample.haiku)
         (redis.elapse 10
            (snd (redis.run (@cache.Set_ Sample2.env Sample.haiku Sample2.cached 3600000000000)
                    Sample.server0))))
  = inl Sample2.cached.
Proof.
  apply (@cache_set_then_get Sample2.env Sample.haiku Sample2.cached "msg_1"
           3600000000000 10 Sample.server0).
  - reflexivity.
  - reflexivity.
  - reflexivity.
  - lia.
  - lia.
Defined.

Lemma cache_entry_expires_witness :
  fst (redis.run (@cache.Get Sample2.env Sample.haiku)
         (redis.elapse 3600000000000
            (snd (redis.run (@cache.Set_ Sample2.env Sample.haiku Sample2.cached 3600000000000)
                    Sample.server0))))
  = inr "key not found".
Proof.
  apply (@cache_entry_expires Sample2.env Sample.haiku Sample2.cached "msg_1"
           3600000000000 3600000000000 Sample.server0).
  - reflexivity.
  - reflexivity.
  - lia.
Defined.

Lemma rate_limit_remaining_bounds_witness :
  let '(exceeded, remaining, err) :=
    fst (redis.run (redis.CheckRateLimit "key-1" 2) Sample.unreachable) in
  0 <= remaining /\
  (exceeded = true -> remaining = 0 /\ err = None /\
     redis.data (snd (redis.run (redis.CheckRateLimit "key-1" 2) Sample.unreachable))
     = redis.data Sample.unreachable) /\
  (err <> None -> exceeded = false /\ remaining = 0).
Proof.
  apply (rate_limit_remaining_bounds "key-1" 2 Sample.unreachable).
  unfold redis.max_int64. lia.
Defined.

Lemma rate_limit_accepted_is_counted_witness :
  exists t,
    redis.data (snd (redis.run (redis.CheckRateLimit "key-1" 2) Sample.server0))
      !! rate_key "key-1"
    = Some (redis.Entry (redis.RInt 1) t).
Proof.
  apply (rate_limit_accepted_is_counted "key-1" 2 Sample.server0 1).
  - unfold redis.max_int64. lia.
  - vm_compute. reflexivity.
Defined.

Lemma first_request_is_accepted_witness :
  effective_limit (Sample.key 60 true) = 60 /\
  handlers.Header
    (fst (@handlers.RateLimitMiddleware Sample.env Sample.passthrough Sample.writer
            (Sample2.sample_request "plain" true) Sample.sys0))
    !! "X-RateLimit-Remaining" = Some "59".
Proof.
  destruct (@first_request_is_accepted Sample.env Sample.passthrough Sample.writer
              (Sample2.sample_request "plain" true) Sample.sys0 (Sample.key 60 true))
    as (_ & _ & H).
  - reflexivity.
  - vm_compute. discriminate.
  - reflexivity.
  - vm_compute. reflexivity.
  - split; [reflexivity|]. rewrite H. vm_compute. reflexivity.
Defined.

Lemma failover_exhausted_witness :
  fst (@ManagerChatCompletion Sample.env Sample2.all_down Sample.haiku
         (Sample.net0 [HttpResponse 529 "overloaded"]))
  = (None, "anthropic", false,
     Some "all providers failed for model claude-haiku-4-5-20251001").
Proof.
  pose (n1 := {| world := {| Sample.tick := 1; Sample.script := [] |} : @World Sample.env;
                 calls := [("anthropic", Sample.haiku)] |}).
  pose (n2 := {| world := {| Sample.tick := 1; Sample.script := [] |} : @World Sample.env;
                 calls := [("openai", ChatRequest.with_Model "gpt-4o-mini" Sample.haiku);
                           ("anthropic", Sample.haiku)] |}).
  pose (n3 := {| world := {| Sample.tick := 1; Sample.script := [] |} : @World Sample.env;
                 calls := [("google", ChatRequest.with_Model "gemini-2.5-flash" Sample.haiku);
                           ("openai", ChatRequest.with_Model "gpt-4o-mini" Sample.haiku);
                           ("anthropic", Sample.haiku)] |}).
  rewrite (@failover_exhausted Sample.env Sample2.all_down Sample.haiku
             (Sample.net0 [HttpResponse 529 "overloaded"]) n1 n3
             Sample.anthropic "anthropic" "Anthropic API error (status 529): overloaded").
  - reflexivity.
  - vm_compute; reflexivity.
  - vm_compute; reflexivity.
  - vm_compute; reflexivity.
  - change (GetFailoverChain Sample2.all_down (ChatRequest.Model Sample.haiku))
      with (GetFailoverChain Sample2.all_down "claude-haiku-4-5-20251001").
    replace (GetFailoverChain Sample2.all_down "claude-haiku-4-5-20251001")
      with ["gpt-4o-mini"; "gemini-2.5-flash"] by (vm_compute; reflexivity).
    eapply all_fail_call with (n1 := n2);
      [vm_compute; reflexivity | vm_compute; reflexivity |].
    eapply all_fail_call with (n1 := n3);
      [vm_compute; reflexivity | vm_compute; reflexivity | apply all_fail_nil].
Defined.

Lemma failover_crosses_providers_witness :
  detectProvider "gpt-4o-mini" <> detectProvider "claude-haiku-4-5-20251001" /\
  In (detectProvider "gpt-4o-mini") ["openai"; "anthropic"; "google"].
Proof.
  apply (@failover_crosses_providers Sample.env Sample.all_keys
           (Sample.answering "openai") Sample.anthropic (Sample.answering "google")
           "claude-haiku-4-5-20251001" "gpt-4o-mini").
  vm_compute. left. reflexivity.
Defined.

Lemma single_provider_has_no_failover_witness :
  fst (@ManagerChatCompletion Sample.env
         (@NewManager Sample.env Sample2.anthropic_only (Sample.answering "openai")
            Sample.anthropic (Sample.answering "google"))
         Sample.haiku (Sample.net0 [HttpResponse 529 "overloaded"]))
  = (None, "anthropic", false,
     Some "all providers failed for model claude-haiku-4-5-20251001").
Proof.
  destruct (@single_provider_has_no_failover Sample.env Sample2.anthropic_only
              (Sample.answering "openai") Sample.anthropic (Sample.answering "google")
              Sample.haiku (Sample.net0 [HttpResponse 529 "overloaded"])
              {| world := {| Sample.tick := 1; Sample.script := [] |} : @World Sample.env;
                 calls := [("anthropic", Sample.haiku)] |}
              Sample.anthropic "anthropic" "Anthropic API error (status 529): overloaded")
    as (_ & H & _).
  - intros k [p Hp]. unfold NewManager, Sample2.anthropic_only in Hp.
    cbn [providers OpenAIAPIKey AnthropicAPIKey GeminiAPIKey] in Hp.
    change (negb ("" =? "")%string) with false in Hp.
    change (negb ("sk-2" =? "")%string) with true in Hp. cbn match in Hp.
    apply lookup_insert_Some in Hp as [[<- _]|[_ Hp]]; [reflexivity|].
    now rewrite lookup_empty in Hp.
  - vm_compute; reflexivity.
  - vm_compute; reflexivity.
  - vm_compute; reflexivity.
  - rewrite H. reflexivity.
Defined.

Lemma rejected_request_leaves_no_trace_witness :
  handlers.status
    (fst (@handlers.HandleChatCompletion Sample.env Sample2.chat Sample.writer
            Sample2.anonymous Sample.sys0)) = Some 401 /\
  handlers.store
    (snd (@handlers.HandleChatCompletion Sample.env Sample2.chat Sample.writer
            Sample2.anonymous Sample.sys0)) = Sample.server0.
Proof.
  destruct (@rejected_request_leaves_no_trace Sample.env Sample2.chat Sample.writer
              Sample2.anonymous Sample.sys0) as (H1 & H2 & _).
  - left. reflexivity.
  - split; [rewrite H1; reflexivity | exact H2].
Defined.

Lemma cache_disabled_skips_store_witness :
  handlers.store
    (snd (@handlers.HandleChatCompletion Sample.env Sample2.chat Sample.writer
            (Sample2.sample_request "plain" false) Sample.sys0))
  = Sample.server0.
Proof.
  apply (@cache_disabled_skips_store Sample.env Sample2.chat Sample.writer
           (Sample2.sample_request "plain" false) Sample.sys0 (Sample.key 60 false)).
  - reflexivity.
  - reflexivity.
Defined.

Lemma cache_hit_calls_no_provider_witness :
  calls (handlers.net
           (snd (@handlers.HandleChatCompletion Sample2.env
                   {| handlers.providerMgr := Sample2.manager |} Sample.writer Sample2.plain
                   (handlers.with_store Sample2.warm Sample2.sys0)))) = [] /\
  handlers.Header
    (fst (@handlers.HandleChatCompletion Sample2.env
            {| handlers.providerMgr := Sample2.manager |} Sample.writer Sample2.plain
            (handlers.with_store Sample2.warm Sample2.sys0)))
    !! "X-Cache-Hit" = Some "true".
Proof.
  destruct (@cache_hit_calls_no_provider Sample2.env
              {| handlers.providerMgr := Sample2.manager |} Sample.writer Sample2.plain
              (handlers.with_store Sample2.warm Sample2.sys0)
              (Sample.key 60 true) Sample.haiku "msg_1" None Sample2.cached)
    as (H1 & _ & H3 & _).
  - reflexivity.
  - reflexivity.
  - reflexivity.
  - reflexivity.
  - reflexivity.
  - vm_compute; reflexivity.
  - reflexivity.
  - split; [exact H1 | exact H3].
Defined.

Lemma provider_error_is_reported_witness :
  handlers.status
    (fst (@handlers.HandleChatCompletion Sample.env
            {| handlers.providerMgr := Sample2.all_down |} Sample.writer
            (Sample2.sample_request "plain" true) Sample.sys0)) = Some 500 /\
  redis.data
    (handlers.store
       (snd (@handlers.HandleChatCompletion Sample.env
               {| handlers.providerMgr := Sample2.all_down |} Sample.writer
               (Sample2.sample_request "plain" true) Sample.sys0))) = ∅.
Proof.
  destruct (@provider_error_is_reported Sample.env
              {| handlers.providerMgr := Sample2.all_down |} Sample.writer
              (Sample2.sample_request "plain" true) Sample.sys0
              (Sample.key 60 true) Sample.haiku "anthropic" false
              "Anthropic API error: unexpected EOF")
    as (H1 & H2 & _).
  - reflexivity.
  - reflexivity.
  - reflexivity.
  - intros _. eexists. vm_compute; reflexivity.
  - vm_compute; reflexivity.
  - split; [rewrite H1; reflexivity | exact H2].
Defined.


(** With a temperature in the body the same does not hold: sent again with
    the temperature in another cell, the request misses the cache and the
    provider is called a second time; only when the cell happens to be the
    same one does it hit. *)
Example repeated_request_with_temperature :
  let h := {| handlers.providerMgr := Sample2.manager |} in
  let s1 :=
    snd (@handlers.HandleChatCompletion Sample2.env h Sample.writer
           (Sample2.tempered Sample.cells) Sample2.sys0) in
  let again cells :=
    @handlers.HandleChatCompletion Sample2.env h Sample.writer (Sample2.tempered cells) s1 in
  handlers.Header (fst (again Sample.later_cells)) !! "X-Cache-Hit" = Some "false" /\
  List.map fst (calls (handlers.net (snd (again Sample.later_cells))))
  = ["anthropic"; "anthropic"] /\
  handlers.Header (fst (again Sample.cells)) !! "X-Cache-Hit" = Some "true" /\
  List.map fst (calls (handlers.net (snd (again Sample.cells)))) = ["anthropic"].
Proof. vm_compute. repeat split; reflexivity. Qed.



(** The error text for a counter that is not a number quotes the value. *)
Example rate_limit_counter_not_a_number :
  fst (redis.run (redis.CheckRateLimit "key-1" 5)
         {| redis.data := {[ "ratelimit:key-1" := redis.Entry (redis.RStr "many") None ]};
            redis.clock := 0; redis.faults := []; redis.received := [] |})
  = (false, 0,
     Some ("strconv.Atoi: parsing " +:+ handlers.dq +:+ "many" +:+ handlers.dq
           +:+ ": invalid syntax")).
Proof. vm_compute. reflexivity. Qed.

Lemma stream_is_framed_in_order_witness :
  handlers.written
    (fst (@handlers.handleStreamingChat Sample.env Sample2.chat Sample.writer
            (Sample.key 60 true) (Sample.request "claude-haiku-4-5-20251001" None true)
            Sample.sys0))
  = [ "data: [DONE]" +:+ handlers.nl2; "data: 4" +:+ handlers.nl2 ].
Proof.
  pose proof (@stream_is_framed_in_order Sample.env Sample2.chat Sample.writer
                (Sample.key 60 true) (Sample.request "claude-haiku-4-5-20251001" None true)
                Sample.sys0 (Sample.answering "anthropic") "anthropic"
                {| chunks := [ {| openai.DeltaRole := ""; openai.DeltaContent := "4";
                                  openai.StreamUsage :=
                                    Some {| openai.PromptTokens := 7;
                                            openai.CompletionTokens := 1;
                                            openai.TotalTokens := 8 |} |} ];
                   ending := None |}
                {| Sample.tick := 1; Sample.script := [] |}) as H.
  destruct H as (_ & H & _).
  - reflexivity.
  - vm_compute; reflexivity.
  - vm_compute; reflexivity.
  - rewrite H. reflexivity.
Defined.

Lemma unroutable_model_is_refused_witness :
  @ManagerChatCompletion Sample.env Sample.healthy_manager
    (Sample.request "llama-3" None false) (Sample.net0 [])
  = ((None, "", false, Some "unknown model: llama-3"), Sample.net0 []).
Proof.
  apply (proj1 (@unroutable_model_is_refused Sample.env Sample.healthy_manager
                  (Sample.request "llama-3" None false) (Sample.net0 []))).
  - reflexivity.
  - reflexivity.
  - reflexivity.
Defined.

Lemma gemini_reports_requested_model_witness :
  fst (@GeminiProvider.ChatCompletion Sample.env Sample2.gemini_down
         (fun _ => inr "unexpected end of JSON input") (fun _ => true) "sk-3"
         (Sample.request "gemini-2.5-flash" None false)
         {| Sample.tick := 0; Sample.script := [] |})
  = GeminiProvider.Returned (inr "Gemini API error (status 503): down").
Proof.
  apply (proj1 (proj2 (@gemini_reports_requested_model Sample.env Sample2.gemini_down
                  (fun _ => inr "unexpected end of JSON input") (fun _ => true) "sk-3"
                  (Sample.request "gemini-2.5-flash" None false)
                  {| Sample.tick := 0; Sample.script := [] |})) 503 "down").
  - reflexivity.
  - reflexivity.
  - lia.
Defined.

Lemma streaming_has_no_failover_witness :
  handlers.status
    (fst (@handlers.handleStreamingChat Sample2.env
            {| handlers.providerMgr := Sample2.manager |} Sample.writer
            (Sample.key 60 true) (Sample.request "claude-haiku-4-5-20251001" None true)
            Sample2.sys0))
  = Some 500.
Proof.
  destruct (proj2 (@streaming_has_no_failover Sample2.env
                     {| handlers.providerMgr := Sample2.manager |} Sample.writer
                     (Sample.key 60 true)
                     (Sample.request "claude-haiku-4-5-20251001" None true) Sample2.sys0)
              (Sample2.answering "anthropic") "anthropic" "stream closed"
              {| Sample.tick := 1; Sample.script := [] |})
    as (_ & H & _).
  - reflexivity.
  - vm_compute; reflexivity.
  - vm_compute; reflexivity.
  - apply H. reflexivity.
Defined.

Lemma auth_middleware_decides_witness :
  @middleware.AuthMiddleware Sample.env Sample2.keys (middleware.serve Sample.passthrough)
    Sample.writer Sample2.bearer Sample.sys0
  = middleware.serve Sample.passthrough Sample.writer
      (middleware.WithAPIKey (Sample.key 60 true) Sample2.bearer) Sample.sys0.
Proof.
  apply (proj2 (@auth_middleware_decides Sample.env Sample2.keys
                  (middleware.serve Sample.passthrough) Sample.writer Sample2.bearer
                  Sample.sys0) "sk-live" (Sample.key 60 true)).
  - reflexivity.
  - vm_compute; reflexivity.
  - vm_compute; reflexivity.
  - reflexivity.
Defined.

Lemma route_serves_only_authenticated_witness :
  snd (@middleware.chat_route Sample.env Sample2.keys Sample2.chat Sample.writer
         Sample2.preflight Sample.sys0)
  = Sample.sys0.
Proof.
  rewrite (proj1 (@route_serves_only_authenticated Sample.env Sample2.keys Sample2.chat
                    Sample.writer Sample2.preflight Sample.sys0)).
  - reflexivity.
  - reflexivity.
Defined.
